(** * Subversion: DAG filesystem layer, update editor and status classifier

    A shallow embedding of

      - [subversion/libsvn_fs_fs/dag.c]        (module [Dag]),
      - [subversion/libsvn_wc/status.c]        (module [Status]),
      - [subversion/libsvn_wc/update_editor.c] (module [Editor]),

    together with the properties of these files that the design document
    states.  C functions become Rocq functions of the same name.  A C
    function returning [svn_error_t *] becomes a function into
    [svn_result]; an object that the C code mutates through a pointer is
    returned, updated, next to the result. *)

From Stdlib Require Import ZArith List Bool Lia Ascii String.
From stdpp Require Import base option strings pretty gmap list.

Local Open Scope Z_scope.
Local Open Scope string_scope.

(** ** Common types *)

(** [enum svn_node_kind]. *)
Inductive svn_node_kind : Set :=
| svn_node_none
| svn_node_file
| svn_node_dir
| svn_node_unknown.

#[global] Instance svn_node_kind_eq_dec : EqDecision svn_node_kind.
Proof. solve_decision. Defined.

(** The error codes the three files create themselves, and [SVN_ERR_OTHER]
    for whatever code a callee outside these files hands back (an APR
    status, an I/O failure).  Only the code of an [svn_error_t] is kept;
    the message plays no role below. *)
Inductive svn_errno : Set :=
| SVN_ERR_FS_NOT_DIRECTORY
| SVN_ERR_FS_NOT_FILE
| SVN_ERR_FS_NOT_MUTABLE
| SVN_ERR_FS_ALREADY_EXISTS
| SVN_ERR_FS_NOT_SINGLE_PATH_COMPONENT
| SVN_ERR_FS_NOT_FOUND
| SVN_ERR_WC_OBSTRUCTED_UPDATE
| SVN_ERR_UNSUPPORTED_FEATURE
| SVN_ERR_ENTRY_NOT_FOUND
| SVN_ERR_ENTRY_MISSING_URL
| SVN_ERR_BAD_FILENAME
| SVN_ERR_OTHER (code : Z).

#[global] Instance svn_errno_eq_dec : EqDecision svn_errno.
Proof. solve_decision. Defined.

(** What a call does: return [SVN_NO_ERROR] with its outputs ([Ok]),
    return an error ([Err]), or not return at all ([Abort]: the C code
    calls [abort ()], or dereferences a pointer it has just found NULL). *)
Inductive svn_result (A : Type) : Type :=
| Ok (a : A)
| Err (e : svn_errno)
| Abort.

Arguments Ok {A} a.
Arguments Err {A} e.
Arguments Abort {A}.

(** [SVN_ERR (expr)]: go on with the outputs, or hand the error up. *)
Definition bind {A B : Type} (m : svn_result A) (k : A -> svn_result B)
  : svn_result B :=
  match m with
  | Ok a => k a
  | Err e => Err e
  | Abort => Abort
  end.

Declare Scope svn_scope.
Delimit Scope svn_scope with svn.
Notation "'let*' pat := e 'in' k" :=
  (bind e (fun x => match x with pat => k end))
  (at level 10, pat pattern, e at level 100, k at level 200) : svn_scope.
Local Open Scope svn_scope.

Definition is_ok {A : Type} (r : svn_result A) : bool :=
  match r with Ok _ => true | _ => false end.

(** The path library (libsvn_subr) is outside these files; its functions
    are operations of an interface. *)
Class SvnPath : Type := {
  svn_path_is_single_path_component : string -> bool;
  svn_path_join : string -> string -> string;
  svn_path_add_component : string -> string -> string;
  svn_path_split : string -> option string * string;
  svn_path_remove_component : string -> string;
  svn_path_last_component : string -> string
}.

(** [svn_path_is_empty], which only [svn_wc_is_wc_root] and
    [svn_wc_get_actual_target] call. *)
Class SvnPathEmpty : Type := {
  svn_path_is_empty : string -> bool
}.


(** Modelled from the spec: a reference path library (libsvn_subr is not
    among the sources).  Components are separated by [/]; a single path
    component is a non-empty name without [/] that is neither [.] nor
    [..]. *)
Module RefPath.

Fixpoint has_slash (s : string) : bool :=
  match s with
  | EmptyString => false
  | String c s => if bool_decide (c = "/"%char) then true else has_slash s
  end.

Definition is_single_path_component (name : string) : bool :=
  negb (has_slash name)
  && negb (bool_decide (name = ""))
  && negb (bool_decide (name = "."))
  && negb (bool_decide (name = "..")).

Fixpoint ends_with_slash (s : string) : bool :=
  match s with
  | EmptyString => false
  | String c EmptyString => bool_decide (c = "/"%char)
  | String _ s => ends_with_slash s
  end.

Definition add_component (path name : string) : string :=
  if bool_decide (path = "") then name
  else if ends_with_slash path then path +:+ name
  else path +:+ "/" +:+ name.

(** The text before the last [/] and the text after it. *)
Fixpoint split_last (s : string) : option (string * string) :=
  match s with
  | EmptyString => None
  | String c s' =>
      match split_last s' with
      | Some (dir, base) => Some (String c dir, base)
      | None =>
          if bool_decide (c = "/"%char) then Some ("", s') else None
      end
  end.

Definition split (path : string) : option string * string :=
  match split_last path with
  | Some (dir, base) => (Some dir, base)
  | None => (Some "", path)
  end.

Definition dirname (path : string) : string :=
  match (split path).1 with Some dir => dir | None => "" end.

#[global] Instance ref_path : SvnPath := {|
  svn_path_is_single_path_component := is_single_path_component;
  svn_path_join := add_component;
  svn_path_add_component := add_component;
  svn_path_split := split;
  svn_path_remove_component := dirname;
  svn_path_last_component := fun path => (split path).2
|}.

(** Modelled from the spec: the empty path is the empty string or the
    current directory [.]. *)
Definition is_empty (path : string) : bool :=
  bool_decide (path = "") || bool_decide (path = ".").

#[global] Instance ref_path_empty : SvnPathEmpty := {|
  svn_path_is_empty := is_empty
|}.

End RefPath.

(** ** The DAG facade: [libsvn_fs_fs/dag.c] *)

Module Dag.

(** *** Identifiers *)

(** Modelled from the spec: a node-revision id is a triple of node key,
    copy key and a transaction-or-revision key (the C type [svn_fs_id_t]
    is declared in [id.h], which is not among the sources). *)
Inductive txn_or_rev : Set :=
| in_txn (txn : string)
| in_rev (rev : Z).

Record svn_fs_id_t : Set := mk_id {
  id_node_id : string;
  id_copy_id : string;
  id_txn_or_rev : txn_or_rev
}.

#[global] Instance txn_or_rev_eq_dec : EqDecision txn_or_rev.
Proof. solve_decision. Defined.
#[global] Instance svn_fs_id_eq_dec : EqDecision svn_fs_id_t.
Proof. solve_decision. Defined.

(** Modelled from the spec: the accessors and comparisons of [id.c].  An id
    carries a transaction id or none; [svn_fs__id_eq] is structural
    equality ("same"); two ids are related when their node keys match. *)
Definition svn_fs__id_txn_id (id : svn_fs_id_t) : option string :=
  match id_txn_or_rev id with
  | in_txn t => Some t
  | in_rev _ => None
  end.

Definition svn_fs__id_copy_id (id : svn_fs_id_t) : string := id_copy_id id.

Definition svn_fs__id_eq (a b : svn_fs_id_t) : bool := bool_decide (a = b).

Definition svn_fs_check_related (a b : svn_fs_id_t) : bool :=
  bool_decide (id_node_id a = id_node_id b).

(** *** Node revisions and DAG nodes *)

(** A representation is an opaque key into the storage layer. *)
Definition representation_t : Set := N.

(** [svn_fs__node_revision_t], with the fields [dag.c] reads and writes
    (those [copy_node_revision] duplicates). *)
Record svn_fs__node_revision_t : Set := mk_noderev {
  nr_kind : svn_node_kind;
  nr_predecessor_id : option svn_fs_id_t;
  nr_predecessor_count : Z;
  nr_copyfrom_path : option string;
  nr_copyfrom_rev : Z;
  nr_copyroot : option svn_fs_id_t;
  nr_data_rep : option representation_t;
  nr_prop_rep : option representation_t;
  nr_edit_key : option string;
  nr_created_path : option string
}.

(** [memset (&new_noderev, 0, sizeof (new_noderev))]. *)
Definition zero_noderev : svn_fs__node_revision_t :=
  {| nr_kind := svn_node_none;
     nr_predecessor_id := None;
     nr_predecessor_count := 0;
     nr_copyfrom_path := None;
     nr_copyfrom_rev := 0;
     nr_copyroot := None;
     nr_data_rep := None;
     nr_prop_rep := None;
     nr_edit_key := None;
     nr_created_path := None |}.

(** [svn_fs_dirent_t]. *)
Record svn_fs_dirent_t : Set := mk_dirent {
  dirent_name : string;
  dirent_id : svn_fs_id_t;
  dirent_kind : svn_node_kind
}.

(** [struct dag_node_t].  The [fs] field is the filesystem argument that
    every function below receives; the pool is dropped.  [dn_node_revision]
    is the cache: [None] until the node revision has been read. *)
Record dag_node_t : Set := mk_dag_node {
  dn_id : svn_fs_id_t;
  dn_kind : svn_node_kind;
  dn_node_revision : option svn_fs__node_revision_t;
  dn_created_path : option string
}.

Definition set_node_revision (node : dag_node_t)
    (noderev : svn_fs__node_revision_t) : dag_node_t :=
  {| dn_id := dn_id node;
     dn_kind := dn_kind node;
     dn_node_revision := Some noderev;
     dn_created_path := dn_created_path node |}.

(** An output stream on a file's contents is a handle of the storage
    layer. *)
Definition svn_stream_t : Set := N.

(** *** The storage layer

    [fs_fs.c] is outside these files: its functions are the operations of
    an interface over the filesystem state [svn_fs_t].  A function that
    writes returns the new state; [svn_fs__fs_set_entry] and
    [svn_fs__fs_set_contents] receive the node revision by pointer and
    may update it in place, so they return it as well. *)
Class FsLayer (svn_fs_t : Type) : Type := {
  svn_fs__fs_get_node_revision :
    svn_fs_t -> svn_fs_id_t -> svn_result svn_fs__node_revision_t;
  svn_fs__fs_rep_contents_dir :
    svn_fs_t -> svn_fs__node_revision_t ->
    svn_result (option (gmap string svn_fs_dirent_t));
  svn_fs__fs_set_entry :
    svn_fs_t -> string -> svn_fs__node_revision_t -> string ->
    svn_fs_id_t -> svn_node_kind ->
    svn_result (svn_fs__node_revision_t * svn_fs_t);
  svn_fs__fs_create_node :
    svn_fs_t -> svn_fs__node_revision_t -> string -> string ->
    svn_result (svn_fs_id_t * svn_fs_t);
  svn_fs__fs_create_successor :
    svn_fs_t -> svn_fs_id_t -> svn_fs__node_revision_t -> string ->
    string -> svn_result (svn_fs_id_t * svn_fs_t);
  svn_fs__fs_set_contents :
    svn_fs_t -> svn_fs__node_revision_t ->
    svn_result (svn_stream_t * svn_fs__node_revision_t * svn_fs_t)
}.

Section dag.

Context {svn_fs_t : Type} {FS : FsLayer svn_fs_t} {PL : SvnPath}.

(** Trivial helper/accessor functions. *)
Definition svn_fs__dag_node_kind (node : dag_node_t) : svn_node_kind :=
  dn_kind node.

Definition svn_fs__dag_get_id (node : dag_node_t) : svn_fs_id_t :=
  dn_id node.

Definition svn_fs__dag_get_created_path (node : dag_node_t) : option string :=
  dn_created_path node.

(** Dup NODEREV and all associated data. *)
Definition copy_node_revision (noderev : svn_fs__node_revision_t)
  : svn_fs__node_revision_t :=
  {| nr_kind := nr_kind noderev;
     nr_predecessor_id := nr_predecessor_id noderev;
     nr_predecessor_count := nr_predecessor_count noderev;
     nr_copyfrom_path := nr_copyfrom_path noderev;
     nr_copyfrom_rev := nr_copyfrom_rev noderev;
     nr_copyroot := nr_copyroot noderev;
     nr_data_rep := nr_data_rep noderev;
     nr_prop_rep := nr_prop_rep noderev;
     nr_edit_key := nr_edit_key noderev;
     nr_created_path := nr_created_path noderev |}.

(** The cached node revision of NODE; it is read in, and cached in NODE,
    when NODE has none yet. *)
Definition get_node_revision (fs : svn_fs_t) (node : dag_node_t)
  : svn_result (svn_fs__node_revision_t * dag_node_t) :=
  match dn_node_revision node with
  | None =>
      let* noderev := svn_fs__fs_get_node_revision fs (dn_id node) in
      Ok (noderev, set_node_revision node noderev)
  | Some noderev => Ok (noderev, node)
  end.

(** The TXN_ID argument is not looked at. *)
Definition svn_fs__dag_check_mutable (node : dag_node_t) (txn_id : string)
  : bool :=
  match svn_fs__id_txn_id (svn_fs__dag_get_id node) with
  | Some _ => true
  | None => false
  end.

Definition svn_fs__dag_get_node (fs : svn_fs_t) (id : svn_fs_id_t)
  : svn_result dag_node_t :=
  let new_node :=
    {| dn_id := id; dn_kind := svn_node_none;
       dn_node_revision := None; dn_created_path := None |} in
  let* (noderev, new_node) := get_node_revision fs new_node in
  Ok {| dn_id := dn_id new_node;
        dn_kind := nr_kind noderev;
        dn_node_revision := dn_node_revision new_node;
        dn_created_path := nr_created_path noderev |}.

Definition svn_fs__dag_get_predecessor_id (fs : svn_fs_t) (node : dag_node_t)
  : svn_result (option svn_fs_id_t * dag_node_t) :=
  let* (noderev, node) := get_node_revision fs node in
  Ok (nr_predecessor_id noderev, node).

Definition svn_fs__dag_get_predecessor_count (fs : svn_fs_t)
    (node : dag_node_t) : svn_result (Z * dag_node_t) :=
  let* (noderev, node) := get_node_revision fs node in
  Ok (nr_predecessor_count noderev, node).

(** Walk the predecessors of NODE.  The C loop
    [while ((! done) && this_node)] has no bound of its own: FUEL bounds
    the number of iterations, and [None] says that FUEL ran out.  The
    outcome pairs the arguments CALLBACK was invoked with, in order, with
    the status returned.  CALLBACK receives the baton and the predecessor
    ([None] for NULL) and returns the baton and the value it leaves in
    [*done]; it may be NULL ([None]). *)
Definition svn_fs__dag_pred_func_t (B : Type) : Type :=
  B -> option dag_node_t -> svn_result (B * bool).

Fixpoint walk_loop {B : Type} (fuel : nat) (fs : svn_fs_t)
    (callback : option (svn_fs__dag_pred_func_t B))
    (this_node : dag_node_t) (baton : B)
  : option (list (option dag_node_t) * svn_result B) :=
  match fuel with
  | O => None
  | S fuel' =>
      match get_node_revision fs this_node with
      | Err e => Some ([], Err e)
      | Abort => Some ([], Abort)
      | Ok (noderev, _) =>
          let next :=
            match nr_predecessor_id noderev with
            | Some pred =>
                let* n := svn_fs__dag_get_node fs pred in Ok (Some n)
            | None => Ok None
            end in
          match next with
          | Err e => Some ([], Err e)
          | Abort => Some ([], Abort)
          | Ok this_node' =>
              match callback with
              | None =>
                  match this_node' with
                  | Some n => walk_loop fuel' fs callback n baton
                  | None => Some ([], Ok baton)
                  end
              | Some cb =>
                  match cb baton this_node' with
                  | Err e => Some ([this_node'], Err e)
                  | Abort => Some ([this_node'], Abort)
                  | Ok (baton', done) =>
                      match done, this_node' with
                      | false, Some n =>
                          match walk_loop fuel' fs callback n baton' with
                          | Some (calls, r) => Some (this_node' :: calls, r)
                          | None => None
                          end
                      | _, _ => Some ([this_node'], Ok baton')
                      end
                  end
              end
          end
      end
  end.

Definition svn_fs__dag_walk_predecessors {B : Type} (fuel : nat)
    (fs : svn_fs_t) (node : dag_node_t)
    (callback : option (svn_fs__dag_pred_func_t B)) (baton : B)
  : option (list (option dag_node_t) * svn_result B) :=
  walk_loop fuel fs callback node baton.

(** *** Directory node functions *)

Definition get_dir_entries (fs : svn_fs_t)
    (noderev : svn_fs__node_revision_t)
  : svn_result (option (gmap string svn_fs_dirent_t)) :=
  if bool_decide (nr_kind noderev <> svn_node_dir)
  then Err SVN_ERR_FS_NOT_DIRECTORY
  else svn_fs__fs_rep_contents_dir fs noderev.

Definition svn_fs__dag_dir_entries (fs : svn_fs_t) (node : dag_node_t)
  : svn_result (option (gmap string svn_fs_dirent_t) * dag_node_t) :=
  let* (noderev, node) := get_node_revision fs node in
  let* entries := get_dir_entries fs noderev in
  Ok (entries, node).

(** The node-id for entry NAME in PARENT, [None] if there is no such
    entry. *)
Definition dir_entry_id_from_node (fs : svn_fs_t) (parent : dag_node_t)
    (name : string) : svn_result (option svn_fs_id_t * dag_node_t) :=
  let* (entries, parent) := svn_fs__dag_dir_entries fs parent in
  let dirent :=
    match entries with
    | Some entries => entries !! name
    | None => None
    end in
  Ok (match dirent with Some d => Some (dirent_id d) | None => None end,
      parent).

(** Add or set in PARENT a directory entry NAME pointing to ID.  The
    storage layer gets a pointer to PARENT's cached node revision, so what
    it changes there stays in the cache. *)
Definition set_entry (fs : svn_fs_t) (parent : dag_node_t) (name : string)
    (id : svn_fs_id_t) (kind : svn_node_kind) (txn_id : string)
  : svn_result (dag_node_t * svn_fs_t) :=
  let* (parent_noderev, parent) := get_node_revision fs parent in
  let* (parent_noderev, fs) :=
    svn_fs__fs_set_entry fs txn_id parent_noderev name id kind in
  Ok (set_node_revision parent parent_noderev, fs).

(** Make a new entry named NAME in PARENT.  Returns the child, PARENT
    (whose cache has been filled and updated) and the filesystem. *)
Definition make_entry (fs : svn_fs_t) (parent : dag_node_t)
    (parent_path : string) (name : string) (is_dir : bool)
    (txn_id : string) : svn_result (dag_node_t * dag_node_t * svn_fs_t) :=
  if negb (svn_path_is_single_path_component name)
  then Err SVN_ERR_FS_NOT_SINGLE_PATH_COMPONENT
  else if bool_decide (dn_kind parent <> svn_node_dir)
  then Err SVN_ERR_FS_NOT_DIRECTORY
  else if negb (svn_fs__dag_check_mutable parent txn_id)
  then Err SVN_ERR_FS_NOT_MUTABLE
  else
    let* (new_node_id, parent) := dir_entry_id_from_node fs parent name in
    match new_node_id with
    | Some _ => Err SVN_ERR_FS_ALREADY_EXISTS
    | None =>
        let new_noderev :=
          {| nr_kind := if is_dir then svn_node_dir else svn_node_file;
             nr_predecessor_id := None;
             nr_predecessor_count := 0;
             nr_copyfrom_path := None;
             nr_copyfrom_rev := 0;
             nr_copyroot := None;
             nr_data_rep := None;
             nr_prop_rep := None;
             nr_edit_key := None;
             nr_created_path := Some (svn_path_join parent_path name) |} in
        let* (new_node_id, fs) :=
          svn_fs__fs_create_node fs new_noderev
            (svn_fs__id_copy_id (svn_fs__dag_get_id parent)) txn_id in
        let* child := svn_fs__dag_get_node fs new_node_id in
        let* (parent, fs) :=
          set_entry fs parent name (svn_fs__dag_get_id child)
            (nr_kind new_noderev) txn_id in
        Ok (child, parent, fs)
    end.

Definition svn_fs__dag_set_entry (fs : svn_fs_t) (node : dag_node_t)
    (entry_name : string) (id : svn_fs_id_t) (txn_id : string)
  : svn_result (dag_node_t * svn_fs_t) :=
  if bool_decide (dn_kind node <> svn_node_dir)
  then Err SVN_ERR_FS_NOT_DIRECTORY
  else if negb (svn_fs__dag_check_mutable node txn_id)
  then Err SVN_ERR_FS_NOT_DIRECTORY
  else set_entry fs node entry_name id (dn_kind node) txn_id.

Definition svn_fs__dag_make_file (fs : svn_fs_t) (parent : dag_node_t)
    (parent_path name txn_id : string)
  : svn_result (dag_node_t * dag_node_t * svn_fs_t) :=
  make_entry fs parent parent_path name false txn_id.

Definition svn_fs__dag_make_dir (fs : svn_fs_t) (parent : dag_node_t)
    (parent_path name txn_id : string)
  : svn_result (dag_node_t * dag_node_t * svn_fs_t) :=
  make_entry fs parent parent_path name true txn_id.

Definition svn_fs__dag_open (fs : svn_fs_t) (parent : dag_node_t)
    (name : string) : svn_result (dag_node_t * dag_node_t) :=
  let* (node_id, parent) := dir_entry_id_from_node fs parent name in
  match node_id with
  | None => Err SVN_ERR_FS_NOT_FOUND
  | Some node_id =>
      if negb (svn_path_is_single_path_component name)
      then Err SVN_ERR_FS_NOT_SINGLE_PATH_COMPONENT
      else
        let* child := svn_fs__dag_get_node fs node_id in
        Ok (child, parent)
  end.

(** The node revision [svn_fs__dag_clone_child] hands to
    [svn_fs__fs_create_successor]: the child's, changed in place. *)
Definition clone_template (noderev : svn_fs__node_revision_t)
    (cur_entry_id : svn_fs_id_t) (parent_path name : string)
  : svn_fs__node_revision_t :=
  {| nr_kind := nr_kind noderev;
     nr_predecessor_id := Some cur_entry_id;
     nr_predecessor_count :=
       if bool_decide (nr_predecessor_count noderev <> -1)
       then nr_predecessor_count noderev + 1
       else nr_predecessor_count noderev;
     nr_copyfrom_path := nr_copyfrom_path noderev;
     nr_copyfrom_rev := nr_copyfrom_rev noderev;
     nr_copyroot := nr_copyroot noderev;
     nr_data_rep := nr_data_rep noderev;
     nr_prop_rep := nr_prop_rep noderev;
     nr_edit_key := nr_edit_key noderev;
     nr_created_path := Some (svn_path_join parent_path name) |}.

Definition svn_fs__dag_clone_child (fs : svn_fs_t) (parent : dag_node_t)
    (parent_path name copy_id txn_id : string)
  : svn_result (dag_node_t * dag_node_t * svn_fs_t) :=
  if negb (svn_fs__dag_check_mutable parent txn_id)
  then Err SVN_ERR_FS_NOT_MUTABLE
  else if negb (svn_path_is_single_path_component name)
  then Err SVN_ERR_FS_NOT_SINGLE_PATH_COMPONENT
  else
    let* (cur_entry, parent) := svn_fs__dag_open fs parent name in
    let* (new_node_id, parent, fs) :=
      if svn_fs__dag_check_mutable cur_entry txn_id
      then Ok (dn_id cur_entry, parent, fs)
      else
        let* (noderev, cur_entry) := get_node_revision fs cur_entry in
        let noderev :=
          clone_template noderev (dn_id cur_entry) parent_path name in
        let* (new_node_id, fs) :=
          svn_fs__fs_create_successor fs (dn_id cur_entry) noderev
            copy_id txn_id in
        let* (parent, fs) :=
          set_entry fs parent name new_node_id (nr_kind noderev) txn_id in
        Ok (new_node_id, parent, fs) in
    let* child := svn_fs__dag_get_node fs new_node_id in
    Ok (child, parent, fs).

(** *** File contents *)

Definition svn_fs__dag_get_edit_stream (fs : svn_fs_t) (file : dag_node_t)
    (txn_id : string) : svn_result (svn_stream_t * dag_node_t * svn_fs_t) :=
  if bool_decide (dn_kind file <> svn_node_file)
  then Err SVN_ERR_FS_NOT_FILE
  else if negb (svn_fs__dag_check_mutable file txn_id)
  then Err SVN_ERR_FS_NOT_MUTABLE
  else
    let* (noderev, file) := get_node_revision fs file in
    let* (ws, noderev, fs) := svn_fs__fs_set_contents fs noderev in
    Ok (ws, set_node_revision file noderev, fs).

Definition svn_fs__dag_finalize_edits (fs : svn_fs_t) (file : dag_node_t)
    (checksum : option string) (txn_id : string) : svn_result dag_node_t :=
  if bool_decide (dn_kind file <> svn_node_file)
  then Err SVN_ERR_FS_NOT_FILE
  else if negb (svn_fs__dag_check_mutable file txn_id)
  then Err SVN_ERR_FS_NOT_MUTABLE
  else
    let* (noderev, file) := get_node_revision fs file in
    match nr_edit_key noderev with
    | None => Ok file
    | Some _ => Abort
    end.

Definition svn_fs__dag_copy (fs : svn_fs_t) (to_node : dag_node_t)
    (entry : string) (from_node : dag_node_t) (preserve_history : bool)
    (from_rev : Z) (from_path : string) (txn_id : string)
  : svn_result (dag_node_t * svn_fs_t) :=
  if preserve_history
  then
    let* (from_noderev, from_node) := get_node_revision fs from_node in
    let to_noderev := copy_node_revision from_noderev in
    Abort
  else
    let id := svn_fs__dag_get_id from_node in
    svn_fs__dag_set_entry fs to_node entry id txn_id.

(** *** Comparison *)

Record is_ancestor_baton : Set := mk_is_ancestor_baton {
  node1_id : svn_fs_id_t;
  is_ancestor : bool;
  need_parent : bool
}.

Definition is_ancestor_callback : svn_fs__dag_pred_func_t is_ancestor_baton :=
  fun b node =>
    match node with
    | Some node =>
        let b :=
          if svn_fs__id_eq (node1_id b) (svn_fs__dag_get_id node)
          then {| node1_id := node1_id b; is_ancestor := true;
                  need_parent := need_parent b |}
          else b in
        Ok (b, if need_parent b then true else false)
    | None => Ok (b, false)
    end.

(** What [is_ancestor_callback] does to a baton whose [need_parent] is
    not set: the answer is raised when NODE has the id looked for, and
    the walk is never stopped. *)
Definition ancestor_step (b : is_ancestor_baton) (node : option dag_node_t)
  : is_ancestor_baton :=
  match node with
  | Some node =>
      if svn_fs__id_eq (node1_id b) (svn_fs__dag_get_id node)
      then {| node1_id := node1_id b; is_ancestor := true;
              need_parent := need_parent b |}
      else b
  | None => b
  end.

Definition svn_fs__dag_is_ancestor (fuel : nat) (fs : svn_fs_t)
    (node1 node2 : dag_node_t) : option (svn_result bool) :=
  let id1 := svn_fs__dag_get_id node1 in
  let id2 := svn_fs__dag_get_id node2 in
  if negb (svn_fs_check_related id1 id2)
  then Some (Ok false)
  else
    let baton :=
      {| node1_id := id1; is_ancestor := false; need_parent := false |} in
    match svn_fs__dag_walk_predecessors fuel fs node2
            (Some is_ancestor_callback) baton with
    | None => None
    | Some (_, r) => Some (let* baton := r in Ok (is_ancestor baton))
    end.

Definition svn_fs__dag_is_parent (fuel : nat) (fs : svn_fs_t)
    (node1 node2 : dag_node_t) : option (svn_result bool) :=
  let id1 := svn_fs__dag_get_id node1 in
  let id2 := svn_fs__dag_get_id node2 in
  if negb (svn_fs_check_related id1 id2)
  then Some (Ok false)
  else
    let baton :=
      {| node1_id := id1; is_ancestor := false; need_parent := true |} in
    match svn_fs__dag_walk_predecessors fuel fs node2
            (Some is_ancestor_callback) baton with
    | None => None
    | Some (_, r) => Some (let* baton := r in Ok (is_ancestor baton))
    end.

(** *** Copy information, duplicates and what is not there yet *)

Definition svn_fs__dag_get_copyroot (fs : svn_fs_t) (node : dag_node_t)
  : svn_result (option svn_fs_id_t * dag_node_t) :=
  let* (noderev, node) := get_node_revision fs node in
  Ok (nr_copyroot noderev, node).

Definition svn_fs__dag_get_copyfrom_rev (fs : svn_fs_t) (node : dag_node_t)
  : svn_result (Z * dag_node_t) :=
  let* (noderev, node) := get_node_revision fs node in
  Ok (nr_copyfrom_rev noderev, node).

Definition svn_fs__dag_get_copyfrom_path (fs : svn_fs_t) (node : dag_node_t)
  : svn_result (option string * dag_node_t) :=
  let* (noderev, node) := get_node_revision fs node in
  Ok (nr_copyfrom_path noderev, node).

(** The duplicate has the id, kind and created path of NODE; its
    [node_revision] is left zero, so it will get read in. *)
Definition svn_fs__dag_dup (node : dag_node_t) : dag_node_t :=
  {| dn_id := dn_id node;
     dn_kind := dn_kind node;
     dn_node_revision := None;
     dn_created_path := dn_created_path node |}.

(** The bodies of these functions are a call of [abort ()]. *)
Definition svn_fs__dag_init_fs (fs : svn_fs_t) : svn_result svn_fs_t := Abort.

Definition svn_fs__dag_set_proplist (fs : svn_fs_t) (node : dag_node_t)
    (proplist : gmap string string) (txn_id : string)
  : svn_result svn_fs_t := Abort.

Definition svn_fs__dag_delete (fs : svn_fs_t) (parent : dag_node_t)
    (name txn_id : string) : svn_result svn_fs_t := Abort.

Definition svn_fs__dag_remove_node (fs : svn_fs_t) (id : svn_fs_id_t)
    (txn_id : string) : svn_result svn_fs_t := Abort.

Definition svn_fs__dag_delete_if_mutable (fs : svn_fs_t) (id : svn_fs_id_t)
    (txn_id : string) : svn_result svn_fs_t := Abort.

Definition svn_fs__dag_deltify (fs : svn_fs_t) (target source : dag_node_t)
    (props_only : bool) : svn_result svn_fs_t := Abort.

Definition svn_fs__dag_commit_txn (fs : svn_fs_t) (txn_id : string)
  : svn_result (Z * svn_fs_t) := Abort.

(** *** What the storage layer owes its callers

    The part of the contract of [fs_fs.c] that the properties of
    [make_entry], [svn_fs__dag_open] and [svn_fs__dag_clone_child] rest
    on.  Each is a proposition about an arbitrary storage layer; the
    reference layer below satisfies all of them. *)

(** The node revision stored for a new node has the kind of the template
    it was created from. *)
Definition create_node_keeps_kind : Prop :=
  forall fs noderev copy_id txn_id id fs' stored,
    svn_fs__fs_create_node fs noderev copy_id txn_id = Ok (id, fs') ->
    svn_fs__fs_get_node_revision fs' id = Ok stored ->
    nr_kind stored = nr_kind noderev.

(** After [svn_fs__fs_set_entry] the directory, as the updated node
    revision describes it, lists NAME with the id given; the node
    revision is still one of a directory. *)
Definition set_entry_is_listed : Prop :=
  forall fs txn_id parent_noderev name id kind parent_noderev' fs',
    svn_fs__fs_set_entry fs txn_id parent_noderev name id kind
    = Ok (parent_noderev', fs') ->
    nr_kind parent_noderev' = nr_kind parent_noderev
    /\ exists entries dirent,
         svn_fs__fs_rep_contents_dir fs' parent_noderev' = Ok (Some entries)
         /\ entries !! name = Some dirent
         /\ dirent_id dirent = id.

(** [svn_fs__fs_set_entry] loses no node revision and changes the kind of
    none. *)
Definition set_entry_keeps_nodes : Prop :=
  forall fs txn_id parent_noderev name id kind parent_noderev' fs',
    svn_fs__fs_set_entry fs txn_id parent_noderev name id kind
    = Ok (parent_noderev', fs') ->
    forall i noderev,
      svn_fs__fs_get_node_revision fs i = Ok noderev ->
      exists noderev',
        svn_fs__fs_get_node_revision fs' i = Ok noderev'
        /\ nr_kind noderev' = nr_kind noderev.


(** *** Predecessor counts

    [counts_decrease fs noderev]: along the predecessor chain that starts
    at NODEREV every predecessor is in the filesystem, with a predecessor
    count that is not negative and is lower than its successor's.  This is
    what [make_entry] (a count of 0, no predecessor) and
    [svn_fs__dag_clone_child] (the predecessor's count plus one) write. *)
Inductive counts_decrease (fs : svn_fs_t)
  : svn_fs__node_revision_t -> Prop :=
| counts_first noderev :
    nr_predecessor_id noderev = None ->
    counts_decrease fs noderev
| counts_next noderev pred pred_noderev :
    nr_predecessor_id noderev = Some pred ->
    svn_fs__fs_get_node_revision fs pred = Ok pred_noderev ->
    0 <= nr_predecessor_count pred_noderev < nr_predecessor_count noderev ->
    counts_decrease fs pred_noderev ->
    counts_decrease fs noderev.

(** [predecessors fs noderev l]: L is the predecessor chain that starts at
    NODEREV, nearest first, each predecessor as the node that
    [svn_fs__dag_get_node] makes of it; the chain ends at a node revision
    without predecessor. *)
Inductive predecessors (fs : svn_fs_t)
  : svn_fs__node_revision_t -> list dag_node_t -> Prop :=
| predecessors_none noderev :
    nr_predecessor_id noderev = None ->
    predecessors fs noderev []
| predecessors_next noderev pred pred_noderev l :
    nr_predecessor_id noderev = Some pred ->
    svn_fs__fs_get_node_revision fs pred = Ok pred_noderev ->
    predecessors fs pred_noderev l ->
    predecessors fs noderev
      ({| dn_id := pred; dn_kind := nr_kind pred_noderev;
          dn_node_revision := Some pred_noderev;
          dn_created_path := nr_created_path pred_noderev |} :: l).

End dag.

(** *** Reading through the storage layer

    The further functions of [fs_fs.c], [revs-txns.c] and [id.c] that
    [dag.c] calls to read: property lists, file contents, the roots of
    revisions and transactions, and the comparison of representation
    keys.  [svn_fs__get_txn_ids] answers the root id and the base root id
    of a transaction, in this order. *)
Class FsReads (svn_fs_t : Type) : Type := {
  svn_fs__id_rev : svn_fs_id_t -> Z;
  svn_fs__fs_get_proplist :
    svn_fs_t -> svn_fs__node_revision_t -> svn_result (gmap string string);
  svn_fs__fs_get_contents :
    svn_fs_t -> svn_fs__node_revision_t -> svn_result svn_stream_t;
  svn_fs__fs_file_length : svn_fs__node_revision_t -> svn_result Z;
  svn_fs__fs_file_checksum : svn_fs__node_revision_t -> svn_result string;
  svn_fs__fs_rev_get_root : svn_fs_t -> Z -> svn_result svn_fs_id_t;
  svn_fs__get_txn_ids :
    svn_fs_t -> string -> svn_result (svn_fs_id_t * svn_fs_id_t);
  svn_fs__fs_noderev_same_rep_key :
    option representation_t -> option representation_t -> bool
}.

Section dag_reads.

Context {svn_fs_t : Type} {FS : FsLayer svn_fs_t} {FR : FsReads svn_fs_t}.

(** Look up the committed revision from the Node-ID. *)
Definition svn_fs__dag_get_revision (node : dag_node_t) : svn_result Z :=
  Ok (svn_fs__id_rev (dn_id node)).

Definition svn_fs__dag_get_proplist (fs : svn_fs_t) (node : dag_node_t)
  : svn_result (gmap string string * dag_node_t) :=
  let* (noderev, node) := get_node_revision fs node in
  let* proplist := svn_fs__fs_get_proplist fs noderev in
  Ok (proplist, node).

(** *** Roots *)

Definition svn_fs__dag_revision_root (fs : svn_fs_t) (rev : Z)
  : svn_result dag_node_t :=
  let* root_id := svn_fs__fs_rev_get_root fs rev in
  svn_fs__dag_get_node fs root_id.

Definition svn_fs__dag_txn_root (fs : svn_fs_t) (txn_id : string)
  : svn_result dag_node_t :=
  let* (root_id, ignored) := svn_fs__get_txn_ids fs txn_id in
  svn_fs__dag_get_node fs root_id.

Definition svn_fs__dag_txn_base_root (fs : svn_fs_t) (txn_id : string)
  : svn_result dag_node_t :=
  let* (ignored, base_root_id) := svn_fs__get_txn_ids fs txn_id in
  svn_fs__dag_get_node fs base_root_id.

(** When the root of the transaction is still the root of its base
    revision, the clone is not made: the C code calls [abort ()]. *)
Definition svn_fs__dag_clone_root (fs : svn_fs_t) (txn_id : string)
  : svn_result dag_node_t :=
  let* (root_id, base_root_id) := svn_fs__get_txn_ids fs txn_id in
  if svn_fs__id_eq root_id base_root_id
  then Abort
  else svn_fs__dag_get_node fs root_id.

(** *** Reading a file *)

Definition svn_fs__dag_get_contents (fs : svn_fs_t) (file : dag_node_t)
  : svn_result (svn_stream_t * dag_node_t) :=
  if bool_decide (dn_kind file <> svn_node_file)
  then Err SVN_ERR_FS_NOT_FILE
  else
    let* (noderev, file) := get_node_revision fs file in
    let* contents := svn_fs__fs_get_contents fs noderev in
    Ok (contents, file).

Definition svn_fs__dag_file_length (fs : svn_fs_t) (file : dag_node_t)
  : svn_result (Z * dag_node_t) :=
  if bool_decide (dn_kind file <> svn_node_file)
  then Err SVN_ERR_FS_NOT_FILE
  else
    let* (noderev, file) := get_node_revision fs file in
    let* length := svn_fs__fs_file_length noderev in
    Ok (length, file).

Definition svn_fs__dag_file_checksum (fs : svn_fs_t) (file : dag_node_t)
  : svn_result (string * dag_node_t) :=
  if bool_decide (dn_kind file <> svn_node_file)
  then Err SVN_ERR_FS_NOT_FILE
  else
    let* (noderev, file) := get_node_revision fs file in
    let* digest := svn_fs__fs_file_checksum noderev in
    Ok (digest, file).

(** *** Comparison of two nodes

    PROPS_CHANGED and CONTENTS_CHANGED say whether the caller gave a
    place for the answer; an answer that has no place is [None].  With no
    place for either, nothing is read. *)
Definition svn_fs__things_different (fs : svn_fs_t)
    (props_changed contents_changed : bool) (node1 node2 : dag_node_t)
  : svn_result (option bool * option bool * dag_node_t * dag_node_t) :=
  if negb props_changed && negb contents_changed
  then Ok (None, None, node1, node2)
  else
    let* (noderev1, node1) := get_node_revision fs node1 in
    let* (noderev2, node2) := get_node_revision fs node2 in
    Ok (if props_changed
        then Some (negb (svn_fs__fs_noderev_same_rep_key
                           (nr_prop_rep noderev1) (nr_prop_rep noderev2)))
        else None,
        if contents_changed
        then Some (negb (svn_fs__fs_noderev_same_rep_key
                           (nr_data_rep noderev1) (nr_data_rep noderev2)))
        else None,
        node1, node2).

End dag_reads.

(** *** A reference storage layer

    Used to run the functions above on concrete filesystems. *)

Module RefStore.

(** Modelled from the spec: the node-revision store of [fs_fs.c] (not
    among the sources), after the contract [get], [create],
    [create_successor], [set_entry], [rep_contents_dir], [set_contents].
    Node revisions are kept by id, the newest first; directory contents
    are kept by representation key; [st_next] is the next unused key. *)
Record store : Type := mk_store {
  st_nodes : list (svn_fs_id_t * svn_fs__node_revision_t);
  st_reps : gmap N (gmap string svn_fs_dirent_t);
  st_next : N
}.

Definition with_data_rep (noderev : svn_fs__node_revision_t)
    (rep : option representation_t) : svn_fs__node_revision_t :=
  {| nr_kind := nr_kind noderev;
     nr_predecessor_id := nr_predecessor_id noderev;
     nr_predecessor_count := nr_predecessor_count noderev;
     nr_copyfrom_path := nr_copyfrom_path noderev;
     nr_copyfrom_rev := nr_copyfrom_rev noderev;
     nr_copyroot := nr_copyroot noderev;
     nr_data_rep := rep;
     nr_prop_rep := nr_prop_rep noderev;
     nr_edit_key := nr_edit_key noderev;
     nr_created_path := nr_created_path noderev |}.

Definition with_edit_key (noderev : svn_fs__node_revision_t)
    (key : option string) : svn_fs__node_revision_t :=
  {| nr_kind := nr_kind noderev;
     nr_predecessor_id := nr_predecessor_id noderev;
     nr_predecessor_count := nr_predecessor_count noderev;
     nr_copyfrom_path := nr_copyfrom_path noderev;
     nr_copyfrom_rev := nr_copyfrom_rev noderev;
     nr_copyroot := nr_copyroot noderev;
     nr_data_rep := nr_data_rep noderev;
     nr_prop_rep := nr_prop_rep noderev;
     nr_edit_key := key;
     nr_created_path := nr_created_path noderev |}.

Fixpoint find_node (nodes : list (svn_fs_id_t * svn_fs__node_revision_t))
    (id : svn_fs_id_t) : option svn_fs__node_revision_t :=
  match nodes with
  | [] => None
  | (i, noderev) :: nodes =>
      if bool_decide (i = id) then Some noderev else find_node nodes id
  end.

(** Modelled from the spec: [get(fs, id) -> NR]; an id the store does not
    know is an error of the storage layer. *)
Definition get (fs : store) (id : svn_fs_id_t)
  : svn_result svn_fs__node_revision_t :=
  match find_node (st_nodes fs) id with
  | Some noderev => Ok noderev
  | None => Err (SVN_ERR_OTHER 0)
  end.

(** Modelled from the spec: [rep_contents_dir(fs, dir_nr) -> entries]. *)
Definition rep_contents_dir (fs : store) (noderev : svn_fs__node_revision_t)
  : svn_result (option (gmap string svn_fs_dirent_t)) :=
  match nr_data_rep noderev with
  | Some rep => Ok (st_reps fs !! rep)
  | None => Ok None
  end.

(** Modelled from the spec:
    [set_entry(fs, txn, dir_nr, name, child_id, kind)].  The entry is
    written into the directory's representation; a directory that has none
    yet gets a new one. *)
Definition set_entry (fs : store) (txn_id : string)
    (parent_noderev : svn_fs__node_revision_t) (name : string)
    (id : svn_fs_id_t) (kind : svn_node_kind)
  : svn_result (svn_fs__node_revision_t * store) :=
  let dirent :=
    {| dirent_name := name; dirent_id := id; dirent_kind := kind |} in
  match nr_data_rep parent_noderev with
  | Some rep =>
      Ok (parent_noderev,
          {| st_nodes := st_nodes fs;
             st_reps :=
               <[rep := <[name := dirent]> (default ∅ (st_reps fs !! rep))]>
                 (st_reps fs);
             st_next := st_next fs |})
  | None =>
      Ok (with_data_rep parent_noderev (Some (st_next fs)),
          {| st_nodes := st_nodes fs;
             st_reps := <[st_next fs := {[name := dirent]}]> (st_reps fs);
             st_next := N.succ (st_next fs) |})
  end.

(** Modelled from the spec:
    [create(fs, template, parent-copy-id, txn) -> id].  The new id has a
    fresh node key; a new directory gets an empty representation. *)
Definition create_node (fs : store) (noderev : svn_fs__node_revision_t)
    (copy_id txn_id : string) : svn_result (svn_fs_id_t * store) :=
  let id :=
    {| id_node_id := pretty (st_next fs); id_copy_id := copy_id;
       id_txn_or_rev := in_txn txn_id |} in
  if bool_decide (nr_kind noderev = svn_node_dir)
  then
    Ok (id,
        {| st_nodes :=
             (id, with_data_rep noderev (Some (N.succ (st_next fs))))
               :: st_nodes fs;
           st_reps := <[N.succ (st_next fs) := ∅]> (st_reps fs);
           st_next := N.succ (N.succ (st_next fs)) |})
  else
    Ok (id,
        {| st_nodes := (id, noderev) :: st_nodes fs;
           st_reps := st_reps fs;
           st_next := N.succ (st_next fs) |}).

(** Modelled from the spec:
    [create_successor(fs, old_id, template, copy_id, txn) -> new_id]: the
    new id shares the node key of [old_id] and carries the copy and
    transaction components supplied.  The template is stored as handed in
    (its predecessor fields are those [svn_fs__dag_clone_child] has set);
    a directory gets a representation of its own, with the entries of the
    template's. *)
Definition create_successor (fs : store) (old_id : svn_fs_id_t)
    (noderev : svn_fs__node_revision_t) (copy_id txn_id : string)
  : svn_result (svn_fs_id_t * store) :=
  let id :=
    {| id_node_id := id_node_id old_id; id_copy_id := copy_id;
       id_txn_or_rev := in_txn txn_id |} in
  if bool_decide (nr_kind noderev = svn_node_dir)
  then
    let entries :=
      match nr_data_rep noderev with
      | Some rep => default ∅ (st_reps fs !! rep)
      | None => ∅
      end in
    Ok (id,
        {| st_nodes :=
             (id, with_data_rep noderev (Some (st_next fs))) :: st_nodes fs;
           st_reps := <[st_next fs := entries]> (st_reps fs);
           st_next := N.succ (st_next fs) |})
  else
    Ok (id,
        {| st_nodes := (id, noderev) :: st_nodes fs;
           st_reps := st_reps fs;
           st_next := st_next fs |}).

(** Modelled from the spec: [set_contents(fs, file_nr) -> writer]; the
    node revision's [edit_key] is set while the writer is open. *)
Definition set_contents (fs : store) (noderev : svn_fs__node_revision_t)
  : svn_result (svn_stream_t * svn_fs__node_revision_t * store) :=
  Ok (st_next fs,
      with_edit_key noderev (Some (pretty (st_next fs))),
      {| st_nodes := st_nodes fs;
         st_reps := st_reps fs;
         st_next := N.succ (st_next fs) |}).

#[global] Instance ref_fs : FsLayer store := {|
  svn_fs__fs_get_node_revision := get;
  svn_fs__fs_rep_contents_dir := rep_contents_dir;
  svn_fs__fs_set_entry := set_entry;
  svn_fs__fs_create_node := create_node;
  svn_fs__fs_create_successor := create_successor;
  svn_fs__fs_set_contents := set_contents
|}.

(** Modelled from the spec: the revision of an id is the revision it was
    committed in, and the invalid revision for an id of a transaction
    ([id.c] is not among the sources). *)
Definition id_rev (id : svn_fs_id_t) : Z :=
  match id_txn_or_rev id with
  | in_rev rev => rev
  | in_txn _ => -1
  end.

(** Modelled from the spec: the reading half of the storage contract,
    over the roots of the revisions and the root and base root of the
    transactions given; representation keys are compared by equality. *)
Definition ref_reads (roots : gmap Z svn_fs_id_t)
    (txns : gmap string (svn_fs_id_t * svn_fs_id_t)) : FsReads store := {|
  svn_fs__id_rev := id_rev;
  svn_fs__fs_get_proplist := fun _ _ => Ok ∅;
  svn_fs__fs_get_contents := fun fs noderev =>
    match nr_data_rep noderev with
    | Some rep => Ok rep
    | None => Err (SVN_ERR_OTHER 0)
    end;
  svn_fs__fs_file_length := fun _ => Ok 0;
  svn_fs__fs_file_checksum := fun _ => Ok "";
  svn_fs__fs_rev_get_root := fun _ rev =>
    match roots !! rev with
    | Some id => Ok id
    | None => Err (SVN_ERR_OTHER 0)
    end;
  svn_fs__get_txn_ids := fun _ txn_id =>
    match txns !! txn_id with
    | Some ids => Ok ids
    | None => Err (SVN_ERR_OTHER 0)
    end;
  svn_fs__fs_noderev_same_rep_key := fun a b => bool_decide (a = b)
|}.

End RefStore.

(** *** An example filesystem

    A transaction root [/] of transaction T2 with two entries: [a], a file
    whose id carries transaction T1, and [b], a file committed in revision
    2 whose predecessors are its revisions 1 and 0.  [fs_before_copy] is
    the same filesystem before [svn_fs__dag_copy] has entered [a] in the
    root (the kind it records in the entry is the directory's). *)
Module Example.
Import RefStore.

Definition file_noderev (pred : option svn_fs_id_t) (count : Z)
    (path : string) : svn_fs__node_revision_t :=
  {| nr_kind := svn_node_file;
     nr_predecessor_id := pred;
     nr_predecessor_count := count;
     nr_copyfrom_path := None;
     nr_copyfrom_rev := 0;
     nr_copyroot := None;
     nr_data_rep := None;
     nr_prop_rep := None;
     nr_edit_key := None;
     nr_created_path := Some path |}.

Definition root_id : svn_fs_id_t := mk_id "root" "0" (in_txn "T2").
Definition a_id : svn_fs_id_t := mk_id "a" "0" (in_txn "T1").
Definition b_id (rev : Z) : svn_fs_id_t := mk_id "b" "0" (in_rev rev).

Definition root_noderev : svn_fs__node_revision_t :=
  {| nr_kind := svn_node_dir;
     nr_predecessor_id := None;
     nr_predecessor_count := 0;
     nr_copyfrom_path := None;
     nr_copyfrom_rev := 0;
     nr_copyroot := None;
     nr_data_rep := Some 0%N;
     nr_prop_rep := None;
     nr_edit_key := None;
     nr_created_path := Some "/" |}.

Definition nodes : list (svn_fs_id_t * svn_fs__node_revision_t) :=
  [ (root_id, root_noderev);
    (a_id, file_noderev None 0 "/a");
    (b_id 2, file_noderev (Some (b_id 1)) 2 "/b");
    (b_id 1, file_noderev (Some (b_id 0)) 1 "/b");
    (b_id 0, file_noderev None 0 "/b") ].

Definition fs_before_copy : store :=
  {| st_nodes := nodes;
     st_reps := {[ 0%N := {[ "b" := mk_dirent "b" (b_id 2) svn_node_file ]} ]};
     st_next := 1%N |}.

Definition fs : store :=
  {| st_nodes := nodes;
     st_reps :=
       {[ 0%N :=
            {[ "a" := mk_dirent "a" a_id svn_node_dir;
               "b" := mk_dirent "b" (b_id 2) svn_node_file ]} ]};
     st_next := 1%N |}.

Definition node_of (id : svn_fs_id_t) (noderev : svn_fs__node_revision_t)
  : dag_node_t :=
  {| dn_id := id; dn_kind := nr_kind noderev;
     dn_node_revision := Some noderev;
     dn_created_path := nr_created_path noderev |}.

Definition root : dag_node_t := node_of root_id root_noderev.
Definition a : dag_node_t := node_of a_id (file_noderev None 0 "/a").
Definition b2 : dag_node_t :=
  node_of (b_id 2) (file_noderev (Some (b_id 1)) 2 "/b").
Definition b1 : dag_node_t :=
  node_of (b_id 1) (file_noderev (Some (b_id 0)) 1 "/b").
Definition b0 : dag_node_t := node_of (b_id 0) (file_noderev None 0 "/b").





(** A filesystem that has lost the oldest node revision of [d]: revision
    1 names revision 0 as its predecessor, and revision 0 is not
    there. *)
Definition d_id (rev : Z) : svn_fs_id_t := mk_id "d" "0" (in_rev rev).

Definition fs_dangling : store :=
  {| st_nodes :=
       [ (d_id 2, file_noderev (Some (d_id 1)) 2 "/d");
         (d_id 1, file_noderev (Some (d_id 0)) 1 "/d") ];
     st_reps := ∅;
     st_next := 0%N |}.

Definition d2 : dag_node_t :=
  node_of (d_id 2) (file_noderev (Some (d_id 1)) 2 "/d").
Definition d1 : dag_node_t :=
  node_of (d_id 1) (file_noderev (Some (d_id 0)) 1 "/d").

End Example.

End Dag.

(** ** The working copy library: types and the world outside *)

Module Wc.

(** Modelled from the spec: a revision number is a non-negative integer,
    with a distinguished invalid sentinel ([svn_types.h] is not among the
    sources). *)
Definition SVN_INVALID_REVNUM : Z := -1.
Definition SVN_IS_VALID_REVNUM (n : Z) : bool := bool_decide (0 <= n).

(** [enum svn_wc_schedule_t]. *)
Inductive svn_wc_schedule_t : Set :=
| svn_wc_schedule_normal
| svn_wc_schedule_add
| svn_wc_schedule_delete
| svn_wc_schedule_replace.

#[global] Instance svn_wc_schedule_eq_dec : EqDecision svn_wc_schedule_t.
Proof. solve_decision. Defined.

(** [svn_wc_entry_t], with the fields [svn_wc__entry_modify] can set. *)
Record svn_wc_entry_t : Type := mk_entry {
  entry_revision : Z;
  entry_url : option string;
  entry_kind : svn_node_kind;
  entry_schedule : svn_wc_schedule_t;
  entry_conflicted : bool;
  entry_copied : bool;
  entry_text_time : Z;
  entry_prop_time : Z;
  entry_attributes : gmap string string
}.

(** The status values [status.c] assigns. *)
Inductive svn_wc_status_kind : Set :=
| svn_wc_status_none
| svn_wc_status_added
| svn_wc_status_deleted
| svn_wc_status_replaced
| svn_wc_status_modified
| svn_wc_status_conflicted.

#[global] Instance svn_wc_status_kind_eq_dec : EqDecision svn_wc_status_kind.
Proof. solve_decision. Defined.

Record svn_wc_status_t : Type := mk_status {
  status_entry : option svn_wc_entry_t;
  status_repos_rev : Z;
  status_text_status : svn_wc_status_kind;
  status_prop_status : svn_wc_status_kind
}.

(** [svn_prop_t]: a value of [None] is a NULL value, a deletion. *)
Record svn_prop_t : Set := mk_prop {
  prop_name : string;
  prop_value : option string
}.

(** [svn_wc_keywords_t]. *)
Record svn_wc_keywords_t : Set := mk_keywords {
  kw_revision : option string;
  kw_date : option string;
  kw_author : option string;
  kw_url : option string
}.

(** [enum svn_wc__eol_style]. *)
Inductive svn_wc__eol_style : Set :=
| svn_wc__eol_style_unknown
| svn_wc__eol_style_none
| svn_wc__eol_style_native
| svn_wc__eol_style_fixed.

#[global] Instance svn_wc__eol_style_eq_dec : EqDecision svn_wc__eol_style.
Proof. solve_decision. Defined.

(** *** The log *)

(** Modelled from the spec: the commands of the log grammar (the element
    names are macros of [log.h], which is not among the sources). *)
Inductive log_tag : Set :=
| SVN_WC__LOG_MODIFY_ENTRY
| SVN_WC__LOG_DELETE_ENTRY
| SVN_WC__LOG_CP
| SVN_WC__LOG_MV
| SVN_WC__LOG_RM
| SVN_WC__LOG_READONLY
| SVN_WC__LOG_RUN_CMD
| SVN_WC__LOG_DETECT_CONFLICT.

#[global] Instance log_tag_eq_dec : EqDecision log_tag.
Proof. solve_decision. Defined.

(** One self-closing element of the log: its tag and its attribute hash. *)
Record log_command : Type := mk_log_command {
  log_tag_of : log_tag;
  log_attributes : gmap string string
}.

(** Modelled from the spec: attribute names and values of log commands
    and entries (macros of [log.h], [svn_wc.h] and [entries.h], none among
    the sources), spelled as the log grammar and the entry fields of the
    spec spell them. *)
Definition SVN_WC__LOG_ATTR_NAME : string := "name".
Definition SVN_WC__LOG_ATTR_DEST : string := "dest".
Definition SVN_WC__LOG_ATTR_EOL_STR : string := "eol".
Definition SVN_WC__LOG_ATTR_REPAIR : string := "repair".
Definition SVN_WC__LOG_ATTR_REVISION : string := "revision".
Definition SVN_WC__LOG_ATTR_DATE : string := "date".
Definition SVN_WC__LOG_ATTR_AUTHOR : string := "author".
Definition SVN_WC__LOG_ATTR_URL : string := "url".
Definition SVN_WC__LOG_ATTR_EXPAND : string := "expand".
Definition SVN_WC__LOG_ATTR_ARG_1 : string := "arg1".
Definition SVN_WC__LOG_ATTR_ARG_2 : string := "arg2".
Definition SVN_WC__LOG_ATTR_ARG_3 : string := "arg3".
Definition SVN_WC__LOG_ATTR_ARG_4 : string := "arg4".
Definition SVN_WC__LOG_ATTR_ARG_5 : string := "arg5".
Definition SVN_WC__LOG_ATTR_ARG_6 : string := "arg6".
Definition SVN_WC__LOG_ATTR_INFILE : string := "infile".
Definition SVN_WC_ENTRY_ATTR_KIND : string := "kind".
Definition SVN_WC_ENTRY_ATTR_REVISION : string := "revision".
Definition SVN_WC_ENTRY_ATTR_TEXT_TIME : string := "text_time".
Definition SVN_WC_ENTRY_ATTR_PROP_TIME : string := "prop_time".
Definition SVN_WC_ENTRY_ATTR_URL : string := "url".
Definition SVN_WC_ENTRY_ATTR_REJFILE : string := "reject".
Definition SVN_WC__ENTRIES_ATTR_FILE_STR : string := "file".
Definition SVN_WC_TIMESTAMP_WC : string := "WC".
Definition SVN_WC_ENTRY_THIS_DIR : string := "<this-dir>".
Definition SVN_CLIENT_PATCH : string := "patch".
Definition SVN_ENTRY_ATTR_COMMITTED_REV : string := "committed_rev".
Definition SVN_ENTRY_ATTR_COMMITTED_DATE : string := "committed_date".
Definition SVN_ENTRY_ATTR_LAST_AUTHOR : string := "last_author".
Definition SVN_PROP_EOL_STYLE : string := "svn:eol-style".
Definition SVN_PROP_KEYWORDS : string := "svn:keywords".
Definition SVN_WC__DIFF_EXT : string := ".diff".
Definition SVN_WC__BASE_EXT : string := ".base".
Definition SVN_WC__TMP_EXT : string := ".tmp".
Definition SVN_WC__TEXT_REJ_EXT : string := ".rej".
Definition SVN_WC__DEFAULT_EOL_MARKER : string := "LF".

(** [svn_xml_make_open_tag]: the attribute pairs of the variable argument
    list are put into a hash one after the other, so of two values for
    one name the later stays; the element is appended to the buffer. *)
Definition ap_to_hash (attrs : list (string * string)) : gmap string string :=
  fold_left (fun hash kv => <[kv.1 := kv.2]> hash) attrs ∅.

Definition svn_xml_make_open_tag (entry_accum : list log_command)
    (tagname : log_tag) (attrs : list (string * string)) : list log_command :=
  (entry_accum ++ [mk_log_command tagname (ap_to_hash attrs)])%list.

Definition svn_xml_make_open_tag_hash (entry_accum : list log_command)
    (tagname : log_tag) (hash : gmap string string) : list log_command :=
  (entry_accum ++ [mk_log_command tagname hash])%list.

(** *** Property names *)

(** Modelled from the spec: the property namespaces, [svn:wc:] for wc-props
    and [svn:entry:] for entry-props, anything else being a regular
    property ([svn_props.h] and the functions on property names are not
    among the sources). *)
Definition SVN_PROP_WC_PREFIX : string := "svn:wc:".
Definition SVN_PROP_ENTRY_PREFIX : string := "svn:entry:".

Inductive svn_prop_kind : Set :=
| svn_prop_entry_kind
| svn_prop_wc_kind
| svn_prop_regular_kind.

Fixpoint drop_chars (n : nat) (s : string) : string :=
  match n, s with
  | S n, String _ s => drop_chars n s
  | _, _ => s
  end.

Definition svn_wc_is_wc_prop (name : string) : bool :=
  String.prefix SVN_PROP_WC_PREFIX name.

Definition svn_wc_is_entry_prop (name : string) : bool :=
  String.prefix SVN_PROP_ENTRY_PREFIX name.

(** The kind of a property name and the length of its prefix. *)
Definition svn_property_kind (name : string) : svn_prop_kind * nat :=
  if svn_wc_is_wc_prop name
  then (svn_prop_wc_kind, String.length SVN_PROP_WC_PREFIX)
  else if svn_wc_is_entry_prop name
  then (svn_prop_entry_kind, String.length SVN_PROP_ENTRY_PREFIX)
  else (svn_prop_regular_kind, O).

Definition svn_wc__strip_entry_prefix (name : string) : string :=
  if svn_wc_is_entry_prop name
  then drop_chars (String.length SVN_PROP_ENTRY_PREFIX) name
  else name.

(** The three arrays of [svn_categorize_props], in the order entry-props,
    wc-props, regular props. *)
Definition svn_categorize_props (props : list svn_prop_t)
  : list svn_prop_t * list svn_prop_t * list svn_prop_t :=
  let kind_is k (p : svn_prop_t) :=
    match (svn_property_kind (prop_name p)).1, k with
    | svn_prop_entry_kind, svn_prop_entry_kind => true
    | svn_prop_wc_kind, svn_prop_wc_kind => true
    | svn_prop_regular_kind, svn_prop_regular_kind => true
    | _, _ => false
    end in
  (List.filter (kind_is svn_prop_entry_kind) props,
   List.filter (kind_is svn_prop_wc_kind) props,
   List.filter (kind_is svn_prop_regular_kind) props).

(** *** Calls that change the working copy

    What a function of the editor asks the rest of the library to do to
    the disk is recorded, call by call. *)
Inductive modify_flag : Set :=
| SVN_WC__ENTRY_MODIFY_REVISION
| SVN_WC__ENTRY_MODIFY_KIND
| SVN_WC__ENTRY_MODIFY_ATTRIBUTES.

Record entry_modify_args : Type := mk_entry_modify_args {
  em_path : string;
  em_name : option string;
  em_modify_flags : modify_flag;
  em_revision : Z;
  em_kind : svn_node_kind;
  em_schedule : svn_wc_schedule_t;
  em_conflicted : bool;
  em_copied : bool;
  em_text_time : Z;
  em_prop_time : Z;
  em_url : option string;
  em_attributes : option (gmap string string)
}.

Inductive wc_call : Type :=
| call_lock (path : string)
| call_unlock (path : string)
| call_open_log (path : string)
| call_write_log (path : string) (log : list log_command)
| call_close_log (path : string)
| call_run_log (path : string)
| call_entry_modify (args : entry_modify_args)
| call_wcprop_set (name : string) (value : option string) (path : string)
| call_ensure_directory (path : string)
| call_ensure_wc (path : string) (ancestor_url : string)
    (ancestor_revision : Z)
| call_merge_prop_diffs (path : string) (name : option string)
    (propchanges : list svn_prop_t)
| call_file_rename (from_path to_path : string)
| call_open_unique_file (path suffix : string)
| call_file_close (path : string)
| call_copy_and_translate (src dst : string) (eol_str : string)
    (repair : bool) (keywords : option svn_wc_keywords_t) (expand : bool)
| call_run_diff (from_path to_path outfile : string).

(** Modelled from the spec: [entry_modify(dir, name, fieldset, ...)]
    applies a masked update to one record of the entries of the directory
    ([entries.c] is not among the sources).  A NULL name is the
    directory's own record; a record that is not there yet is made; with
    the attributes flag every attribute handed in is stored under its
    name. *)
Definition blank_entry : svn_wc_entry_t :=
  {| entry_revision := SVN_INVALID_REVNUM; entry_url := None;
     entry_kind := svn_node_none; entry_schedule := svn_wc_schedule_normal;
     entry_conflicted := false; entry_copied := false;
     entry_text_time := 0; entry_prop_time := 0; entry_attributes := ∅ |}.

Definition apply_entry_modify (args : entry_modify_args)
    (entries : gmap string svn_wc_entry_t) : gmap string svn_wc_entry_t :=
  let name := default SVN_WC_ENTRY_THIS_DIR (em_name args) in
  let entry := default blank_entry (entries !! name) in
  let entry :=
    match em_modify_flags args with
    | SVN_WC__ENTRY_MODIFY_REVISION =>
        {| entry_revision := em_revision args;
           entry_url := entry_url entry; entry_kind := entry_kind entry;
           entry_schedule := entry_schedule entry;
           entry_conflicted := entry_conflicted entry;
           entry_copied := entry_copied entry;
           entry_text_time := entry_text_time entry;
           entry_prop_time := entry_prop_time entry;
           entry_attributes := entry_attributes entry |}
    | SVN_WC__ENTRY_MODIFY_KIND =>
        {| entry_revision := entry_revision entry;
           entry_url := entry_url entry; entry_kind := em_kind args;
           entry_schedule := entry_schedule entry;
           entry_conflicted := entry_conflicted entry;
           entry_copied := entry_copied entry;
           entry_text_time := entry_text_time entry;
           entry_prop_time := entry_prop_time entry;
           entry_attributes := entry_attributes entry |}
    | SVN_WC__ENTRY_MODIFY_ATTRIBUTES =>
        {| entry_revision := entry_revision entry;
           entry_url := entry_url entry; entry_kind := entry_kind entry;
           entry_schedule := entry_schedule entry;
           entry_conflicted := entry_conflicted entry;
           entry_copied := entry_copied entry;
           entry_text_time := entry_text_time entry;
           entry_prop_time := entry_prop_time entry;
           entry_attributes :=
             default ∅ (em_attributes args) ∪ entry_attributes entry |}
    end in
  <[name := entry]> entries.

(** *** The world outside

    The functions of libsvn_wc and libsvn_subr that the two files call and
    that are not among the sources.  A function that reads the disk
    answers; a function that changes it says whether it succeeded. *)
Class WcWorld : Type := {
  svn_wc_entry : string -> svn_result (option svn_wc_entry_t);
  svn_wc_entries_read : string -> svn_result (gmap string svn_wc_entry_t);
  svn_wc_check_wc : string -> svn_result bool;
  svn_io_check_path : string -> svn_result svn_node_kind;
  svn_io_get_dirents : string -> svn_result (gmap string svn_node_kind);
  svn_wc__prop_path : string -> svn_result string;
  svn_wc__prop_base_path : string -> svn_result string;
  svn_wc__load_prop_file : string -> svn_result (gmap string string);
  svn_wc__get_local_propchanges :
    gmap string string -> gmap string string -> svn_result (list svn_prop_t);
  svn_wc_props_modified_p : string -> svn_result bool;
  svn_wc_text_modified_p : string -> svn_result bool;
  svn_wc_has_binary_prop : string -> svn_result bool;
  svn_wc_conflicted_p :
    option string -> svn_wc_entry_t -> svn_result (bool * bool);
  svn_wc__get_eol_style :
    string -> svn_result (svn_wc__eol_style * option string);
  svn_wc__eol_style_from_value :
    string -> svn_wc__eol_style * option string;
  svn_wc__eol_value_from_string : option string -> option string;
  svn_wc__get_keywords :
    string -> option string -> svn_result (option svn_wc_keywords_t);
  svn_wc__text_base_path : string -> bool -> string;
  svn_wc__adm_path : string -> bool -> string -> string;
  svn_wc__lock : string -> svn_result unit;
  svn_wc__unlock : string -> svn_result unit;
  svn_wc__open_adm_file : string -> svn_result unit;
  svn_wc__close_adm_file : string -> svn_result unit;
  svn_wc__run_log : string -> svn_result unit;
  apr_file_write_full : string -> list log_command -> Z;
  apr_file_rename : string -> string -> Z;
  apr_file_close : string -> Z;
  svn_wc__entry_modify : entry_modify_args -> svn_result unit;
  svn_wc__wcprop_set : string -> option string -> string -> svn_result unit;
  svn_wc__ensure_directory : string -> svn_result unit;
  svn_wc__ensure_wc : string -> string -> Z -> svn_result unit;
  svn_wc__merge_prop_diffs :
    string -> option string -> list svn_prop_t ->
    svn_result (list log_command * gset string);
  svn_io_open_unique_file : nat -> string -> string -> svn_result string;
  svn_wc_copy_and_translate :
    string -> string -> string -> bool -> option svn_wc_keywords_t -> bool ->
    svn_result unit;
  svn_io_run_diff : string -> string -> string -> svn_result unit
}.

(** A computation that calls into the world: the calls made so far, and
    the result. *)
Definition traced (A : Type) : Type := list wc_call * svn_result A.

Definition traced_ret {A : Type} (a : A) : traced A := ([], Ok a).

Definition traced_bind {A B : Type} (m : traced A) (k : A -> traced B)
  : traced B :=
  match m.2 with
  | Ok a => ((m.1 ++ (k a).1)%list, (k a).2)
  | Err e => (m.1, Err e)
  | Abort => (m.1, Abort)
  end.

(** A call that only reads. *)
Definition reading {A : Type} (r : svn_result A) : traced A := ([], r).

(** A call that changes the working copy. *)
Definition calling {A : Type} (c : wc_call) (r : svn_result A) : traced A :=
  ([c], r).

(** An APR status: zero is success, anything else becomes an error with
    that code. *)
Definition apr_status (c : wc_call) (status : Z) : traced unit :=
  ([c], if bool_decide (status = 0) then Ok tt else Err (SVN_ERR_OTHER status)).

(** The write of the accumulated LOG into the log file of directory PATH
    and the test that follows it in [delete_entry], [close_directory] and
    [svn_wc_install_file]: when [apr_file_write_full] fails, the log file
    is closed with [apr_file_close], whose status is not looked at, and
    the error is returned.  The handle [log_fp] is named by the directory
    whose log it is, as [call_write_log] names it. *)
Definition write_log {W : WcWorld} (path : string) (log : list log_command)
  : traced unit :=
  let apr_err := apr_file_write_full path log in
  if bool_decide (apr_err = 0)
  then ([call_write_log path log], Ok tt)
  else ([call_write_log path log; call_file_close path],
        Err (SVN_ERR_OTHER apr_err)).

(** A computation that does not write the log. *)
Definition writes_no_log {A : Type} (t : traced A) : Prop :=
  forall path log, ~ In (call_write_log path log) t.1.

(** LOG is ACC with commands of the kind P appended. *)
Definition appends_only (P : log_command -> Prop)
    (acc log : list log_command) : Prop :=
  exists added, log = (acc ++ added)%list /\ Forall P added.

(** A command that is not a [MODIFY_ENTRY]. *)
Definition not_modify_entry (c : log_command) : Prop :=
  log_tag_of c <> SVN_WC__LOG_MODIFY_ENTRY.

(** A computation all of whose calls are of the kind P. *)
Definition calls_only {A : Type} (P : wc_call -> Prop) (t : traced A)
  : Prop :=
  Forall P t.1.

(** A call that is not an unlock. *)
Definition not_unlock (c : wc_call) : Prop := forall p, c <> call_unlock p.

Notation "'let+' pat := e 'in' k" :=
  (traced_bind e (fun x => match x with pat => k end))
  (at level 10, pat pattern, e at level 100, k at level 200) : svn_scope.

(** [svn_wc__do_update_cleanup (path, recursive, url, new_revision)], the
    sweep that ends an update or a switch; only [close_edit] calls it. *)
Class WcCleanup : Type := {
  svn_wc__do_update_cleanup :
    string -> bool -> option string -> Z -> svn_result unit
}.

End Wc.

(** ** The status classifier: [libsvn_wc/status.c] *)

Module Status.
Import Wc.

Section status.

Context {PL : SvnPath} {W : WcWorld}.

(** Fill in a status structure for ENTRY at PATH; ENTRY is [None] for a
    non-versioned entity.  [svn_wc_conflicted_p] is given the directory
    of the entry: the parent of PATH for a file, PATH for a directory;
    for an entry of another kind the C variable is never assigned
    ([None]). *)
Definition assemble_status (path : string) (entry : option svn_wc_entry_t)
  : svn_result svn_wc_status_t :=
  match entry with
  | None =>
      Ok {| status_entry := None;
            status_repos_rev := SVN_INVALID_REVNUM;
            status_text_status := svn_wc_status_none;
            status_prop_status := svn_wc_status_none |}
  | Some e =>
      let* prop_path := svn_wc__prop_path path in
      let* prop_kind := svn_io_check_path prop_path in
      let prop_exists := bool_decide (prop_kind = svn_node_file) in
      let* prop_modified_p :=
        if prop_exists then svn_wc_props_modified_p path else Ok false in
      let* text_modified_p :=
        if bool_decide (entry_kind e = svn_node_file)
        then svn_wc_text_modified_p path
        else Ok false in
      let text_status :=
        if text_modified_p then svn_wc_status_modified
        else svn_wc_status_none in
      let prop_status :=
        if prop_modified_p then svn_wc_status_modified
        else svn_wc_status_none in
      let scheduled (s : svn_wc_status_kind) :=
        (s, if prop_exists then s else prop_status) in
      let (text_status, prop_status) :=
        match entry_schedule e with
        | svn_wc_schedule_add => scheduled svn_wc_status_added
        | svn_wc_schedule_replace => scheduled svn_wc_status_replaced
        | svn_wc_schedule_delete => scheduled svn_wc_status_deleted
        | svn_wc_schedule_normal => (text_status, prop_status)
        end in
      let* (text_status, prop_status) :=
        if entry_conflicted e
        then
          let parent_dir :=
            if bool_decide (entry_kind e = svn_node_file)
            then Some (svn_path_remove_component path)
            else if bool_decide (entry_kind e = svn_node_dir)
            then Some path
            else None in
          let* (text_conflict_p, prop_conflict_p) :=
            svn_wc_conflicted_p parent_dir e in
          Ok (if text_conflict_p then svn_wc_status_conflicted
              else text_status,
              if prop_conflict_p then svn_wc_status_conflicted
              else prop_status)
        else Ok (text_status, prop_status) in
      Ok {| status_entry := Some e;
            status_repos_rev := SVN_INVALID_REVNUM;
            status_text_status := text_status;
            status_prop_status := prop_status |}
  end.

(** [svn_wc_status]. *)
Definition svn_wc_status (path : string) : svn_result svn_wc_status_t :=
  let* entry := svn_wc_entry path in
  assemble_status path entry.

(** Given an ENTRY representing PATH, build a status structure and store
    it in STATUSHASH.  The hash is changed in place: it is returned next
    to the outcome, as the call leaves it. *)
Definition add_status_structure
    (statushash : gmap string svn_wc_status_t) (path : string)
    (entry : option svn_wc_entry_t)
  : gmap string svn_wc_status_t * svn_result unit :=
  match assemble_status path entry with
  | Ok statstruct => (<[path := statstruct]> statushash, Ok tt)
  | Err e => (statushash, Err e)
  | Abort => (statushash, Abort)
  end.

(** One round of the loop of [svn_wc_statuses] over the entries of the
    directory PATH: the entry BASENAME.  DESCEND_INTO is the recursive
    call. *)
Definition statuses_of_entry
    (descend_into :
       gmap string svn_wc_status_t -> string ->
       option (gmap string svn_wc_status_t * svn_result unit))
    (path : string) (descend : bool)
    (statushash : gmap string svn_wc_status_t)
    (basename : string) (entry : svn_wc_entry_t)
  : option (gmap string svn_wc_status_t * svn_result unit) :=
  let fullpath :=
    if bool_decide (basename <> SVN_WC_ENTRY_THIS_DIR)
    then svn_path_add_component path basename
    else path in
  match svn_io_check_path fullpath with
  | Err e => Some (statushash, Err e)
  | Abort => Some (statushash, Abort)
  | Ok kind =>
      if bool_decide (basename = SVN_WC_ENTRY_THIS_DIR)
      then
        match statushash !! fullpath with
        | Some _ => Some (statushash, Ok tt)
        | None => Some (add_status_structure statushash fullpath (Some entry))
        end
      else if bool_decide (kind = svn_node_dir)
      then
        match svn_wc_entry fullpath with
        | Err e => Some (statushash, Err e)
        | Abort => Some (statushash, Abort)
        | Ok subdir =>
            match add_status_structure statushash fullpath subdir with
            | (statushash, Ok _) =>
                if descend
                then descend_into statushash fullpath
                else Some (statushash, Ok tt)
            | failed => Some failed
            end
        end
      else if bool_decide (kind = svn_node_file)
      then Some (add_status_structure statushash fullpath (Some entry))
      else Some (statushash, Ok tt)
  end.

(** The loop itself: it ends at the first entry that fails. *)
Fixpoint statuses_of_entries
    (descend_into :
       gmap string svn_wc_status_t -> string ->
       option (gmap string svn_wc_status_t * svn_result unit))
    (path : string) (descend : bool)
    (entries : list (string * svn_wc_entry_t))
    (statushash : gmap string svn_wc_status_t)
  : option (gmap string svn_wc_status_t * svn_result unit) :=
  match entries with
  | [] => Some (statushash, Ok tt)
  | (basename, entry) :: entries =>
      match statuses_of_entry descend_into path descend statushash
              basename entry with
      | Some (statushash, Ok _) =>
          statuses_of_entries descend_into path descend entries statushash
      | stopped => stopped
      end
  end.

(** [svn_wc_statuses].  The C function calls itself on every
    subdirectory when DESCEND is set: FUEL bounds the depth, and [None]
    says that FUEL ran out.  The entries of a directory are gone through
    in the order in which the hash holds them, here that of
    [map_to_list]. *)
Fixpoint svn_wc_statuses (fuel : nat)
    (statushash : gmap string svn_wc_status_t) (path : string)
    (descend : bool)
  : option (gmap string svn_wc_status_t * svn_result unit) :=
  match fuel with
  | O => None
  | S fuel =>
      match svn_io_check_path path with
      | Err e => Some (statushash, Err e)
      | Abort => Some (statushash, Abort)
      | Ok kind =>
          if bool_decide (kind = svn_node_file)
          then
            let (dirpath, basename) := svn_path_split path in
            match dirpath with
            | None => Some (statushash, Abort)
            | Some dirpath =>
                match svn_wc_entries_read dirpath with
                | Err e => Some (statushash, Err e)
                | Abort => Some (statushash, Abort)
                | Ok entries =>
                    match entries !! basename with
                    | Some entry =>
                        Some (add_status_structure statushash path
                                (Some entry))
                    | None => Some (statushash, Err SVN_ERR_BAD_FILENAME)
                    end
                end
            end
          else if bool_decide (kind = svn_node_dir)
          then
            match svn_wc_entries_read path with
            | Err e => Some (statushash, Err e)
            | Abort => Some (statushash, Abort)
            | Ok entries =>
                statuses_of_entries
                  (fun statushash fullpath =>
                     svn_wc_statuses fuel statushash fullpath descend)
                  path descend (map_to_list entries) statushash
            end
          else Some (statushash, Ok tt)
      end
  end.

End status.

End Status.

(** ** The update editor: [libsvn_wc/update_editor.c] *)

Module Editor.
Import Wc.

(** *** Batons *)

Record edit_baton : Type := mk_edit_baton {
  eb_anchor : string;
  eb_target : option string;
  eb_target_revision : Z;
  eb_recurse : bool;
  eb_is_checkout : bool;
  eb_ancestor_url : option string;
  eb_is_switch : bool;
  eb_switch_url : option string
}.

(** [struct dir_baton].  [db_parent_baton] is the parent as it was when
    this baton was made; a function that changes the parent (its
    [ref_count]) returns the changed parent.  A URL is a pointer that may
    be NULL. *)
#[warnings="-register-all"]
Inductive dir_baton : Type := mk_dir_baton {
  db_path : string;
  db_name : option string;
  db_URL : option string;
  db_disjoint_url : bool;
  db_ref_count : Z;
  db_edit_baton : edit_baton;
  db_parent_baton : option dir_baton;
  db_prop_changed : bool;
  db_added : bool;
  db_propchanges : list svn_prop_t
}.

Record file_baton : Type := mk_file_baton {
  fb_dir_baton : dir_baton;
  fb_name : string;
  fb_path : string;
  fb_URL : option string;
  fb_disjoint_url : bool;
  fb_text_changed : bool;
  fb_prop_changed : bool;
  fb_propchanges : list svn_prop_t
}.

Definition incr_ref_count (d : dir_baton) : dir_baton :=
  {| db_path := db_path d; db_name := db_name d; db_URL := db_URL d;
     db_disjoint_url := db_disjoint_url d;
     db_ref_count := db_ref_count d + 1;
     db_edit_baton := db_edit_baton d;
     db_parent_baton := db_parent_baton d;
     db_prop_changed := db_prop_changed d; db_added := db_added d;
     db_propchanges := db_propchanges d |}.

Section editor.

Context {PL : SvnPath} {W : WcWorld}.

(** The URL of a new baton in an update or switch: the one in the
    [entries] file, or the empty string when there is no entry. *)
Definition url_from_entries (path : string) : option string :=
  match svn_wc_entry path with
  | Ok (Some entry) => entry_url entry
  | _ => Some ""
  end.

(** [svn_stringbuf_dup (parent->URL)] and
    [svn_path_add_component (.., name)], for which neither pointer may be
    NULL, then the test
    [parent->disjoint_url || ! svn_stringbuf_compare (parent_URL, URL)]:
    below a disjoint parent the URL is not looked at, otherwise it may
    not be NULL either. *)
Definition disjoint_from_parent (parent_URL : option string)
    (parent_disjoint : bool) (name : option string) (URL : option string)
  : svn_result bool :=
  match parent_URL, name with
  | Some parent_URL, Some name =>
      if parent_disjoint
      then Ok true
      else
        match URL with
        | Some URL =>
            Ok (negb (bool_decide
                        (svn_path_add_component parent_URL name = URL)))
        | None => Abort
        end
  | _, _ => Abort
  end.

(** Create a new dir_baton for subdir NAME of PARENT_BATON; NAME and
    PARENT_BATON are [None] for the root baton.  Returns the baton and the
    parent, whose [ref_count] has been incremented. *)
Definition make_dir_baton (name : option string) (eb : edit_baton)
    (parent_baton : option dir_baton) (added : bool)
  : svn_result (dir_baton * option dir_baton) :=
  let path :=
    match parent_baton with
    | Some parent_baton => db_path parent_baton
    | None => eb_anchor eb
    end in
  let path :=
    match name with
    | Some name => svn_path_add_component path name
    | None => path
    end in
  let* (URL, disjoint_url) :=
    if eb_is_checkout eb
    then
      match parent_baton with
      | Some parent_baton =>
          match db_URL parent_baton, name with
          | Some URL, Some name =>
              Ok (Some (svn_path_add_component URL name), false)
          | _, _ => Abort
          end
      | None =>
          match eb_ancestor_url eb with
          | Some URL => Ok (Some URL, false)
          | None => Abort
          end
      end
    else
      let URL := url_from_entries path in
      match parent_baton with
      | Some parent_baton =>
          let* disjoint_url :=
            disjoint_from_parent (db_URL parent_baton)
              (db_disjoint_url parent_baton) name URL in
          Ok (URL, disjoint_url)
      | None => Ok (URL, false)
      end in
  let parent_baton :=
    match parent_baton with
    | Some parent_baton => Some (incr_ref_count parent_baton)
    | None => None
    end in
  Ok ({| db_path := path; db_name := name; db_URL := URL;
         db_disjoint_url := disjoint_url; db_ref_count := 1;
         db_edit_baton := eb; db_parent_baton := parent_baton;
         db_prop_changed := false; db_added := added;
         db_propchanges := [] |},
      parent_baton).

(** Make a file baton for NAME in PARENT_DIR_BATON. *)
Definition make_file_baton (parent_dir_baton : dir_baton) (name : string)
  : svn_result (file_baton * dir_baton) :=
  let path := svn_path_add_component (db_path parent_dir_baton) name in
  let* (URL, disjoint_url) :=
    if eb_is_checkout (db_edit_baton parent_dir_baton)
    then
      match db_URL parent_dir_baton with
      | Some URL => Ok (Some (svn_path_add_component URL name), false)
      | None => Abort
      end
    else
      let URL := url_from_entries path in
      let* disjoint_url :=
        disjoint_from_parent (db_URL parent_dir_baton)
          (db_disjoint_url parent_dir_baton) (Some name) URL in
      Ok (URL, disjoint_url) in
  let parent_dir_baton := incr_ref_count parent_dir_baton in
  Ok ({| fb_dir_baton := parent_dir_baton; fb_name := name;
         fb_path := path; fb_URL := URL; fb_disjoint_url := disjoint_url;
         fb_text_changed := false; fb_prop_changed := false;
         fb_propchanges := [] |},
      parent_dir_baton).

(** Whether making the baton of NAME below PARENT dereferences a NULL
    URL: the parent baton has no URL, or, in an update or switch below a
    parent that is not flagged disjoint, the entry of the new path has
    none. *)
Definition baton_lacks_url (eb : edit_baton) (parent : dir_baton)
    (name : string) : bool :=
  match db_URL parent with
  | None => true
  | Some _ =>
      negb (eb_is_checkout eb) && negb (db_disjoint_url parent)
      && match url_from_entries
                 (svn_path_add_component (db_path parent) name) with
         | None => true
         | Some _ => false
         end
  end.

(** *** Helpers for the editor callbacks *)

(** Prepare directory PATH for updating or checking out. *)
Definition prep_directory (path ancestor_url : string)
    (ancestor_revision : Z) (force : bool) : traced unit :=
  let+ _ :=
    if force
    then calling (call_ensure_directory path) (svn_wc__ensure_directory path)
    else traced_ret tt in
  calling (call_ensure_wc path ancestor_url ancestor_revision)
    (svn_wc__ensure_wc path ancestor_url ancestor_revision).

(** *** The callbacks *)

Definition set_target_revision (eb : edit_baton) (target_revision : Z)
  : edit_baton :=
  {| eb_anchor := eb_anchor eb; eb_target := eb_target eb;
     eb_target_revision := target_revision; eb_recurse := eb_recurse eb;
     eb_is_checkout := eb_is_checkout eb;
     eb_ancestor_url := eb_ancestor_url eb;
     eb_is_switch := eb_is_switch eb; eb_switch_url := eb_switch_url eb |}.

(** Whether the copyfrom pair is half given, a path without a valid
    revision or a valid revision without a path: what the semantic check
    of [add_directory] looks for. *)
Definition half_specified (copyfrom_path : option string)
    (copyfrom_revision : Z) : bool :=
  match copyfrom_path with
  | Some _ => negb (SVN_IS_VALID_REVNUM copyfrom_revision)
  | None => SVN_IS_VALID_REVNUM copyfrom_revision
  end.

(** Returns the new baton and the parent baton. *)
Definition add_directory (name : string) (parent_dir_baton : dir_baton)
    (copyfrom_path : option string) (copyfrom_revision : Z)
  : traced (dir_baton * dir_baton) :=
  let+ (this_dir_baton, parent) :=
    reading (make_dir_baton (Some name) (db_edit_baton parent_dir_baton)
               (Some parent_dir_baton) true) in
  let has_path := match copyfrom_path with Some _ => true | None => false end in
  if (has_path && negb (SVN_IS_VALID_REVNUM copyfrom_revision))
     || (negb has_path && SVN_IS_VALID_REVNUM copyfrom_revision)
  then ([], Abort)
  else
    let+ kind := reading (svn_io_check_path (db_path this_dir_baton)) in
    if bool_decide (kind <> svn_node_none)
    then ([], Err SVN_ERR_WC_OBSTRUCTED_UPDATE)
    else if has_path || SVN_IS_VALID_REVNUM copyfrom_revision
    then ([], Err SVN_ERR_UNSUPPORTED_FEATURE)
    else
      let+ parent_entry :=
        reading (svn_wc_entry (db_path parent_dir_baton)) in
      match parent_entry with
      | Some {| entry_url := Some url |} =>
          let new_URL := svn_path_add_component url name in
          let copyfrom_path := new_URL in
          let copyfrom_revision :=
            eb_target_revision (db_edit_baton parent_dir_baton) in
          let+ _ :=
            prep_directory (db_path this_dir_baton) copyfrom_path
              copyfrom_revision true in
          traced_ret (this_dir_baton,
                      match parent with
                      | Some parent => parent
                      | None => parent_dir_baton
                      end)
      | _ => ([], Abort)
      end.

Definition open_directory (name : string) (parent_dir_baton : dir_baton)
    (base_revision : Z) : svn_result (dir_baton * option dir_baton) :=
  make_dir_baton (Some name) (db_edit_baton parent_dir_baton)
    (Some parent_dir_baton) false.

Definition change_dir_prop (db : dir_baton) (name : string)
    (value : option string) : traced dir_baton :=
  let local_name := name in
  let local_value := value in
  if svn_wc_is_wc_prop name
  then
    let+ _ :=
      calling (call_wcprop_set name local_value (db_path db))
        (svn_wc__wcprop_set name local_value (db_path db)) in
    traced_ret db
  else if svn_wc_is_entry_prop name
  then
    let local_name := svn_wc__strip_entry_prefix local_name in
    let att_hash : gmap string string :=
      match local_value with
      | Some local_value => <[local_name := local_value]> ∅
      | None => <[local_name := ""]> ∅
      end in
    let args :=
      {| em_path := db_path db; em_name := None;
         em_modify_flags := SVN_WC__ENTRY_MODIFY_ATTRIBUTES;
         em_revision := SVN_INVALID_REVNUM; em_kind := svn_node_none;
         em_schedule := svn_wc_schedule_normal;
         em_conflicted := false; em_copied := false;
         em_text_time := 0; em_prop_time := 0; em_url := None;
         em_attributes := Some att_hash |} in
    let+ _ := calling (call_entry_modify args) (svn_wc__entry_modify args) in
    traced_ret db
  else
    traced_ret
      {| db_path := db_path db; db_name := db_name db; db_URL := db_URL db;
         db_disjoint_url := db_disjoint_url db;
         db_ref_count := db_ref_count db;
         db_edit_baton := db_edit_baton db;
         db_parent_baton := db_parent_baton db;
         db_prop_changed := true; db_added := db_added db;
         db_propchanges :=
           (db_propchanges db ++ [mk_prop local_name local_value])%list |}.

(** Common code for [add_file] and [open_file].  Returns the file baton
    and the parent baton. *)
Definition add_or_open_file (name : string) (parent_dir_baton : dir_baton)
    (ancestor_url : option string) (ancestor_revision : Z) (adding : bool)
  : svn_result (file_baton * dir_baton) :=
  let* (fb, parent) := make_file_baton parent_dir_baton name in
  let* dirents := svn_io_get_dirents (db_path parent_dir_baton) in
  let* entries := svn_wc_entries_read (db_path parent_dir_baton) in
  let entry := entries !! name in
  if adding && match dirents !! name with Some _ => true | None => false end
  then Err SVN_ERR_WC_OBSTRUCTED_UPDATE
  else if negb adding && match entry with Some _ => false | None => true end
  then Err SVN_ERR_ENTRY_NOT_FOUND
  else
    let* is_wc := svn_wc_check_wc (db_path parent_dir_baton) in
    if negb is_wc
    then Err SVN_ERR_WC_OBSTRUCTED_UPDATE
    else Ok (fb, parent).

Definition add_file (name : string) (parent_baton : dir_baton)
    (copyfrom_path : option string) (copyfrom_revision : Z)
  : svn_result (file_baton * dir_baton) :=
  add_or_open_file name parent_baton copyfrom_path copyfrom_revision true.

Definition open_file (name : string) (parent_baton : dir_baton)
    (base_revision : Z) : svn_result (file_baton * dir_baton) :=
  add_or_open_file name parent_baton None base_revision false.


(** *** Reference counts

    A baton is freed when the last of the changes that refer to it is
    complete.  The functions below reach the parent through
    [db_parent_baton]: the baton handed in carries its parents as they
    are now.  They answer with the nearest baton of that chain that is
    still allocated, as the call leaves it, and with [None] when the
    whole chain has been freed. *)

(** [d->ref_count--]. *)
Definition decr_ref_count (d : dir_baton) : dir_baton :=
  {| db_path := db_path d; db_name := db_name d; db_URL := db_URL d;
     db_disjoint_url := db_disjoint_url d;
     db_ref_count := db_ref_count d - 1;
     db_edit_baton := db_edit_baton d;
     db_parent_baton := db_parent_baton d;
     db_prop_changed := db_prop_changed d; db_added := db_added d;
     db_propchanges := db_propchanges d |}.

(** The arguments of the two calls of [svn_wc__entry_modify] in
    [free_dir_baton]: the one that bumps the directory to the target
    revision, and the one that enters a newly added directory in the
    entries of its parent. *)
Definition bump_revision_args (dir_baton : dir_baton) : entry_modify_args :=
  {| em_path := db_path dir_baton; em_name := None;
     em_modify_flags := SVN_WC__ENTRY_MODIFY_REVISION;
     em_revision := eb_target_revision (db_edit_baton dir_baton);
     em_kind := svn_node_dir; em_schedule := svn_wc_schedule_normal;
     em_conflicted := false; em_copied := false;
     em_text_time := 0; em_prop_time := 0; em_url := None;
     em_attributes := None |}.

Definition add_to_parent_args (parent dir_baton : dir_baton)
  : entry_modify_args :=
  {| em_path := db_path parent; em_name := db_name dir_baton;
     em_modify_flags := SVN_WC__ENTRY_MODIFY_KIND;
     em_revision := SVN_INVALID_REVNUM;
     em_kind := svn_node_dir; em_schedule := svn_wc_schedule_normal;
     em_conflicted := false; em_copied := false;
     em_text_time := 0; em_prop_time := 0; em_url := None;
     em_attributes := None |}.

(** The body of [free_dir_baton]; UP is what its last step,
    [decrement_ref_count (parent)], does. *)
Definition free_dir_baton_then (dir_baton : dir_baton)
    (up : traced (option Editor.dir_baton)) : traced (option Editor.dir_baton) :=
  let parent := db_parent_baton dir_baton in
  let+ _ :=
    if eb_is_checkout (db_edit_baton dir_baton)
       || match parent with Some _ => true | None => false end
    then
      calling (call_entry_modify (bump_revision_args dir_baton))
        (svn_wc__entry_modify (bump_revision_args dir_baton))
    else traced_ret tt in
  let+ _ :=
    match parent with
    | Some parent =>
        if db_added dir_baton
        then
          calling (call_entry_modify (add_to_parent_args parent dir_baton))
            (svn_wc__entry_modify (add_to_parent_args parent dir_baton))
        else traced_ret tt
    | None => traced_ret tt
    end in
  match parent with
  | Some _ => up
  | None => traced_ret None
  end.

(** Decrement the ref count of D, and if the count hits 0, call
    [free_dir_baton]. *)
Fixpoint decrement_ref_count (d : dir_baton) : traced (option dir_baton) :=
  let d' := decr_ref_count d in
  if bool_decide (db_ref_count d' = 0)
  then
    free_dir_baton_then d'
      match db_parent_baton d with
      | Some parent => decrement_ref_count parent
      | None => traced_ret None
      end
  else traced_ret (Some d').

Definition free_dir_baton (dir_baton : dir_baton)
  : traced (option Editor.dir_baton) :=
  free_dir_baton_then dir_baton
    match db_parent_baton dir_baton with
    | Some parent => decrement_ref_count parent
    | None => traced_ret None
    end.


(** *** More callbacks *)

Definition open_root (eb : edit_baton) (base_revision : Z)
  : traced dir_baton :=
  let+ (d, _) := reading (make_dir_baton None eb None false) in
  let+ _ :=
    if eb_is_checkout eb
    then
      match eb_ancestor_url eb with
      | Some ancestor_url =>
          prep_directory (db_path d) ancestor_url (eb_target_revision eb)
            true
      | None => ([], Abort)
      end
    else traced_ret tt in
  traced_ret d.

(** The log of [delete_entry] is one command. *)
Definition delete_entry (name : string) (revision : Z)
    (parent_dir_baton : dir_baton) : traced unit :=
  let path := db_path parent_dir_baton in
  let+ _ := calling (call_lock path) (svn_wc__lock path) in
  let+ _ := calling (call_open_log path) (svn_wc__open_adm_file path) in
  let log_item :=
    svn_xml_make_open_tag [] SVN_WC__LOG_DELETE_ENTRY
      [(SVN_WC__LOG_ATTR_NAME, name)] in
  let+ _ := write_log path log_item in
  let+ _ := calling (call_close_log path) (svn_wc__close_adm_file path) in
  let+ _ := calling (call_run_log path) (svn_wc__run_log path) in
  calling (call_unlock path) (svn_wc__unlock path).

(** The log that [close_directory] writes for a directory with property
    changes: what the merge of the properties has put there, the command
    that bumps the revision of the directory, and the command that sets
    its property time unless the properties are locally modified. *)
Definition close_directory_log (db : dir_baton)
    (merged : list log_command) (prop_modified : bool) : list log_command :=
  let entry_accum := merged in
  let entry_accum :=
    svn_xml_make_open_tag entry_accum SVN_WC__LOG_MODIFY_ENTRY
      [ (SVN_WC__LOG_ATTR_NAME, SVN_WC_ENTRY_THIS_DIR);
        (SVN_WC_ENTRY_ATTR_REVISION,
         pretty (eb_target_revision (db_edit_baton db))) ] in
  if negb prop_modified
  then
    svn_xml_make_open_tag entry_accum SVN_WC__LOG_MODIFY_ENTRY
      [ (SVN_WC__LOG_ATTR_NAME, SVN_WC_ENTRY_THIS_DIR);
        (SVN_WC_ENTRY_ATTR_PROP_TIME, SVN_WC_TIMESTAMP_WC) ]
  else entry_accum.

Definition close_directory (db : dir_baton) : traced (option dir_baton) :=
  let path := db_path db in
  let+ _ :=
    if db_prop_changed db
    then
      let+ _ := calling (call_lock path) (svn_wc__lock path) in
      let+ _ := calling (call_open_log path) (svn_wc__open_adm_file path) in
      let+ (merged, conflicts) :=
        calling (call_merge_prop_diffs path None (db_propchanges db))
          (svn_wc__merge_prop_diffs path None (db_propchanges db)) in
      let+ prop_modified := reading (svn_wc_props_modified_p path) in
      let entry_accum := close_directory_log db merged prop_modified in
      let+ _ := write_log path entry_accum in
      let+ _ := calling (call_close_log path) (svn_wc__close_adm_file path) in
      let+ _ := calling (call_run_log path) (svn_wc__run_log path) in
      calling (call_unlock path) (svn_wc__unlock path)
    else traced_ret tt in
  decrement_ref_count db.

(** *** Returning editors

    The table of callbacks that [make_editor] fills in is the callbacks
    of this module; what is kept of it is the edit baton.  A checkout
    without ancestor URL fails the assertion. *)
Definition make_editor (anchor : string) (target : option string)
    (target_revision : Z) (is_checkout : bool)
    (ancestor_url : option string) (is_switch : bool)
    (switch_url : option string) (recurse : bool) : svn_result edit_baton :=
  if is_checkout
     && match ancestor_url with Some _ => false | None => true end
  then Abort
  else
    Ok {| eb_anchor := anchor; eb_target := target;
          eb_target_revision := target_revision; eb_recurse := recurse;
          eb_is_checkout := is_checkout; eb_ancestor_url := ancestor_url;
          eb_is_switch := is_switch; eb_switch_url := switch_url |}.

Definition svn_wc_get_update_editor (anchor : string)
    (target : option string) (target_revision : Z) (recurse : bool)
  : svn_result edit_baton :=
  make_editor anchor target target_revision false None false None recurse.

Definition svn_wc_get_checkout_editor (dest : string)
    (ancestor_url : option string) (target_revision : Z) (recurse : bool)
  : svn_result edit_baton :=
  make_editor dest None target_revision true ancestor_url false None recurse.

Definition svn_wc_get_switch_editor (anchor : string)
    (target : option string) (target_revision : Z)
    (switch_url : option string) (recurse : bool) : svn_result edit_baton :=
  make_editor anchor target target_revision false None true switch_url
    recurse.

End editor.

(** *** Installing a file *)

(** Helper for [svn_wc_install_file]: append a log command TAGNAME with
    attributes NAME, DEST, EOL_STR, REPAIR, KEYWORDS and EXPAND. *)
Definition make_translation_open_tag (entry_accum : list log_command)
    (tagname : log_tag) (name dest : string) (eol_str : option string)
    (repair : bool) (keywords : option svn_wc_keywords_t) (expand : bool)
  : list log_command :=
  let set_opt (key : string) (value : option string)
      (hash : gmap string string) : gmap string string :=
    match value with
    | Some value => <[key := value]> hash
    | None => hash
    end in
  let hash : gmap string string := ∅ in
  let hash := <[SVN_WC__LOG_ATTR_NAME := name]> hash in
  let hash := <[SVN_WC__LOG_ATTR_DEST := dest]> hash in
  let hash := set_opt SVN_WC__LOG_ATTR_EOL_STR eol_str hash in
  let hash :=
    if repair then <[SVN_WC__LOG_ATTR_REPAIR := "true"]> hash else hash in
  let hash :=
    match keywords with
    | Some keywords =>
        let hash :=
          set_opt SVN_WC__LOG_ATTR_REVISION (kw_revision keywords) hash in
        let hash := set_opt SVN_WC__LOG_ATTR_DATE (kw_date keywords) hash in
        let hash :=
          set_opt SVN_WC__LOG_ATTR_AUTHOR (kw_author keywords) hash in
        set_opt SVN_WC__LOG_ATTR_URL (kw_url keywords) hash
    | None => hash
    end in
  let hash :=
    if expand then <[SVN_WC__LOG_ATTR_EXPAND := "true"]> hash else hash in
  svn_xml_make_open_tag_hash entry_accum tagname hash.

(** Helper for [svn_wc_install_file]: append the command that runs
    [patch] on PATH.  [SVN_WC__LOG_ATTR_ARG_4] is given twice. *)
Definition make_patch_open_tag {PL : SvnPath} (entry_accum : list log_command)
    (path reject_file patch_file : string) : list log_command :=
  let (dir, bname) := svn_path_split path in
  let backup_prefix :=
    match dir with
    | Some dir => "-B" +:+ svn_path_add_component dir ".#"
    | None => "-B" +:+ ".#"
    end in
  svn_xml_make_open_tag entry_accum SVN_WC__LOG_RUN_CMD
    [ (SVN_WC__LOG_ATTR_NAME, SVN_CLIENT_PATCH);
      (SVN_WC__LOG_ATTR_ARG_1, "-r");
      (SVN_WC__LOG_ATTR_ARG_2, reject_file);
      (SVN_WC__LOG_ATTR_ARG_3, backup_prefix);
      (SVN_WC__LOG_ATTR_ARG_4, "-f");
      (SVN_WC__LOG_ATTR_ARG_4, "--silent");
      (SVN_WC__LOG_ATTR_ARG_5, "--");
      (SVN_WC__LOG_ATTR_ARG_6, path);
      (SVN_WC__LOG_ATTR_INFILE, patch_file) ].

(** Helper for [svn_wc_install_file]: a keyword that is set in KEYWORDS
    takes the value of the matching entry-prop among PROPS. *)
Definition latest_keyword_data (props : option (list svn_prop_t))
    (keywords : option svn_wc_keywords_t) : option svn_wc_keywords_t :=
  match props, keywords with
  | Some props, Some keywords =>
      Some
        (fold_left
           (fun (keywords : svn_wc_keywords_t) (prop : svn_prop_t) =>
              let propname := svn_wc__strip_entry_prefix (prop_name prop) in
              let pick (current : option string) (attr : string) :=
                match current with
                | Some _ =>
                    if bool_decide (propname = attr) then prop_value prop
                    else current
                | None => current
                end in
              {| kw_revision :=
                   pick (kw_revision keywords) SVN_ENTRY_ATTR_COMMITTED_REV;
                 kw_date :=
                   pick (kw_date keywords) SVN_ENTRY_ATTR_COMMITTED_DATE;
                 kw_author :=
                   pick (kw_author keywords) SVN_ENTRY_ATTR_LAST_AUTHOR;
                 kw_url := kw_url keywords |})
           props keywords)
  | _, _ => keywords
  end.

Section install.

Context {PL : SvnPath} {W : WcWorld}.

(** The value of the last property named NAME in PROPS, if any; a
    property of that name with a NULL value is dereferenced. *)
Definition fresh_value (props : option (list svn_prop_t)) (name : string)
  : svn_result (option string) :=
  match props with
  | None => Ok None
  | Some props =>
      fold_left
        (fun (fresh : svn_result (option string)) (prop : svn_prop_t) =>
           let* fresh := fresh in
           if bool_decide (prop_name prop = name)
           then match prop_value prop with
                | Some value => Ok (Some value)
                | None => Abort
                end
           else Ok fresh)
        props (Ok None)
  end.

(** The hash of the 'new' pristine properties. *)
Definition new_pristine_hash (regular_props : list svn_prop_t)
  : svn_result (gmap string string) :=
  fold_left
    (fun (hash : svn_result (gmap string string)) (prop : svn_prop_t) =>
       let* hash := hash in
       match prop_value prop with
       | Some value => Ok (<[prop_name prop := value]> hash)
       | None => Abort
       end)
    regular_props (Ok ∅).

(** The path [s] relative to PARENT_DIR: the first [len + 1] bytes are
    chopped off. *)
Definition relative_to (parent_dir s : string) : string :=
  drop_chars (String.length parent_dir + 1) s.

(** The diff-and-patch block of the textual merge: the working file
    exists and has local modifications. *)
Definition merge_with_patch (entry_accum : list log_command)
    (file_path parent_dir basename : string)
    (eol_style : svn_wc__eol_style) (eol_str : option string)
    (keywords : option svn_wc_keywords_t) : traced (list log_command) :=
  let tmp_loc := svn_wc__adm_path parent_dir true basename in
  let+ received_diff_filename :=
    calling (call_open_unique_file tmp_loc SVN_WC__DIFF_EXT)
      (svn_io_open_unique_file 0 tmp_loc SVN_WC__DIFF_EXT) in
  let tmp_txtb_full_path := svn_wc__text_base_path file_path true in
  let txtb_full_path := svn_wc__text_base_path file_path false in
  let+ tr_txtb :=
    calling (call_open_unique_file tmp_loc SVN_WC__BASE_EXT)
      (svn_io_open_unique_file 1 tmp_loc SVN_WC__BASE_EXT) in
  let+ tr_tmp_txtb :=
    calling (call_open_unique_file tmp_loc SVN_WC__BASE_EXT)
      (svn_io_open_unique_file 2 tmp_loc SVN_WC__BASE_EXT) in
  let+ _ :=
    calling
      (call_copy_and_translate txtb_full_path tr_txtb
         SVN_WC__DEFAULT_EOL_MARKER true keywords false)
      (svn_wc_copy_and_translate txtb_full_path tr_txtb
         SVN_WC__DEFAULT_EOL_MARKER true keywords false) in
  let+ _ :=
    calling
      (call_copy_and_translate tmp_txtb_full_path tr_tmp_txtb
         SVN_WC__DEFAULT_EOL_MARKER true keywords false)
      (svn_wc_copy_and_translate tmp_txtb_full_path tr_tmp_txtb
         SVN_WC__DEFAULT_EOL_MARKER true keywords false) in
  let+ _ :=
    calling (call_run_diff tr_txtb tr_tmp_txtb received_diff_filename)
      (svn_io_run_diff tr_txtb tr_tmp_txtb received_diff_filename) in
  let tr_txtb := relative_to parent_dir tr_txtb in
  let tr_tmp_txtb := relative_to parent_dir tr_tmp_txtb in
  let entry_accum :=
    svn_xml_make_open_tag entry_accum SVN_WC__LOG_RM
      [(SVN_WC__LOG_ATTR_NAME, tr_txtb)] in
  let entry_accum :=
    svn_xml_make_open_tag entry_accum SVN_WC__LOG_RM
      [(SVN_WC__LOG_ATTR_NAME, tr_tmp_txtb)] in
  let+ reject_filename :=
    calling (call_open_unique_file file_path SVN_WC__TEXT_REJ_EXT)
      (svn_io_open_unique_file 3 file_path SVN_WC__TEXT_REJ_EXT) in
  let+ _ :=
    apr_status (call_file_close reject_filename)
      (apr_file_close reject_filename) in
  let reject_filename := relative_to parent_dir reject_filename in
  let received_diff_filename :=
    relative_to parent_dir received_diff_filename in
  let+ entry_accum :=
    if bool_decide (eol_style = svn_wc__eol_style_none)
       && match keywords with None => true | Some _ => false end
    then
      traced_ret
        (make_patch_open_tag entry_accum basename reject_filename
           received_diff_filename)
    else
      let+ tmp_working :=
        calling (call_open_unique_file tmp_loc SVN_WC__TMP_EXT)
          (svn_io_open_unique_file 4 tmp_loc SVN_WC__TMP_EXT) in
      let tmp_working := relative_to parent_dir tmp_working in
      let entry_accum :=
        make_translation_open_tag entry_accum SVN_WC__LOG_CP basename
          tmp_working (Some "LF") true keywords false in
      let entry_accum :=
        make_patch_open_tag entry_accum tmp_working reject_filename
          received_diff_filename in
      let entry_accum :=
        make_translation_open_tag entry_accum SVN_WC__LOG_CP tmp_working
          basename eol_str false keywords true in
      traced_ret
        (svn_xml_make_open_tag entry_accum SVN_WC__LOG_RM
           [(SVN_WC__LOG_ATTR_NAME, tmp_working)]) in
  let entry_accum :=
    svn_xml_make_open_tag entry_accum SVN_WC__LOG_RM
      [(SVN_WC__LOG_ATTR_NAME, received_diff_filename)] in
  traced_ret
    (svn_xml_make_open_tag entry_accum SVN_WC__LOG_DETECT_CONFLICT
       [ (SVN_WC__LOG_ATTR_NAME, basename);
         (SVN_WC_ENTRY_ATTR_REJFILE, reject_filename) ]).

(** The value of [svn:eol-style] or [svn:keywords] to go by: whether the
    property of that name, freshly passed in, is to be used, and with
    which value. *)
Definition use_fresh (regular_props : option (list svn_prop_t))
    (prop_conflicts : option (gset string)) (name : string)
  : svn_result (option string) :=
  let* fresh := fresh_value regular_props name in
  match fresh with
  | None => Ok None
  | Some value =>
      match prop_conflicts with
      | None => Abort
      | Some prop_conflicts =>
          if bool_decide (name ∈ prop_conflicts) then Ok None
          else Ok (Some value)
      end
  end.

(** The textual merge of [svn_wc_install_file], run when NEW_TEXT_PATH is
    given.  Returns the log and [is_locally_modified]. *)
Definition install_text (entry_accum : list log_command)
    (file_path parent_dir basename new_text_path : string)
    (new_URL : option string)
    (entry_props regular_props : option (list svn_prop_t))
    (prop_conflicts : option (gset string))
  : traced (list log_command * bool) :=
  let+ has_binary_prop := reading (svn_wc_has_binary_prop file_path) in
  let+ is_locally_modified := reading (svn_wc_text_modified_p file_path) in
  (* which eol-style *)
  let+ fresh_eol_style :=
    reading (use_fresh regular_props prop_conflicts SVN_PROP_EOL_STYLE) in
  let+ (eol_style, eol_str) :=
    match fresh_eol_style with
    | None => reading (svn_wc__get_eol_style file_path)
    | Some value => traced_ret (svn_wc__eol_style_from_value value)
    end in
  let eol_str := svn_wc__eol_value_from_string eol_str in
  (* which keywords *)
  let+ fresh_keywords_value :=
    reading (use_fresh regular_props prop_conflicts SVN_PROP_KEYWORDS) in
  let+ keywords :=
    reading (svn_wc__get_keywords file_path fresh_keywords_value) in
  let keywords := latest_keyword_data entry_props keywords in
  let+ keywords :=
    match keywords with
    | Some {| kw_revision := r; kw_date := d; kw_author := a;
              kw_url := Some _ |} =>
        match new_URL with
        | Some new_URL =>
            traced_ret (Some (mk_keywords r d a (Some new_URL)))
        | None =>
            let+ parent_entry := reading (svn_wc_entry parent_dir) in
            match parent_entry with
            | Some parent_entry =>
                match entry_url parent_entry with
                | Some url =>
                    traced_ret
                      (Some (mk_keywords r d a
                               (Some (svn_path_add_component url basename))))
                | None => ([], Abort)
                end
            | None => traced_ret keywords
            end
        end
    | _ => traced_ret keywords
    end in
  (* move the new text base where the log can reach it *)
  let final_location := svn_wc__text_base_path file_path true in
  let+ _ :=
    if bool_decide (final_location <> new_text_path)
    then apr_status (call_file_rename new_text_path final_location)
           (apr_file_rename new_text_path final_location)
    else traced_ret tt in
  let txtb := svn_wc__text_base_path basename false in
  let tmp_txtb := svn_wc__text_base_path basename true in
  let entry_accum :=
    svn_xml_make_open_tag entry_accum SVN_WC__LOG_MV
      [ (SVN_WC__LOG_ATTR_NAME, tmp_txtb); (SVN_WC__LOG_ATTR_DEST, txtb) ] in
  let+ entry_accum :=
    if negb is_locally_modified
    then
      traced_ret
        (make_translation_open_tag entry_accum SVN_WC__LOG_CP txtb basename
           eol_str false keywords true)
    else if negb has_binary_prop
    then
      let+ wfile_kind := reading (svn_io_check_path file_path) in
      if bool_decide (wfile_kind = svn_node_none)
      then
        traced_ret
          (make_translation_open_tag entry_accum SVN_WC__LOG_CP txtb
             basename eol_str false keywords true)
      else
        merge_with_patch entry_accum file_path parent_dir basename
          eol_style eol_str keywords
    else
      let+ renamed_path :=
        calling (call_open_unique_file file_path ".orig")
          (svn_io_open_unique_file 5 file_path ".orig") in
      let+ _ :=
        apr_status (call_file_close renamed_path)
          (apr_file_close renamed_path) in
      let renamed_basename := svn_path_last_component renamed_path in
      let entry_accum :=
        svn_xml_make_open_tag entry_accum SVN_WC__LOG_CP
          [ (SVN_WC__LOG_ATTR_NAME, basename);
            (SVN_WC__LOG_ATTR_DEST, renamed_basename) ] in
      traced_ret
        (svn_xml_make_open_tag entry_accum SVN_WC__LOG_CP
           [ (SVN_WC__LOG_ATTR_NAME, txtb);
             (SVN_WC__LOG_ATTR_DEST, basename) ]) in
  traced_ret
    (svn_xml_make_open_tag entry_accum SVN_WC__LOG_READONLY
       [(SVN_WC__LOG_ATTR_NAME, txtb)],
     is_locally_modified).

(** The commands that end the log of [svn_wc_install_file]: after the
    revision bump, the timestamps and the URL. *)
Definition text_time_command (basename : string) : log_command :=
  mk_log_command SVN_WC__LOG_MODIFY_ENTRY
    (ap_to_hash [ (SVN_WC__LOG_ATTR_NAME, basename);
                  (SVN_WC_ENTRY_ATTR_TEXT_TIME, SVN_WC_TIMESTAMP_WC) ]).

(** The command that writes the entry property PROP as a field of the
    entry BASENAME: the name of the field is the name of the property
    past its prefix, its value the value of the property, or the empty
    string for a NULL value. *)
Definition entry_prop_command (basename : string) (prop : svn_prop_t)
  : log_command :=
  let prefix_len := (svn_property_kind (prop_name prop)).2 in
  let propval :=
    match prop_value prop with
    | Some value => value
    | None => ""
    end in
  mk_log_command SVN_WC__LOG_MODIFY_ENTRY
    (ap_to_hash [ (SVN_WC__LOG_ATTR_NAME, basename);
                  (drop_chars prefix_len (prop_name prop), propval) ]).

Definition revision_command (basename : string) (new_revision : Z)
  : log_command :=
  mk_log_command SVN_WC__LOG_MODIFY_ENTRY
    (ap_to_hash [ (SVN_WC__LOG_ATTR_NAME, basename);
                  (SVN_WC_ENTRY_ATTR_KIND, SVN_WC__ENTRIES_ATTR_FILE_STR);
                  (SVN_WC_ENTRY_ATTR_REVISION, pretty new_revision) ]).

Definition svn_wc_install_file (file_path : string) (new_revision : Z)
    (new_text_path : option string) (props : option (list svn_prop_t))
    (is_full_proplist : bool) (new_URL : option string) : traced unit :=
  let basename := (svn_path_split file_path).2 in
  let+ parent_dir :=
    match (svn_path_split file_path).1 with
    | Some parent_dir => traced_ret parent_dir
    | None => ([], Abort)
    end in
  let+ _ := calling (call_lock parent_dir) (svn_wc__lock parent_dir) in
  let+ _ :=
    calling (call_open_log parent_dir) (svn_wc__open_adm_file parent_dir) in
  let entry_accum : list log_command := [] in
  (* sort the property list into three arrays *)
  let categorized :=
    match props with
    | Some props => Some (svn_categorize_props props)
    | None => None
    end in
  let entry_props :=
    match categorized with Some c => Some c.1.1 | None => None end in
  let wc_props :=
    match categorized with Some c => Some c.1.2 | None => None end in
  let regular_props :=
    match categorized with Some c => Some c.2 | None => None end in
  (* merge the regular props *)
  let+ (entry_accum, prop_conflicts) :=
    match regular_props with
    | Some regular_props =>
        let+ propchanges :=
          if is_full_proplist
          then
            let+ pristine_prop_path :=
              reading (svn_wc__prop_base_path file_path) in
            let+ old_pristine_props :=
              reading (svn_wc__load_prop_file pristine_prop_path) in
            let+ new_pristine_props :=
              reading (new_pristine_hash regular_props) in
            reading (svn_wc__get_local_propchanges new_pristine_props
                       old_pristine_props)
          else traced_ret regular_props in
        let+ (commands, conflicts) :=
          calling (call_merge_prop_diffs parent_dir (Some basename)
                     propchanges)
            (svn_wc__merge_prop_diffs parent_dir (Some basename)
               propchanges) in
        traced_ret ((entry_accum ++ commands)%list, Some conflicts)
    | None => traced_ret (entry_accum, None)
    end in
  (* the entry props become fields of the file's entry *)
  let entry_accum :=
    match entry_props with
    | Some entry_props =>
        fold_left
          (fun entry_accum (prop : svn_prop_t) =>
             let prefix_len := (svn_property_kind (prop_name prop)).2 in
             let propval :=
               match prop_value prop with
               | Some value => value
               | None => ""
               end in
             svn_xml_make_open_tag entry_accum SVN_WC__LOG_MODIFY_ENTRY
               [ (SVN_WC__LOG_ATTR_NAME, basename);
                 (drop_chars prefix_len (prop_name prop), propval) ])
          entry_props entry_accum
    | None => entry_accum
    end in
  (* the textual merge *)
  let+ (entry_accum, is_locally_modified) :=
    match new_text_path with
    | Some new_text_path =>
        let+ (entry_accum, is_locally_modified) :=
          install_text entry_accum file_path parent_dir basename
            new_text_path new_URL entry_props regular_props prop_conflicts in
        traced_ret (entry_accum, Some is_locally_modified)
    | None => traced_ret (entry_accum, None)
    end in
  (* bump the revision number *)
  let entry_accum :=
    svn_xml_make_open_tag entry_accum SVN_WC__LOG_MODIFY_ENTRY
      [ (SVN_WC__LOG_ATTR_NAME, basename);
        (SVN_WC_ENTRY_ATTR_KIND, SVN_WC__ENTRIES_ATTR_FILE_STR);
        (SVN_WC_ENTRY_ATTR_REVISION, pretty new_revision) ] in
  (* the timestamps *)
  let entry_accum :=
    match new_text_path, is_locally_modified with
    | Some _, Some false =>
        svn_xml_make_open_tag entry_accum SVN_WC__LOG_MODIFY_ENTRY
          [ (SVN_WC__LOG_ATTR_NAME, basename);
            (SVN_WC_ENTRY_ATTR_TEXT_TIME, SVN_WC_TIMESTAMP_WC) ]
    | _, _ => entry_accum
    end in
  let+ entry_accum :=
    match props with
    | Some _ =>
        let+ prop_modified := reading (svn_wc_props_modified_p file_path) in
        traced_ret
          (if negb prop_modified
           then
             svn_xml_make_open_tag entry_accum SVN_WC__LOG_MODIFY_ENTRY
               [ (SVN_WC__LOG_ATTR_NAME, basename);
                 (SVN_WC_ENTRY_ATTR_PROP_TIME, SVN_WC_TIMESTAMP_WC) ]
           else entry_accum)
    | None => traced_ret entry_accum
    end in
  (* a URL that is not inherited *)
  let entry_accum :=
    match new_URL with
    | Some new_URL =>
        svn_xml_make_open_tag entry_accum SVN_WC__LOG_MODIFY_ENTRY
          [ (SVN_WC__LOG_ATTR_NAME, basename);
            (SVN_WC_ENTRY_ATTR_URL, new_URL) ]
    | None => entry_accum
    end in
  (* write the log, run it *)
  let+ _ := write_log parent_dir entry_accum in
  let+ _ :=
    calling (call_close_log parent_dir) (svn_wc__close_adm_file parent_dir) in
  let+ _ := calling (call_run_log parent_dir) (svn_wc__run_log parent_dir) in
  let+ _ :=
    match wc_props with
    | Some wc_props =>
        fold_left
          (fun (done : traced unit) (prop : svn_prop_t) =>
             let+ _ := done in
             calling
               (call_wcprop_set (prop_name prop) (prop_value prop) file_path)
               (svn_wc__wcprop_set (prop_name prop) (prop_value prop)
                  file_path))
          wc_props (traced_ret tt)
    | None => traced_ret tt
    end in
  calling (call_unlock parent_dir) (svn_wc__unlock parent_dir).


End install.

(** *** The end of the edit, and where an edit is rooted *)

Section target.

Context {PL : SvnPath} {PE : SvnPathEmpty} {W : WcWorld} {WU : WcCleanup}.

(** For a checkout nothing is left to do; for an update or a switch the
    target gets the new working revision and, in a switch, the new
    URL. *)
Definition close_edit (eb : edit_baton) : svn_result unit :=
  if eb_is_checkout eb
  then Ok tt
  else
    let full_path :=
      match eb_target eb with
      | Some target => svn_path_add_component (eb_anchor eb) target
      | None => eb_anchor eb
      end in
    let* url :=
      if eb_is_switch eb
      then
        match eb_switch_url eb with
        | Some switch_url => Ok (Some switch_url)
        | None => Abort
        end
      else Ok None in
    svn_wc__do_update_cleanup full_path (eb_recurse eb) url
      (eb_target_revision eb).

(** Whether PATH is the root of a working copy: a path whose parent
    directory is not versioned, or is not its parent in the
    repository. *)
Definition svn_wc_is_wc_root (path : string) : svn_result bool :=
  let* entry := svn_wc_entry path in
  match entry with
  | None => Err SVN_ERR_ENTRY_NOT_FOUND
  | Some entry =>
      if svn_path_is_empty path
      then Ok true
      else
        let (parent, basename) := svn_path_split path in
        match parent with
        | None => Abort
        | Some parent =>
            let parent := if svn_path_is_empty parent then "." else parent in
            match svn_wc_entry parent with
            | Abort => Abort
            | Err _ | Ok None => Ok true
            | Ok (Some p_entry) =>
                match entry_url p_entry with
                | None => Err SVN_ERR_ENTRY_MISSING_URL
                | Some url =>
                    let expected_url :=
                      svn_path_add_component url basename in
                    match entry_url entry with
                    | Some entry_url =>
                        if negb (bool_decide (expected_url = entry_url))
                        then Ok true
                        else Ok false
                    | None => Ok false
                    end
                end
            end
        end
  end.

(** The anchor and the target of an update of PATH. *)
Definition svn_wc_get_actual_target (path : string)
  : svn_result (string * option string) :=
  let* wc_root := svn_wc_is_wc_root path in
  if wc_root
  then Ok (path, None)
  else
    let (anchor, target) := svn_path_split path in
    match anchor with
    | None => Abort
    | Some anchor =>
        Ok (if svn_path_is_empty anchor then "." else anchor, Some target)
    end.

End target.

(** *** An example working copy

    A world that answers from a listing of the disk and of the entries of
    each directory, so that the callbacks can be run: every change
    succeeds, no property is modified, unique files are named after their
    path, suffix and number. *)
Module Example.

Record disk : Type := mk_disk {
  disk_paths : gmap string svn_node_kind;
  disk_entries : gmap string (gmap string svn_wc_entry_t);
  disk_is_wc : bool;
  disk_text_modified : bool;
  disk_binary : bool;
  disk_conflicts : bool * bool
}.

Definition dirents_of (d : disk) (dir : string) : gmap string svn_node_kind :=
  list_to_map
    (omap (fun pk : string * svn_node_kind =>
             if bool_decide (RefPath.dirname pk.1 = dir)
             then Some ((RefPath.split pk.1).2, pk.2)
             else None)
       (map_to_list (disk_paths d))).

Definition entry_of (d : disk) (path : string) : option svn_wc_entry_t :=
  match disk_entries d !! path with
  | Some entries => entries !! SVN_WC_ENTRY_THIS_DIR
  | None =>
      match disk_entries d !! RefPath.dirname path with
      | Some entries => entries !! (RefPath.split path).2
      | None => None
      end
  end.

Definition world (d : disk) : WcWorld := {|
  svn_wc_entry := fun path => Ok (entry_of d path);
  svn_wc_entries_read := fun path =>
    match disk_entries d !! path with
    | Some entries => Ok entries
    | None => Err (SVN_ERR_OTHER 2)
    end;
  svn_wc_check_wc := fun _ => Ok (disk_is_wc d);
  svn_io_check_path := fun path =>
    Ok (default svn_node_none (disk_paths d !! path));
  svn_io_get_dirents := fun path => Ok (dirents_of d path);
  svn_wc__prop_path := fun path => Ok (path +:+ ".props");
  svn_wc__prop_base_path := fun path => Ok (path +:+ ".prop-base");
  svn_wc__load_prop_file := fun _ => Ok ∅;
  svn_wc__get_local_propchanges := fun _ _ => Ok [];
  svn_wc_props_modified_p := fun _ => Ok false;
  svn_wc_text_modified_p := fun _ => Ok (disk_text_modified d);
  svn_wc_has_binary_prop := fun _ => Ok (disk_binary d);
  svn_wc_conflicted_p := fun _ _ => Ok (disk_conflicts d);
  svn_wc__get_eol_style := fun _ => Ok (svn_wc__eol_style_none, None);
  svn_wc__eol_style_from_value := fun value =>
    (svn_wc__eol_style_fixed, Some value);
  svn_wc__eol_value_from_string := fun eol_str => eol_str;
  svn_wc__get_keywords := fun _ _ => Ok None;
  svn_wc__text_base_path := fun path tmp =>
    if tmp then "tmp/text-base/" +:+ path else "text-base/" +:+ path;
  svn_wc__adm_path := fun dir tmp component =>
    if tmp then dir +:+ "/adm/tmp/" +:+ component
    else dir +:+ "/adm/" +:+ component;
  svn_wc__lock := fun _ => Ok tt;
  svn_wc__unlock := fun _ => Ok tt;
  svn_wc__open_adm_file := fun _ => Ok tt;
  svn_wc__close_adm_file := fun _ => Ok tt;
  svn_wc__run_log := fun _ => Ok tt;
  apr_file_write_full := fun _ _ => 0;
  apr_file_rename := fun _ _ => 0;
  apr_file_close := fun _ => 0;
  svn_wc__entry_modify := fun _ => Ok tt;
  svn_wc__wcprop_set := fun _ _ _ => Ok tt;
  svn_wc__ensure_directory := fun _ => Ok tt;
  svn_wc__ensure_wc := fun _ _ _ => Ok tt;
  svn_wc__merge_prop_diffs := fun _ _ _ => Ok ([], ∅);
  svn_io_open_unique_file := fun n path suffix =>
    Ok (path +:+ "." +:+ pretty n +:+ suffix);
  svn_wc_copy_and_translate := fun _ _ _ _ _ _ => Ok tt;
  svn_io_run_diff := fun _ _ _ => Ok tt
|}.

Definition dir_entry (url : string) : svn_wc_entry_t :=
  {| entry_revision := 5; entry_url := Some url;
     entry_kind := svn_node_dir; entry_schedule := svn_wc_schedule_normal;
     entry_conflicted := false; entry_copied := false;
     entry_text_time := 0; entry_prop_time := 0; entry_attributes := ∅ |}.

Definition file_entry (url : string) (conflicted : bool) : svn_wc_entry_t :=
  {| entry_revision := 5; entry_url := Some url;
     entry_kind := svn_node_file; entry_schedule := svn_wc_schedule_normal;
     entry_conflicted := conflicted; entry_copied := false;
     entry_text_time := 0; entry_prop_time := 0; entry_attributes := ∅ |}.

(** The working copy [wc] of [http://repo/trunk]: a versioned file [foo]
    that is on disk, a versioned file [gone] that is not, and an
    unversioned directory [d]. *)
Definition wc_paths : gmap string svn_node_kind :=
  {[ "wc" := svn_node_dir; "wc/foo" := svn_node_file;
     "wc/d" := svn_node_dir ]}.

Definition wc_entries : gmap string (gmap string svn_wc_entry_t) :=
  {[ "wc" :=
       {[ SVN_WC_ENTRY_THIS_DIR := dir_entry "http://repo/trunk";
          "foo" := file_entry "http://repo/trunk/foo" true;
          "gone" := file_entry "http://repo/trunk/gone" false ]} ]}.

Definition wc (is_wc text_modified : bool) (conflicts : bool * bool) : disk :=
  {| disk_paths := wc_paths; disk_entries := wc_entries;
     disk_is_wc := is_wc; disk_text_modified := text_modified;
     disk_binary := false; disk_conflicts := conflicts |}.

Definition world_ok : WcWorld := world (wc true false (false, false)).

(** The world W with a disk that is full: writing a log fails with
    [ENOSPC]. *)
Definition disk_full (w : WcWorld) : WcWorld := {|
  svn_wc_entry := @svn_wc_entry w;
  svn_wc_entries_read := @svn_wc_entries_read w;
  svn_wc_check_wc := @svn_wc_check_wc w;
  svn_io_check_path := @svn_io_check_path w;
  svn_io_get_dirents := @svn_io_get_dirents w;
  svn_wc__prop_path := @svn_wc__prop_path w;
  svn_wc__prop_base_path := @svn_wc__prop_base_path w;
  svn_wc__load_prop_file := @svn_wc__load_prop_file w;
  svn_wc__get_local_propchanges := @svn_wc__get_local_propchanges w;
  svn_wc_props_modified_p := @svn_wc_props_modified_p w;
  svn_wc_text_modified_p := @svn_wc_text_modified_p w;
  svn_wc_has_binary_prop := @svn_wc_has_binary_prop w;
  svn_wc_conflicted_p := @svn_wc_conflicted_p w;
  svn_wc__get_eol_style := @svn_wc__get_eol_style w;
  svn_wc__eol_style_from_value := @svn_wc__eol_style_from_value w;
  svn_wc__eol_value_from_string := @svn_wc__eol_value_from_string w;
  svn_wc__get_keywords := @svn_wc__get_keywords w;
  svn_wc__text_base_path := @svn_wc__text_base_path w;
  svn_wc__adm_path := @svn_wc__adm_path w;
  svn_wc__lock := @svn_wc__lock w;
  svn_wc__unlock := @svn_wc__unlock w;
  svn_wc__open_adm_file := @svn_wc__open_adm_file w;
  svn_wc__close_adm_file := @svn_wc__close_adm_file w;
  svn_wc__run_log := @svn_wc__run_log w;
  apr_file_write_full := fun _ _ => 28;
  apr_file_rename := @apr_file_rename w;
  apr_file_close := @apr_file_close w;
  svn_wc__entry_modify := @svn_wc__entry_modify w;
  svn_wc__wcprop_set := @svn_wc__wcprop_set w;
  svn_wc__ensure_directory := @svn_wc__ensure_directory w;
  svn_wc__ensure_wc := @svn_wc__ensure_wc w;
  svn_wc__merge_prop_diffs := @svn_wc__merge_prop_diffs w;
  svn_io_open_unique_file := @svn_io_open_unique_file w;
  svn_wc_copy_and_translate := @svn_wc_copy_and_translate w;
  svn_io_run_diff := @svn_io_run_diff w
|}.
Definition world_not_wc : WcWorld := world (wc false false (false, false)).

Definition update_to (rev : Z) : edit_baton :=
  {| eb_anchor := "wc"; eb_target := None; eb_target_revision := rev;
     eb_recurse := true; eb_is_checkout := false; eb_ancestor_url := None;
     eb_is_switch := false; eb_switch_url := None |}.

Definition root_baton (rev : Z) : dir_baton :=
  {| db_path := "wc"; db_name := None;
     db_URL := Some "http://repo/trunk"; db_disjoint_url := false;
     db_ref_count := 1; db_edit_baton := update_to rev;
     db_parent_baton := None; db_prop_changed := false;
     db_added := false; db_propchanges := [] |}.

(** The baton of a root that has been switched to a branch: its URL is
    not the one the entries have. *)
Definition switched_baton (rev : Z) : dir_baton :=
  {| db_path := "wc"; db_name := None;
     db_URL := Some "http://repo/branch"; db_disjoint_url := true;
     db_ref_count := 1; db_edit_baton := update_to rev;
     db_parent_baton := None; db_prop_changed := false;
     db_added := false; db_propchanges := [] |}.

(** The log of an update of [wc/foo], which has no local modification,
    to revision 7 with a new text. *)
Definition foo_log : list log_command :=
  let log :=
    svn_xml_make_open_tag [] SVN_WC__LOG_MV
      [ (SVN_WC__LOG_ATTR_NAME, "tmp/text-base/foo");
        (SVN_WC__LOG_ATTR_DEST, "text-base/foo") ] in
  let log :=
    make_translation_open_tag log SVN_WC__LOG_CP "text-base/foo" "foo"
      None false None true in
  let log :=
    svn_xml_make_open_tag log SVN_WC__LOG_READONLY
      [ (SVN_WC__LOG_ATTR_NAME, "text-base/foo") ] in
  (log ++ [revision_command "foo" 7; text_time_command "foo"])%list.

(** An update cleanup that succeeds. *)
Definition cleanup : WcCleanup := {|
  svn_wc__do_update_cleanup := fun _ _ _ _ => Ok tt
|}.
(** The root baton after a property change. *)
Definition root_baton_with_prop (rev : Z) : dir_baton :=
  {| db_path := "wc"; db_name := None;
     db_URL := Some "http://repo/trunk"; db_disjoint_url := false;
     db_ref_count := 1; db_edit_baton := update_to rev;
     db_parent_baton := None; db_prop_changed := true;
     db_added := false; db_propchanges := [mk_prop "color" (Some "red")] |}.

(** The same working copy with one more file on disk, [wc/new], that is
    not versioned. *)
Definition wc_with_new : disk :=
  {| disk_paths := <["wc/new" := svn_node_file]> wc_paths;
     disk_entries := wc_entries; disk_is_wc := true;
     disk_text_modified := false; disk_binary := false;
     disk_conflicts := (false, false) |}.

(** The statuses of [wc] when nothing is modified. *)
Definition unversioned : svn_wc_status_t :=
  {| status_entry := None; status_repos_rev := SVN_INVALID_REVNUM;
     status_text_status := svn_wc_status_none;
     status_prop_status := svn_wc_status_none |}.

Definition unmodified (e : svn_wc_entry_t) : svn_wc_status_t :=
  {| status_entry := Some e; status_repos_rev := SVN_INVALID_REVNUM;
     status_text_status := svn_wc_status_none;
     status_prop_status := svn_wc_status_none |}.

Definition wc_statuses : gmap string svn_wc_status_t :=
  {[ "wc" := unmodified (dir_entry "http://repo/trunk");
     "wc/foo" := unmodified (file_entry "http://repo/trunk/foo" true) ]}.

End Example.

End Editor.

(** * Properties *)

Lemma bind_ok_inv {A B : Type} (m : svn_result A) (k : A -> svn_result B) b :
  bind m k = Ok b -> exists a, m = Ok a /\ k a = Ok b.
Proof. destruct m; simpl; intros H; try discriminate; eauto. Qed.

Lemma bind_ok {A B : Type} (m : svn_result A) (k : A -> svn_result B) a :
  m = Ok a -> bind m k = k a.
Proof. intros ->; reflexivity. Qed.

(** Split a successful sequence of [SVN_ERR] steps into its steps. *)
Tactic Notation "bind_inv" hyp(H) "as" simple_intropattern(a) ident(Ha) :=
  apply bind_ok_inv in H; destruct H as (a & Ha & H).

(** ** Properties of the DAG facade *)

Module DagFacts.
Import Dag.

Section facts.

Context {svn_fs_t : Type} {FS : FsLayer svn_fs_t} {PL : SvnPath}.

Lemma check_mutable_iff (node : dag_node_t) (txn_id : string) :
  svn_fs__dag_check_mutable node txn_id = true <->
  exists t, svn_fs__id_txn_id (dn_id node) = Some t.
Proof.
  unfold svn_fs__dag_check_mutable, svn_fs__dag_get_id.
  destruct (svn_fs__id_txn_id (dn_id node)) as [t|]; split; eauto; try discriminate.
  intros [t Ht]; discriminate.
Qed.

Lemma check_mutable_none (node : dag_node_t) (txn_id : string) :
  svn_fs__id_txn_id (dn_id node) = None ->
  svn_fs__dag_check_mutable node txn_id = false.
Proof.
  unfold svn_fs__dag_check_mutable, svn_fs__dag_get_id. intros ->. reflexivity.
Qed.

(** C1 (as amended).  [svn_fs__dag_check_mutable node txn_id] holds exactly
    when the id of [node] carries some transaction id; [txn_id] is not
    compared.  On a node whose id carries no transaction id none of
    [make_entry] (so [svn_fs__dag_make_file], [svn_fs__dag_make_dir]),
    [svn_fs__dag_clone_child], [svn_fs__dag_get_edit_stream],
    [svn_fs__dag_finalize_edits] and [svn_fs__dag_set_entry] succeeds, and
    the first four fail with [SVN_ERR_FS_NOT_MUTABLE] as soon as the
    validation they run before the check (name and directory kind for
    [make_entry], file kind for the two stream functions) has passed. *)
Theorem immutable_node_not_mutated (fs : svn_fs_t) (node : dag_node_t)
    (txn_id : string) :
  (svn_fs__dag_check_mutable node txn_id = true <->
   exists t, svn_fs__id_txn_id (dn_id node) = Some t)
  /\
  (svn_fs__id_txn_id (dn_id node) = None ->
  svn_fs__dag_check_mutable node txn_id = false
  /\ (forall parent_path name is_dir,
        is_ok (make_entry fs node parent_path name is_dir txn_id) = false
        /\ (svn_path_is_single_path_component name = true ->
            dn_kind node = svn_node_dir ->
            make_entry fs node parent_path name is_dir txn_id
            = Err SVN_ERR_FS_NOT_MUTABLE))
  /\ (forall parent_path name copy_id,
        svn_fs__dag_clone_child fs node parent_path name copy_id txn_id
        = Err SVN_ERR_FS_NOT_MUTABLE)
  /\ (is_ok (svn_fs__dag_get_edit_stream fs node txn_id) = false
      /\ (dn_kind node = svn_node_file ->
          svn_fs__dag_get_edit_stream fs node txn_id
          = Err SVN_ERR_FS_NOT_MUTABLE))
  /\ (forall checksum,
        is_ok (svn_fs__dag_finalize_edits fs node checksum txn_id) = false
        /\ (dn_kind node = svn_node_file ->
            svn_fs__dag_finalize_edits fs node checksum txn_id
            = Err SVN_ERR_FS_NOT_MUTABLE))
  /\ (forall entry_name id,
        is_ok (svn_fs__dag_set_entry fs node entry_name id txn_id) = false)).
Proof.
  split; [apply check_mutable_iff|].
  intros Hid.
  pose proof (check_mutable_none node txn_id Hid) as Hm.
  split; [exact Hm|].
  split.
  { intros parent_path name is_dir. unfold make_entry. rewrite Hm. simpl.
    destruct (svn_path_is_single_path_component name); simpl.
    - case_bool_decide; simpl; split; try reflexivity; intros _ Hk; congruence.
    - split; [reflexivity | discriminate]. }
  split.
  { intros parent_path name copy_id. unfold svn_fs__dag_clone_child.
    rewrite Hm. reflexivity. }
  split.
  { unfold svn_fs__dag_get_edit_stream. rewrite Hm. simpl.
    case_bool_decide; simpl; split; try reflexivity; intros Hk; congruence. }
  split.
  { intros checksum. unfold svn_fs__dag_finalize_edits. rewrite Hm. simpl.
    case_bool_decide; simpl; split; try reflexivity; intros Hk; congruence. }
  intros entry_name id. unfold svn_fs__dag_set_entry. rewrite Hm. simpl.
  case_bool_decide; reflexivity.
Qed.

(** *** The node-revision cache *)

Lemma get_node_revision_inv (fs : svn_fs_t) (node node' : dag_node_t) noderev :
  get_node_revision fs node = Ok (noderev, node') ->
  dn_node_revision node' = Some noderev
  /\ dn_id node' = dn_id node
  /\ dn_kind node' = dn_kind node
  /\ dn_created_path node' = dn_created_path node.
Proof.
  unfold get_node_revision.
  destruct (dn_node_revision node) as [cached|] eqn:Hc.
  - intros [= <- <-]. auto.
  - intros H. bind_inv H as nr Hget. injection H as <- <-. simpl. auto.
Qed.

Lemma get_node_revision_cached (fs : svn_fs_t) (node : dag_node_t) noderev :
  dn_node_revision node = Some noderev ->
  get_node_revision fs node = Ok (noderev, node).
Proof. unfold get_node_revision. intros ->. reflexivity. Qed.

Lemma dag_get_node_inv (fs : svn_fs_t) (id : svn_fs_id_t) (node : dag_node_t) :
  svn_fs__dag_get_node fs id = Ok node ->
  exists noderev,
    svn_fs__fs_get_node_revision fs id = Ok noderev
    /\ node = {| dn_id := id; dn_kind := nr_kind noderev;
                 dn_node_revision := Some noderev;
                 dn_created_path := nr_created_path noderev |}.
Proof.
  unfold svn_fs__dag_get_node, get_node_revision. simpl.
  destruct (svn_fs__fs_get_node_revision fs id) as [noderev| |]; simpl;
    try discriminate.
  intros [= <-]. eauto.
Qed.

Lemma dag_get_node_ok (fs : svn_fs_t) (id : svn_fs_id_t) noderev :
  svn_fs__fs_get_node_revision fs id = Ok noderev ->
  svn_fs__dag_get_node fs id
  = Ok {| dn_id := id; dn_kind := nr_kind noderev;
          dn_node_revision := Some noderev;
          dn_created_path := nr_created_path noderev |}.
Proof.
  intros H. unfold svn_fs__dag_get_node, get_node_revision. simpl.
  rewrite H. reflexivity.
Qed.

(** What a successful [set_entry] leaves behind: PARENT keeps its id and
    kind, and its cache holds the node revision the storage layer
    returned. *)
Lemma set_entry_inv (fs fs' : svn_fs_t) (parent parent' : dag_node_t)
    name id kind txn_id :
  set_entry fs parent name id kind txn_id = Ok (parent', fs') ->
  exists parent_noderev parent1 parent_noderev',
    get_node_revision fs parent = Ok (parent_noderev, parent1)
    /\ svn_fs__fs_set_entry fs txn_id parent_noderev name id kind
       = Ok (parent_noderev', fs')
    /\ parent' = set_node_revision parent1 parent_noderev'.
Proof.
  unfold set_entry. intros H.
  bind_inv H as [parent_noderev parent1] Hget.
  bind_inv H as [parent_noderev' fs2] Hset.
  injection H as <- <-. eauto 6.
Qed.

(** A directory whose cached node revision lists NAME under ID. *)
Lemma dir_entry_id_listed (fs : svn_fs_t) (parent : dag_node_t) noderev
    entries dirent name :
  dn_node_revision parent = Some noderev ->
  nr_kind noderev = svn_node_dir ->
  svn_fs__fs_rep_contents_dir fs noderev = Ok (Some entries) ->
  entries !! name = Some dirent ->
  dir_entry_id_from_node fs parent name = Ok (Some (dirent_id dirent), parent).
Proof.
  intros Hc Hk Hrep Hl.
  unfold dir_entry_id_from_node, svn_fs__dag_dir_entries.
  rewrite (get_node_revision_cached fs parent noderev Hc). simpl.
  unfold get_dir_entries. rewrite bool_decide_eq_false_2 by (rewrite Hk; auto).
  rewrite Hrep. simpl. rewrite Hl. reflexivity.
Qed.

(** C3.  After [make_entry] has succeeded in directory D under name n,
    [svn_fs__dag_open] on D and n returns the node just made, which has
    the kind asked for; and making an entry of that name in D again,
    whatever the kind, path and transaction, fails with
    [SVN_ERR_FS_ALREADY_EXISTS]. *)
Theorem make_entry_then_open (fs fs' : svn_fs_t) (D D' child : dag_node_t)
    (parent_path n : string) (is_dir : bool) (txn_id : string) :
  create_node_keeps_kind ->
  set_entry_is_listed ->
  set_entry_keeps_nodes ->
  make_entry fs D parent_path n is_dir txn_id = Ok (child, D', fs') ->
  (exists opened,
     svn_fs__dag_open fs' D' n = Ok (opened, D')
     /\ dn_id opened = dn_id child
     /\ dn_kind opened = (if is_dir then svn_node_dir else svn_node_file))
  /\ (forall parent_path2 is_dir2 txn_id2,
        make_entry fs' D' parent_path2 n is_dir2 txn_id2
        = Err SVN_ERR_FS_ALREADY_EXISTS).
Proof.
  intros Hcreate Hlisted Hkeeps H.
  unfold make_entry in H.
  destruct (svn_path_is_single_path_component n) eqn:Hsingle;
    simpl in H; [|discriminate].
  case_bool_decide as Hkind; simpl in H; [discriminate|].
  destruct (svn_fs__dag_check_mutable D txn_id) eqn:Hmut;
    simpl in H; [|discriminate].
  bind_inv H as [existing D1] Hlookup.
  destruct existing; [discriminate|].
  bind_inv H as [new_node_id fs1] Hnew.
  bind_inv H as child0 Hchild.
  bind_inv H as [D2 fs2] Hentry.
  injection H as <- <- <-.
  (* the parent after the lookup *)
  unfold dir_entry_id_from_node, svn_fs__dag_dir_entries in Hlookup.
  bind_inv Hlookup as [entries D1'] Hentries.
  bind_inv Hentries as [parent_noderev D1''] Hcache.
  bind_inv Hentries as entries' Hdir. injection Hentries as <- <-.
  injection Hlookup as _ <-.
  destruct (get_node_revision_inv _ _ _ _ Hcache) as (Hc1 & Hid1 & Hk1 & _).
  unfold get_dir_entries in Hdir.
  case_bool_decide as Hpk; [discriminate|].
  (* the child *)
  destruct (dag_get_node_inv _ _ _ Hchild) as (child_noderev & Hget & ->).
  simpl in *.
  pose proof (Hcreate _ _ _ _ _ _ _ Hnew Hget) as Hck. simpl in Hck.
  (* the entry *)
  destruct (set_entry_inv _ _ _ _ _ _ _ _ Hentry)
    as (pnr & D1b & pnr' & Hg & Hset & ->).
  rewrite (get_node_revision_cached fs1 D1'' parent_noderev Hc1) in Hg.
  injection Hg as <- <-.
  destruct (Hlisted _ _ _ _ _ _ _ _ Hset) as (Hk' & es & d & Hrep & Hl & Hd).
  destruct (Hkeeps _ _ _ _ _ _ _ _ Hset _ _ Hget) as (cnr' & Hget' & Hck').
  assert (Hlook : dir_entry_id_from_node fs2
                    (set_node_revision D1'' pnr') n
                  = Ok (Some new_node_id, set_node_revision D1'' pnr')).
  { rewrite <- Hd. eapply dir_entry_id_listed; eauto. congruence. }
  split.
  - eexists. unfold svn_fs__dag_open. rewrite Hlook. simpl.
    rewrite Hsingle. simpl. rewrite (dag_get_node_ok _ _ _ Hget'). simpl.
    split; [reflexivity|]. simpl. split; [reflexivity|]. congruence.
  - intros parent_path2 is_dir2 txn_id2. unfold make_entry.
    rewrite Hsingle. simpl.
    rewrite bool_decide_eq_false_2 by (simpl; rewrite Hk1, Hkind; auto).
    simpl.
    replace (svn_fs__dag_check_mutable (set_node_revision D1'' pnr') txn_id2)
      with true.
    2:{ symmetry. apply check_mutable_iff.
        apply (check_mutable_iff D txn_id) in Hmut.
        simpl. rewrite Hid1. exact Hmut. }
    simpl. rewrite Hlook. reflexivity.
Qed.

(** *** Cloning a child *)



Lemma dag_open_inv (fs : svn_fs_t) (parent parent1 cur : dag_node_t) name :
  svn_fs__dag_open fs parent name = Ok (cur, parent1) ->
  dir_entry_id_from_node fs parent name = Ok (Some (dn_id cur), parent1)
  /\ svn_path_is_single_path_component name = true
  /\ svn_fs__dag_get_node fs (dn_id cur) = Ok cur.
Proof.
  unfold svn_fs__dag_open. intros H.
  bind_inv H as [oid parent'] Hlookup.
  destruct oid as [node_id|]; [|discriminate].
  destruct (svn_path_is_single_path_component name); simpl in H; [|discriminate].
  bind_inv H as child Hchild. injection H as <- <-.
  destruct (dag_get_node_inv _ _ _ Hchild) as (noderev & Hget & ->). simpl.
  rewrite Hlookup. repeat split. apply dag_get_node_ok. exact Hget.
Qed.




(** *** Walking the predecessors *)

Lemma walk_loop_last {B : Type} (fs : svn_fs_t) (node node' : dag_node_t)
    (cb : svn_fs__dag_pred_func_t B) (baton : B) noderev fuel :
  get_node_revision fs node = Ok (noderev, node') ->
  nr_predecessor_id noderev = None ->
  walk_loop (S fuel) fs (Some cb) node baton
  = Some ([None], let* (b, _) := cb baton None in Ok b).
Proof.
  intros Hg Hp. simpl. rewrite Hg, Hp.
  destruct (cb baton None) as [[b done]| |]; simpl; try reflexivity.
  destruct done; reflexivity.
Qed.


Lemma walk_loop_next {B : Type} (fs : svn_fs_t) (node node' n : dag_node_t)
    (cb : svn_fs__dag_pred_func_t B) (baton b' : B) noderev pred fuel :
  get_node_revision fs node = Ok (noderev, node') ->
  nr_predecessor_id noderev = Some pred ->
  svn_fs__dag_get_node fs pred = Ok n ->
  cb baton (Some n) = Ok (b', false) ->
  walk_loop (S fuel) fs (Some cb) node baton
  = match walk_loop fuel fs (Some cb) n b' with
    | Some (calls, r) => Some (Some n :: calls, r)
    | None => None
    end.
Proof. intros Hg Hp Hn Hcb. simpl. rewrite Hg, Hp, Hn. simpl. rewrite Hcb. reflexivity. Qed.


(** The node revision [svn_fs__dag_clone_child] writes for a successor
    continues a chain of decreasing counts. *)
Lemma clone_template_counts_decrease (fs : svn_fs_t) noderev id
    parent_path name :
  svn_fs__fs_get_node_revision fs id = Ok noderev ->
  0 <= nr_predecessor_count noderev ->
  counts_decrease fs noderev ->
  counts_decrease fs (clone_template noderev id parent_path name).
Proof.
  intros Hget Hc Hdec.
  eapply counts_next; [reflexivity | exact Hget | | exact Hdec].
  simpl. rewrite bool_decide_eq_true_2 by lia. lia.
Qed.


(** *** Ancestry *)

(** Once the baton says "ancestor", it says so to the end of the walk. *)
Lemma is_ancestor_sticky (fs : svn_fs_t) (fuel : nat) :
  forall (node : dag_node_t) (b b' : is_ancestor_baton) calls,
    is_ancestor b = true ->
    walk_loop fuel fs (Some is_ancestor_callback) node b
    = Some (calls, Ok b') ->
    is_ancestor b' = true.
Proof.
  induction fuel as [|fuel IH]; intros node b b' calls Hb H; [discriminate|].
  simpl in H.
  destruct (get_node_revision fs node) as [[noderev node']| |];
    try (injection H as _ H; discriminate).
  destruct (nr_predecessor_id noderev) as [pred|]; simpl in H.
  - destruct (svn_fs__dag_get_node fs pred) as [n| |]; simpl in H;
      try (injection H as _ H; discriminate).
    destruct (svn_fs__id_eq (node1_id b) (svn_fs__dag_get_id n));
      simpl in H; destruct (need_parent b); simpl in H.
    + injection H as _ <-. reflexivity.
    + destruct (walk_loop fuel fs _ n _) as [[calls' r]|] eqn:Hw;
        [|discriminate].
      injection H as _ ->. eapply IH; [|exact Hw]. reflexivity.
    + injection H as _ <-. exact Hb.
    + destruct (walk_loop fuel fs _ n _) as [[calls' r]|] eqn:Hw;
        [|discriminate].
      injection H as _ ->. eapply IH; [|exact Hw]. exact Hb.
  - injection H as _ <-. exact Hb.
Qed.

(** Where the walk without a callback gets to the end of the chain, so
    does the walk of [svn_fs__dag_is_ancestor]. *)
Lemma is_ancestor_walk_total (fs : svn_fs_t) (fuel : nat) :
  forall (node : dag_node_t) (b : is_ancestor_baton) calls,
    need_parent b = false ->
    walk_loop fuel fs (@None (svn_fs__dag_pred_func_t unit)) node tt
    = Some (calls, Ok tt) ->
    exists calls' b',
      walk_loop fuel fs (Some is_ancestor_callback) node b
      = Some (calls', Ok b').
Proof.
  induction fuel as [|fuel IH]; intros node b calls Hnp H; [discriminate|].
  destruct b as [id1 anc np]. simpl in Hnp. subst np.
  simpl in H |- *.
  destruct (get_node_revision fs node) as [[noderev node']| |];
    try (injection H as _ H; discriminate).
  destruct (nr_predecessor_id noderev) as [pred|]; simpl in H |- *.
  - destruct (svn_fs__dag_get_node fs pred) as [n| |]; simpl in H |- *;
      try (injection H as _ H; discriminate).
    destruct (svn_fs__id_eq id1 (svn_fs__dag_get_id n)); simpl.
    + destruct (IH n {| node1_id := id1; is_ancestor := true;
                        need_parent := false |} calls eq_refl H)
        as (calls' & b' & ->).
      eauto.
    + destruct (IH n {| node1_id := id1; is_ancestor := anc;
                        need_parent := false |} calls eq_refl H)
        as (calls' & b' & ->).
      eauto.
  - eauto.
Qed.

Lemma is_parent_inv (fs : svn_fs_t) (fuel : nat) (a b : dag_node_t) :
  svn_fs__dag_is_parent fuel fs a b = Some (Ok true) ->
  svn_fs_check_related (dn_id a) (dn_id b) = true
  /\ exists noderev b' pred n,
       get_node_revision fs b = Ok (noderev, b')
       /\ nr_predecessor_id noderev = Some pred
       /\ svn_fs__dag_get_node fs pred = Ok n
       /\ svn_fs__id_eq (dn_id a) (dn_id n) = true.
Proof.
  unfold svn_fs__dag_is_parent, svn_fs__dag_walk_predecessors,
    svn_fs__dag_get_id.
  destruct (svn_fs_check_related (dn_id a) (dn_id b)); simpl;
    [|intros [=]].
  intros H. split; [reflexivity|].
  destruct fuel as [|fuel]; [discriminate|]. simpl in H.
  destruct (get_node_revision fs b) as [[noderev b']| |] eqn:Hg;
    try (injection H as H; discriminate).
  destruct (nr_predecessor_id noderev) as [pred|] eqn:Hp; simpl in H;
    [|injection H as H; discriminate].
  destruct (svn_fs__dag_get_node fs pred) as [n| |] eqn:Hn; simpl in H;
    try (injection H as H; discriminate).
  unfold svn_fs__dag_get_id in H.
  destruct (svn_fs__id_eq (dn_id a) (dn_id n)) eqn:Heq; simpl in H;
    [|injection H as H; discriminate].
  exists noderev, b', pred, n. auto.
Qed.

End facts.

(** *** Further properties of the DAG functions *)

Section more_facts.

Context {svn_fs_t : Type} {FS : FsLayer svn_fs_t} {PL : SvnPath}.

(** A callback that never stops the walk and never fails is called on
    every predecessor, nearest first, and then on NULL. *)
Lemma walk_loop_chain {B : Type} (fs : svn_fs_t)
    (cb : svn_fs__dag_pred_func_t B) (step : B -> option dag_node_t -> B)
    (I : B -> Prop) :
  (forall b n, I b -> cb b n = Ok (step b n, false) /\ I (step b n)) ->
  forall noderev l,
    predecessors fs noderev l ->
    forall (node node' : dag_node_t) (baton : B) (fuel : nat),
      get_node_revision fs node = Ok (noderev, node') ->
      I baton ->
      (length l < fuel)%nat ->
      walk_loop fuel fs (Some cb) node baton
      = Some ((map Some l ++ [None])%list,
              Ok (fold_left step (map Some l ++ [None])%list baton)).
Proof.
  intros Hcb noderev l Hl.
  induction Hl as [noderev Hnone|noderev pred pred_noderev l Hpred Hget Hl IH];
    intros node node' baton fuel Hnode HI Hfuel.
  - destruct fuel as [|fuel]; [simpl in Hfuel; lia|].
    rewrite (walk_loop_last fs node node' cb baton noderev fuel Hnode Hnone).
    destruct (Hcb baton None HI) as [-> _]. reflexivity.
  - destruct fuel as [|fuel]; [simpl in Hfuel; lia|].
    destruct (Hcb baton
                (Some {| dn_id := pred; dn_kind := nr_kind pred_noderev;
                         dn_node_revision := Some pred_noderev;
                         dn_created_path := nr_created_path pred_noderev |})
                HI) as [Hstep HI'].
    rewrite (walk_loop_next fs node node' _ cb baton _ noderev pred fuel
               Hnode Hpred (dag_get_node_ok fs pred pred_noderev Hget) Hstep).
    erewrite IH;
      [reflexivity
      |apply get_node_revision_cached; reflexivity
      |exact HI'
      |simpl in Hfuel; lia].
Qed.

(** Without a callback the walk reads the chain and calls nothing. *)
Lemma walk_loop_no_callback {B : Type} (fs : svn_fs_t) (fuel : nat) :
  forall (node : dag_node_t) (baton : B) calls r,
    walk_loop fuel fs None node baton = Some (calls, r) ->
    calls = [] /\ forall b, r = Ok b -> b = baton.
Proof.
  induction fuel as [|fuel IH]; intros node baton calls r H; [discriminate|].
  simpl in H.
  destruct (get_node_revision fs node) as [[noderev node']|e|];
    [|injection H as <- <-; split; [reflexivity|discriminate]..].
  destruct (nr_predecessor_id noderev) as [pred|]; simpl in H.
  - destruct (svn_fs__dag_get_node fs pred) as [n|e|]; simpl in H;
      [|injection H as <- <-; split; [reflexivity|discriminate]..].
    eapply IH; eassumption.
  - injection H as <- <-. split; [reflexivity|]. intros b Hb.
    injection Hb as <-. reflexivity.
Qed.

Lemma walk_loop_no_callback_chain {B : Type} (fs : svn_fs_t) :
  forall noderev l,
    predecessors fs noderev l ->
    forall (node node' : dag_node_t) (baton : B) (fuel : nat),
      get_node_revision fs node = Ok (noderev, node') ->
      (length l < fuel)%nat ->
      walk_loop fuel fs None node baton = Some ([], Ok baton).
Proof.
  intros noderev l Hl.
  induction Hl as [noderev Hnone|noderev pred pred_noderev l Hpred Hget Hl IH];
    intros node node' baton fuel Hnode Hfuel;
    (destruct fuel as [|fuel]; [simpl in Hfuel; lia|]);
    simpl; rewrite Hnode, ?Hnone, ?Hpred; simpl.
  - reflexivity.
  - rewrite (dag_get_node_ok fs pred pred_noderev Hget). simpl.
    eapply IH; [apply get_node_revision_cached; reflexivity|simpl in Hfuel; lia].
Qed.



Lemma ancestor_step_callback (b : is_ancestor_baton) (n : option dag_node_t) :
  need_parent b = false ->
  is_ancestor_callback b n = Ok (ancestor_step b n, false)
  /\ need_parent (ancestor_step b n) = false.
Proof.
  intros Hb. unfold is_ancestor_callback, ancestor_step.
  destruct n as [n|]; [|auto].
  destruct (svn_fs__id_eq (node1_id b) (svn_fs__dag_get_id n)); simpl;
    rewrite Hb; auto.
Qed.

Lemma ancestor_step_fold (l : list dag_node_t) :
  forall b : is_ancestor_baton,
    is_ancestor (fold_left ancestor_step (map Some l ++ [None])%list b)
    = is_ancestor b
      || existsb (fun n => svn_fs__id_eq (node1_id b) (dn_id n)) l.
Proof.
  induction l as [|n l IH]; intros b; simpl.
  - rewrite orb_false_r. reflexivity.
  - rewrite IH. unfold svn_fs__dag_get_id.
    destruct (svn_fs__id_eq (node1_id b) (dn_id n)); simpl.
    + rewrite orb_true_r. reflexivity.
    + reflexivity.
Qed.

Lemma is_ancestor_walk_chain (fs : svn_fs_t)
    (a b b' : dag_node_t) (noderev : svn_fs__node_revision_t)
    (l : list dag_node_t) (fuel : nat) :
  get_node_revision fs b = Ok (noderev, b') ->
  predecessors fs noderev l ->
  (length l < fuel)%nat ->
  svn_fs__dag_is_ancestor fuel fs a b
  = Some (Ok (svn_fs_check_related (dn_id a) (dn_id b)
              && existsb (fun n => svn_fs__id_eq (dn_id a) (dn_id n)) l)).
Proof.
  intros Hb Hl Hfuel. unfold svn_fs__dag_is_ancestor, svn_fs__dag_get_id.
  destruct (svn_fs_check_related (dn_id a) (dn_id b)); [|reflexivity].
  simpl. unfold svn_fs__dag_walk_predecessors.
  rewrite (walk_loop_chain fs is_ancestor_callback ancestor_step
             (fun b => need_parent b = false) ancestor_step_callback
             noderev l Hl b b'
             {| node1_id := dn_id a; is_ancestor := false;
                need_parent := false |} fuel Hb eq_refl Hfuel).
  simpl. rewrite ancestor_step_fold. reflexivity.
Qed.

(** C8 (as amended).  When [svn_fs__dag_is_ancestor] answers TRUE the
    two ids are related.  When [svn_fs__dag_is_parent] answers TRUE for a
    and b, [svn_fs__dag_is_ancestor] never answers FALSE for a and b, and
    it answers TRUE when the whole chain of predecessors of b can be
    read: every predecessor named along it is in the filesystem, down to
    a node revision without predecessor. *)
Theorem is_ancestor_related_is_parent_is_ancestor (fs : svn_fs_t)
    (a b : dag_node_t) :
  (forall fuel,
     svn_fs__dag_is_ancestor fuel fs a b = Some (Ok true) ->
     svn_fs_check_related (dn_id a) (dn_id b) = true)
  /\ (forall fuel,
        svn_fs__dag_is_parent fuel fs a b = Some (Ok true) ->
        (forall fuel' r,
           svn_fs__dag_is_ancestor fuel' fs a b = Some (Ok r) -> r = true)
        /\ (forall noderev b' l fuel',
              get_node_revision fs b = Ok (noderev, b') ->
              predecessors fs noderev l ->
              (length l < fuel')%nat ->
              svn_fs__dag_is_ancestor fuel' fs a b = Some (Ok true))).
Proof.
  split.
  - intros fuel. unfold svn_fs__dag_is_ancestor, svn_fs__dag_get_id.
    destruct (svn_fs_check_related (dn_id a) (dn_id b)); simpl;
      [reflexivity | intros [=]].
  - intros fuel Hparent.
    destruct (is_parent_inv _ _ _ _ Hparent)
      as (Hrel & noderev & b' & pred & n & Hg & Hp & Hn & Heq).
    assert (Hanswer : forall fuel' r,
              svn_fs__dag_is_ancestor fuel' fs a b = Some (Ok r) -> r = true).
    { intros fuel' r. unfold svn_fs__dag_is_ancestor,
        svn_fs__dag_walk_predecessors, svn_fs__dag_get_id.
      rewrite Hrel. simpl.
      destruct fuel' as [|fuel']; [discriminate|].
      rewrite (walk_loop_next fs b b' n is_ancestor_callback _
                 {| node1_id := dn_id a; is_ancestor := true;
                    need_parent := false |} noderev pred fuel' Hg Hp Hn).
      2:{ simpl. unfold svn_fs__dag_get_id. rewrite Heq. reflexivity. }
      destruct (walk_loop fuel' fs _ n _) as [[calls res]|] eqn:Hw;
        [|discriminate].
      destruct res as [bres| |]; simpl; try discriminate.
      intros [= <-]. eapply is_ancestor_sticky; [|exact Hw]. reflexivity. }
    split; [exact Hanswer|].
    intros noderev0 b0 l fuel' Hb Hl Hfuel.
    pose proof (is_ancestor_walk_chain fs a b b0 noderev0 l fuel' Hb Hl Hfuel)
      as Hchain.
    rewrite Hchain. rewrite (Hanswer _ _ Hchain). reflexivity.
Qed.


(** The chain that decreasing counts give. *)
Lemma counts_decrease_predecessors (fs : svn_fs_t) noderev :
  counts_decrease fs noderev ->
  0 <= nr_predecessor_count noderev ->
  exists l,
    predecessors fs noderev l
    /\ (length l <= Z.to_nat (nr_predecessor_count noderev))%nat
    /\ Forall
         (fun n =>
            exists stored,
              svn_fs__fs_get_node_revision fs (dn_id n) = Ok stored
              /\ nr_predecessor_count stored < nr_predecessor_count noderev)
         l.
Proof.
  intros H. induction H as [noderev Hnone|noderev pred pred_noderev Hpred Hget
                                     Hcount Hchain IH]; intros Hpos.
  - exists []. repeat split; [constructor; exact Hnone|simpl; lia|constructor].
  - destruct IH as (l & Hl & Hlen & Hall); [lia|].
    eexists (_ :: l). split; [eapply predecessors_next; eassumption|].
    split; [simpl; lia|].
    constructor.
    + simpl. exists pred_noderev. split; [exact Hget|lia].
    + eapply Forall_impl; [exact Hall|].
      intros n (stored & Hs & Hlt). exists stored. split; [exact Hs|lia].
Qed.

(** X4.  Where the stored predecessor counts decrease along the chain of
    B, a node A whose stored predecessor count is not below that of B is
    never an ancestor of B.  In particular no node is its own ancestor,
    and ancestry does not go both ways. *)
Theorem ancestor_has_smaller_count (fs : svn_fs_t) (a b b' : dag_node_t)
    (noderev_a noderev : svn_fs__node_revision_t) (fuel : nat) :
  get_node_revision fs b = Ok (noderev, b') ->
  counts_decrease fs noderev ->
  0 <= nr_predecessor_count noderev ->
  svn_fs__fs_get_node_revision fs (dn_id a) = Ok noderev_a ->
  nr_predecessor_count noderev <= nr_predecessor_count noderev_a ->
  (Z.to_nat (nr_predecessor_count noderev) < fuel)%nat ->
  svn_fs__dag_is_ancestor fuel fs a b = Some (Ok false).
Proof.
  intros Hb Hchain Hpos Ha Hle Hfuel.
  destruct (counts_decrease_predecessors fs noderev Hchain Hpos)
    as (l & Hl & Hlen & Hall).
  rewrite (is_ancestor_walk_chain fs a b b' noderev l fuel Hb Hl);
    [|lia].
  replace (existsb (fun n => svn_fs__id_eq (dn_id a) (dn_id n)) l)
    with false; [rewrite andb_false_r; reflexivity|].
  symmetry. apply not_true_is_false. intros Hex.
  apply existsb_exists in Hex. destruct Hex as (n & Hin & Heq).
  rewrite Forall_forall in Hall. destruct (Hall n) as (stored & Hs & Hlt).
  { apply list_elem_of_In. exact Hin. }
  unfold svn_fs__id_eq in Heq. apply bool_decide_eq_true in Heq.
  rewrite <- Heq, Ha in Hs. injection Hs as <-. lia.
Qed.



(** X2.  With a NULL callback [svn_fs__dag_walk_predecessors] invokes
    nothing and leaves the baton as it was given: whenever it returns, the
    list of invocations is empty and a success carries the baton
    unchanged; and it does return successfully when the predecessor chain
    can be read to its end. *)
Theorem walk_predecessors_without_callback {B : Type} (fs : svn_fs_t)
    (node : dag_node_t) (baton : B) :
  (forall fuel calls r,
     svn_fs__dag_walk_predecessors fuel fs node None baton = Some (calls, r) ->
     calls = [] /\ forall b, r = Ok b -> b = baton)
  /\ (forall node' noderev l fuel,
        get_node_revision fs node = Ok (noderev, node') ->
        predecessors fs noderev l ->
        (length l < fuel)%nat ->
        svn_fs__dag_walk_predecessors fuel fs node None baton
        = Some ([], Ok baton)).
Proof.
  split.
  - intros fuel calls r. apply walk_loop_no_callback.
  - intros node' noderev l fuel Hnode Hl Hfuel.
    exact (walk_loop_no_callback_chain fs noderev l Hl node node' baton fuel
             Hnode Hfuel).
Qed.


(** X7.  A node that [svn_fs__dag_get_node] has made of a node revision
    that is not a directory takes no directory operation, whatever the
    filesystem holds by then.  Listing its entries, opening a child,
    setting an entry and copying into it without history fail with
    SVN_ERR_FS_NOT_DIRECTORY.  So do making a child and cloning a child,
    unless a check that comes before fails: [make_entry] looks at the
    name first (SVN_ERR_FS_NOT_SINGLE_PATH_COMPONENT), and
    [svn_fs__dag_clone_child] at the mutability of the node
    (SVN_ERR_FS_NOT_MUTABLE) and then at the name. *)
Theorem non_directory_rejects_directory_operations (fs0 : svn_fs_t)
    (id : svn_fs_id_t) (node : dag_node_t) :
  svn_fs__dag_get_node fs0 id = Ok node ->
  dn_kind node <> svn_node_dir ->
  forall fs : svn_fs_t,
    svn_fs__dag_dir_entries fs node = Err SVN_ERR_FS_NOT_DIRECTORY
    /\ (forall name,
          svn_fs__dag_open fs node name = Err SVN_ERR_FS_NOT_DIRECTORY)
    /\ (forall name id' txn_id,
          svn_fs__dag_set_entry fs node name id' txn_id
          = Err SVN_ERR_FS_NOT_DIRECTORY)
    /\ (forall entry from_node from_rev from_path txn_id,
          svn_fs__dag_copy fs node entry from_node false from_rev from_path
            txn_id
          = Err SVN_ERR_FS_NOT_DIRECTORY)
    /\ (forall parent_path name is_dir txn_id,
          make_entry fs node parent_path name is_dir txn_id
          = Err (if svn_path_is_single_path_component name
                 then SVN_ERR_FS_NOT_DIRECTORY
                 else SVN_ERR_FS_NOT_SINGLE_PATH_COMPONENT))
    /\ (forall parent_path name copy_id txn_id,
          svn_fs__dag_clone_child fs node parent_path name copy_id txn_id
          = Err (if negb (svn_fs__dag_check_mutable node txn_id)
                 then SVN_ERR_FS_NOT_MUTABLE
                 else if svn_path_is_single_path_component name
                 then SVN_ERR_FS_NOT_DIRECTORY
                 else SVN_ERR_FS_NOT_SINGLE_PATH_COMPONENT)).
Proof.
  intros Hnode Hkind fs.
  destruct (dag_get_node_inv fs0 id node Hnode) as (noderev & _ & ->).
  simpl in Hkind.
  assert (Hentries :
            svn_fs__dag_dir_entries fs
              {| dn_id := id; dn_kind := nr_kind noderev;
                 dn_node_revision := Some noderev;
                 dn_created_path := nr_created_path noderev |}
            = Err SVN_ERR_FS_NOT_DIRECTORY).
  { unfold svn_fs__dag_dir_entries, get_node_revision, get_dir_entries.
    simpl. rewrite bool_decide_eq_true_2 by exact Hkind. reflexivity. }
  assert (Hopen : forall name,
            svn_fs__dag_open fs
              {| dn_id := id; dn_kind := nr_kind noderev;
                 dn_node_revision := Some noderev;
                 dn_created_path := nr_created_path noderev |} name
            = Err SVN_ERR_FS_NOT_DIRECTORY).
  { intros name. unfold svn_fs__dag_open, dir_entry_id_from_node.
    rewrite Hentries. reflexivity. }
  assert (Hset : forall name id' txn_id,
            svn_fs__dag_set_entry fs
              {| dn_id := id; dn_kind := nr_kind noderev;
                 dn_node_revision := Some noderev;
                 dn_created_path := nr_created_path noderev |} name id' txn_id
            = Err SVN_ERR_FS_NOT_DIRECTORY).
  { intros name id' txn_id. unfold svn_fs__dag_set_entry. simpl.
    rewrite bool_decide_eq_true_2 by exact Hkind. reflexivity. }
  repeat split.
  - exact Hentries.
  - exact Hopen.
  - exact Hset.
  - intros entry from_node from_rev from_path txn_id.
    unfold svn_fs__dag_copy. apply Hset.
  - intros parent_path name is_dir txn_id. unfold make_entry.
    destruct (svn_path_is_single_path_component name); simpl;
      [|reflexivity].
    rewrite bool_decide_eq_true_2 by exact Hkind. reflexivity.
  - intros parent_path name copy_id txn_id.
    unfold svn_fs__dag_clone_child.
    destruct (svn_fs__dag_check_mutable _ txn_id); simpl; [|reflexivity].
    destruct (svn_path_is_single_path_component name); simpl;
      [|reflexivity].
    rewrite Hopen. reflexivity.
Qed.


(** X9.  [svn_fs__dag_copy] without history makes no node: the entry it
    writes into the target directory points at the id of the source node
    itself, so that looking the entry up afterwards gives that id (for a
    storage layer that lists an entry after [svn_fs__fs_set_entry]).  The
    kind recorded with the entry is that of the target directory, not
    that of the source.  With history, the copy never succeeds. *)
Theorem copy_without_history_shares_node (fs fs' : svn_fs_t)
    (to_node to1 to_node' from_node : dag_node_t) (entry : string)
    (from_rev : Z) (from_path txn_id : string)
    (noderev : svn_fs__node_revision_t) :
  set_entry_is_listed ->
  get_node_revision fs to_node = Ok (noderev, to1) ->
  nr_kind noderev = dn_kind to_node ->
  svn_fs__dag_copy fs to_node entry from_node false from_rev from_path txn_id
  = Ok (to_node', fs') ->
  dir_entry_id_from_node fs' to_node' entry
  = Ok (Some (dn_id from_node), to_node')
  /\ (exists noderev',
        svn_fs__fs_set_entry fs txn_id noderev entry (dn_id from_node)
          svn_node_dir
        = Ok (noderev', fs'))
  /\ (forall from_rev' from_path' txn_id',
        is_ok (svn_fs__dag_copy fs to_node entry from_node true from_rev'
                 from_path' txn_id') = false).
Proof.
  intros Hlisted Hnode Hkind Hcopy.
  unfold svn_fs__dag_copy, svn_fs__dag_set_entry, svn_fs__dag_get_id in Hcopy.
  case_bool_decide as Hdir; [discriminate|].
  destruct (svn_fs__dag_check_mutable to_node txn_id); [|discriminate].
  simpl in Hcopy.
  assert (Hdir' : dn_kind to_node = svn_node_dir).
  { destruct (decide (dn_kind to_node = svn_node_dir)); [assumption|].
    contradiction. }
  destruct (set_entry_inv _ _ _ _ _ _ _ _ Hcopy)
    as (noderev0 & to0 & noderev' & Hnode0 & Hset & ->).
  rewrite Hnode in Hnode0. injection Hnode0 as <- <-.
  rewrite Hdir' in Hset.
  destruct (Hlisted _ _ _ _ _ _ _ _ Hset)
    as (Hk & entries & dirent & Hrep & Hlook & Hid).
  split; [|split].
  - rewrite <- Hid.
    apply dir_entry_id_listed with noderev' entries;
      [reflexivity|congruence|exact Hrep|exact Hlook].
  - exists noderev'. exact Hset.
  - intros from_rev' from_path' txn_id'. unfold svn_fs__dag_copy.
    destruct (get_node_revision fs from_node) as [[? ?]|?|]; reflexivity.
Qed.

(** X10.  Once a node has read its node revision it answers from its
    cache: the predecessor id and count, the copy root and the copy
    source are the same on every filesystem state, changed or not.  A
    duplicate made by [svn_fs__dag_dup] starts with an empty cache and
    reads the storage again. *)
Theorem node_answers_from_its_cache (fs : svn_fs_t) (node node' : dag_node_t)
    (noderev : svn_fs__node_revision_t) :
  get_node_revision fs node = Ok (noderev, node') ->
  forall fs' : svn_fs_t,
    get_node_revision fs' node' = Ok (noderev, node')
    /\ svn_fs__dag_get_predecessor_id fs' node'
       = Ok (nr_predecessor_id noderev, node')
    /\ svn_fs__dag_get_predecessor_count fs' node'
       = Ok (nr_predecessor_count noderev, node')
    /\ svn_fs__dag_get_copyroot fs' node' = Ok (nr_copyroot noderev, node')
    /\ svn_fs__dag_get_copyfrom_rev fs' node'
       = Ok (nr_copyfrom_rev noderev, node')
    /\ svn_fs__dag_get_copyfrom_path fs' node'
       = Ok (nr_copyfrom_path noderev, node')
    /\ svn_fs__dag_get_predecessor_id fs' (svn_fs__dag_dup node')
       = let* stored := svn_fs__fs_get_node_revision fs' (dn_id node) in
         Ok (nr_predecessor_id stored,
             set_node_revision (svn_fs__dag_dup node') stored).
Proof.
  intros Hnode fs'.
  destruct (get_node_revision_inv fs node node' noderev Hnode)
    as (Hcache & Hid & _ & _).
  pose proof (get_node_revision_cached fs' node' noderev Hcache) as Hc.
  unfold svn_fs__dag_get_predecessor_id, svn_fs__dag_get_predecessor_count,
    svn_fs__dag_get_copyroot, svn_fs__dag_get_copyfrom_rev,
    svn_fs__dag_get_copyfrom_path.
  rewrite Hc. repeat split.
  unfold get_node_revision, svn_fs__dag_dup. simpl. rewrite Hid.
  destruct (svn_fs__fs_get_node_revision fs' (dn_id node)); reflexivity.
Qed.

(** X11.  On the file as [svn_fs__dag_get_edit_stream] hands it back,
    [svn_fs__dag_finalize_edits] never returns an error, whatever the
    checksum and the transaction given: it is a no-op when the storage
    layer has left no edit key in the node revision, and it does not
    return ([abort ()]) when there is one. *)
Theorem finalize_edits_after_edit_stream (fs fs' : svn_fs_t)
    (file file' : dag_node_t) (txn_id : string) (ws : svn_stream_t) :
  svn_fs__dag_get_edit_stream fs file txn_id = Ok (ws, file', fs') ->
  exists noderev',
    dn_node_revision file' = Some noderev'
    /\ forall (fs'' : svn_fs_t) checksum txn_id',
         svn_fs__dag_finalize_edits fs'' file' checksum txn_id'
         = match nr_edit_key noderev' with
           | None => Ok file'
           | Some _ => Abort
           end.
Proof.
  unfold svn_fs__dag_get_edit_stream. intros H.
  case_bool_decide as Hkind; [discriminate|].
  destruct (svn_fs__dag_check_mutable file txn_id) eqn:Hmut; [|discriminate].
  simpl in H.
  bind_inv H as [noderev file1] Hnode.
  bind_inv H as [[ws' noderev'] fs1] Hset.
  injection H as <- <- <-.
  destruct (get_node_revision_inv fs file file1 noderev Hnode)
    as (_ & Hid & Hk & _).
  exists noderev'. split; [reflexivity|].
  intros fs'' checksum txn_id'. unfold svn_fs__dag_finalize_edits.
  simpl. rewrite Hk.
  rewrite bool_decide_eq_false_2 by (intros Hne; apply Hne;
    destruct (decide (dn_kind file = svn_node_file)); [assumption|contradiction]).
  assert (Hmut' : svn_fs__dag_check_mutable
                    (set_node_revision file1 noderev') txn_id' = true).
  { unfold svn_fs__dag_check_mutable, svn_fs__dag_get_id in *. simpl.
    rewrite Hid. exact Hmut. }
  rewrite Hmut'. simpl. unfold get_node_revision. simpl.
  destruct (nr_edit_key noderev'); reflexivity.
Qed.

(** X6.  Creating and opening exclude each other on one directory state:
    where [make_entry] succeeds for a name, [svn_fs__dag_open] of that
    name fails with SVN_ERR_FS_NOT_FOUND; and where [svn_fs__dag_open]
    succeeds, [make_entry] in that mutable directory fails with
    SVN_ERR_FS_ALREADY_EXISTS. *)
Theorem create_and_open_exclude_each_other (fs : svn_fs_t) (P : dag_node_t)
    (parent_path name : string) (is_dir : bool) (txn_id : string) :
  (forall child P' fs',
     make_entry fs P parent_path name is_dir txn_id = Ok (child, P', fs') ->
     svn_fs__dag_open fs P name = Err SVN_ERR_FS_NOT_FOUND)
  /\ (forall child P1,
        svn_fs__dag_open fs P name = Ok (child, P1) ->
        dn_kind P = svn_node_dir ->
        svn_fs__dag_check_mutable P txn_id = true ->
        make_entry fs P parent_path name is_dir txn_id
        = Err SVN_ERR_FS_ALREADY_EXISTS).
Proof.
  split.
  - intros child P' fs' H. unfold make_entry in H.
    destruct (svn_path_is_single_path_component name); [|discriminate].
    simpl in H. case_bool_decide; [discriminate|].
    destruct (svn_fs__dag_check_mutable P txn_id); [|discriminate].
    simpl in H. unfold svn_fs__dag_open.
    destruct (dir_entry_id_from_node fs P name) as [[[i|] P1]|e|];
      try discriminate.
    reflexivity.
  - intros child P1 Hopen Hkind Hmut.
    destruct (dag_open_inv fs P P1 child name Hopen) as (Hid & Hname & _).
    unfold make_entry. rewrite Hname, Hmut. simpl.
    rewrite bool_decide_eq_false_2 by (intros Hne; exact (Hne Hkind)).
    rewrite Hid. reflexivity.
Qed.

End more_facts.

Section read_facts.

Context {svn_fs_t : Type} {FS : FsLayer svn_fs_t} {FR : FsReads svn_fs_t}.

(** X8.  A node whose kind is not file takes no file operation, and the
    storage layer is not asked: reading the contents, the length and the
    checksum, opening an edit stream and finalizing edits all fail with
    SVN_ERR_FS_NOT_FILE; for the last two this comes before the
    mutability check. *)
Theorem non_file_rejects_file_operations (fs : svn_fs_t) (node : dag_node_t) :
  dn_kind node <> svn_node_file ->
  svn_fs__dag_get_contents fs node = Err SVN_ERR_FS_NOT_FILE
  /\ svn_fs__dag_file_length fs node = Err SVN_ERR_FS_NOT_FILE
  /\ svn_fs__dag_file_checksum fs node = Err SVN_ERR_FS_NOT_FILE
  /\ (forall txn_id,
        svn_fs__dag_get_edit_stream fs node txn_id = Err SVN_ERR_FS_NOT_FILE)
  /\ (forall checksum txn_id,
        svn_fs__dag_finalize_edits fs node checksum txn_id
        = Err SVN_ERR_FS_NOT_FILE).
Proof.
  intros Hkind.
  unfold svn_fs__dag_get_contents, svn_fs__dag_file_length,
    svn_fs__dag_file_checksum, svn_fs__dag_get_edit_stream,
    svn_fs__dag_finalize_edits.
  rewrite bool_decide_eq_true_2 by exact Hkind. repeat split.
Qed.

(** X12.  Whenever [svn_fs__dag_clone_root] returns a node, it is the
    node [svn_fs__dag_txn_root] returns, and its id differs from that of
    the base root of the transaction.  While the root of the transaction
    is still its base root, [svn_fs__dag_clone_root] does not return
    ([abort ()]). *)
Theorem clone_root_is_txn_root (fs : svn_fs_t) (txn_id : string) :
  (forall root,
     svn_fs__dag_clone_root fs txn_id = Ok root ->
     svn_fs__dag_txn_root fs txn_id = Ok root
     /\ forall base,
          svn_fs__dag_txn_base_root fs txn_id = Ok base ->
          dn_id root <> dn_id base)
  /\ (forall base,
        svn_fs__dag_txn_root fs txn_id = Ok base ->
        svn_fs__dag_txn_base_root fs txn_id = Ok base ->
        svn_fs__dag_clone_root fs txn_id = Abort).
Proof.
  unfold svn_fs__dag_clone_root, svn_fs__dag_txn_root,
    svn_fs__dag_txn_base_root.
  destruct (svn_fs__get_txn_ids fs txn_id) as [[root_id base_root_id]|e|];
    simpl; [|split; intros; discriminate..].
  unfold svn_fs__id_eq. split.
  - intros root H. case_bool_decide as Heq; [discriminate|].
    split; [exact H|].
    intros base Hbase.
    destruct (dag_get_node_inv fs _ _ H) as (? & _ & ->).
    destruct (dag_get_node_inv fs _ _ Hbase) as (? & _ & ->).
    exact Heq.
  - intros base Hroot Hbase.
    destruct (dag_get_node_inv fs _ _ Hroot) as (? & _ & H1).
    destruct (dag_get_node_inv fs _ _ Hbase) as (? & _ & H2).
    rewrite H1 in H2. injection H2 as Heq _ _ _.
    rewrite bool_decide_eq_true_2 by exact Heq. reflexivity.
Qed.

End read_facts.


(** *** The reference storage layer keeps the contract *)

Section ref_store.
Import RefStore.

Lemma ref_create_node_keeps_kind : create_node_keeps_kind (FS := ref_fs).
Proof.
  intros fs noderev copy_id txn_id id fs' stored Hc Hg. simpl in Hc, Hg.
  unfold create_node in Hc. unfold get in Hg.
  case_bool_decide; injection Hc as <- <-; simpl in Hg;
    rewrite bool_decide_eq_true_2 in Hg by reflexivity;
    injection Hg as <-; reflexivity.
Qed.

Lemma ref_set_entry_is_listed : set_entry_is_listed (FS := ref_fs).
Proof.
  intros fs txn_id pnr name id kind pnr' fs' H. simpl in H |- *.
  unfold set_entry in H. unfold rep_contents_dir.
  destruct (nr_data_rep pnr) as [rep|] eqn:Hrep; injection H as <- <-.
  - split; [reflexivity|]. rewrite Hrep. simpl.
    eexists _, _. rewrite lookup_insert_eq. split; [reflexivity|].
    rewrite lookup_insert_eq. split; reflexivity.
  - split; [reflexivity|]. simpl.
    eexists _, _. rewrite lookup_insert_eq. split; [reflexivity|].
    rewrite lookup_singleton_eq. split; reflexivity.
Qed.

Lemma ref_set_entry_keeps_nodes : set_entry_keeps_nodes (FS := ref_fs).
Proof.
  intros fs txn_id pnr name id kind pnr' fs' H i noderev Hg.
  simpl in H, Hg |- *. unfold set_entry in H. unfold get in *.
  destruct (nr_data_rep pnr); injection H as <- <-; simpl;
    exists noderev; split; auto.
Qed.


End ref_store.

(** *** The properties on the example filesystem *)

Section examples.
Import RefStore.

(** C1: a file whose id carries transaction T1 passes the mutability
    check made on behalf of transaction T2, and both stream functions go
    ahead. *)
Lemma check_mutable_ignores_txn :
  svn_fs__id_txn_id (dn_id Example.a) = Some "T1"
  /\ svn_fs__dag_check_mutable Example.a "T2" = true
  /\ svn_fs__dag_finalize_edits Example.fs Example.a None "T2"
     = Ok Example.a
  /\ is_ok (svn_fs__dag_get_edit_stream Example.fs Example.a "T2") = true.
Proof. repeat split. Qed.

Lemma immutable_node_not_mutated_witness :
  svn_fs__id_txn_id (dn_id Example.b2) = None
  /\ svn_fs__dag_get_edit_stream Example.fs Example.b2 "T2"
     = Err SVN_ERR_FS_NOT_MUTABLE
  /\ svn_fs__dag_clone_child Example.fs Example.b2 "/" "x" "0" "T2"
     = Err SVN_ERR_FS_NOT_MUTABLE.
Proof.
  destruct (immutable_node_not_mutated Example.fs Example.b2 "T2")
    as [_ H].
  destruct (H eq_refl) as (_ & _ & Hclone & [_ Hstream] & _).
  split; [reflexivity|]. split; [apply Hstream; reflexivity|apply Hclone].
Defined.

(** C3: a file [c] made in the example root. *)
Lemma make_entry_then_open_witness :
  exists child D' fs',
    make_entry Example.fs Example.root "/" "c" false "T2"
    = Ok (child, D', fs')
    /\ (exists opened,
          svn_fs__dag_open fs' D' "c" = Ok (opened, D')
          /\ dn_id opened = dn_id child
          /\ dn_kind opened = svn_node_file)
    /\ (forall parent_path2 is_dir2 txn_id2,
          make_entry fs' D' parent_path2 "c" is_dir2 txn_id2
          = Err SVN_ERR_FS_ALREADY_EXISTS).
Proof.
  destruct (make_entry Example.fs Example.root "/" "c" false "T2")
    as [[[child D'] fs']| |] eqn:H; [|discriminate H..].
  exists child, D', fs'. split; [reflexivity|].
  exact (make_entry_then_open Example.fs fs' Example.root D' child
           "/" "c" false "T2" ref_create_node_keeps_kind
           ref_set_entry_is_listed ref_set_entry_keeps_nodes H).
Defined.



(** C7: revision 2 of [b] has predecessor count 2; walking its
    predecessors invokes the callback three times. *)
Lemma example_counts_decrease :
  counts_decrease Example.fs
    (Example.file_noderev (Some (Example.b_id 1)) 2 "/b").
Proof.
  eapply counts_next; [reflexivity | reflexivity | simpl; lia |].
  eapply counts_next; [reflexivity | reflexivity | simpl; lia |].
  apply counts_first. reflexivity.
Qed.


Lemma example_predecessors :
  predecessors Example.fs
    (Example.file_noderev (Some (Example.b_id 1)) 2 "/b")
    [Example.b1; Example.b0].
Proof.
  eapply (predecessors_next Example.fs _ (Example.b_id 1)
            (Example.file_noderev (Some (Example.b_id 0)) 1 "/b"));
    [reflexivity|reflexivity|].
  eapply (predecessors_next Example.fs _ (Example.b_id 0)
            (Example.file_noderev None 0 "/b") []);
    [reflexivity|reflexivity|].
  apply predecessors_none. reflexivity.
Qed.


(** C8: revision 1 of [b] is the parent, and an ancestor, of revision 2. *)
Lemma is_parent_is_ancestor_witness :
  svn_fs__dag_is_parent 5 Example.fs Example.b1 Example.b2 = Some (Ok true)
  /\ svn_fs__dag_is_ancestor 5 Example.fs Example.b1 Example.b2
     = Some (Ok true)
  /\ svn_fs_check_related (dn_id Example.b1) (dn_id Example.b2) = true.
Proof.
  destruct (is_ancestor_related_is_parent_is_ancestor Example.fs
              Example.b1 Example.b2) as [Hrelated Hparent].
  destruct (Hparent 5%nat eq_refl) as [_ Htotal].
  assert (Hancestor :
            svn_fs__dag_is_ancestor 5 Example.fs Example.b1 Example.b2
            = Some (Ok true)).
  { apply (Htotal (Example.file_noderev (Some (Example.b_id 1)) 2 "/b")
             Example.b2 [Example.b1; Example.b0]);
      [reflexivity|exact example_predecessors|simpl; lia]. }
  split; [reflexivity|]. split; [exact Hancestor|].
  exact (Hrelated 5%nat Hancestor).
Defined.

(** C8: revision 1 of [d] is the parent of revision 2, and
    [svn_fs__dag_is_ancestor], which reads on, fails on the predecessor
    that is missing, however many rounds it is given. *)
Lemma is_parent_without_is_ancestor :
  svn_fs__dag_is_parent 1 Example.fs_dangling Example.d1 Example.d2
  = Some (Ok true)
  /\ forall fuel,
       svn_fs__dag_is_ancestor (S (S fuel)) Example.fs_dangling
         Example.d1 Example.d2
       = Some (Err (SVN_ERR_OTHER 0)).
Proof. split; [reflexivity|]. intros fuel. reflexivity. Qed.





Lemma walk_predecessors_without_callback_witness :
  svn_fs__dag_walk_predecessors 3 Example.fs Example.b2 None tt
  = Some ([], Ok tt).
Proof.
  destruct (walk_predecessors_without_callback Example.fs Example.b2 tt)
    as [_ H].
  exact (H Example.b2 (Example.file_noderev (Some (Example.b_id 1)) 2 "/b")
           [Example.b1; Example.b0] 3%nat eq_refl example_predecessors
           (le_n 3)).
Defined.


Lemma ancestor_has_smaller_count_witness :
  svn_fs__dag_is_ancestor 3 Example.fs Example.b2 Example.b2
  = Some (Ok false)
  /\ svn_fs__dag_is_ancestor 3 Example.fs Example.b2 Example.b1
     = Some (Ok false).
Proof.
  split.
  - apply (ancestor_has_smaller_count Example.fs Example.b2 Example.b2
             Example.b2
             (Example.file_noderev (Some (Example.b_id 1)) 2 "/b")
             (Example.file_noderev (Some (Example.b_id 1)) 2 "/b"));
      [reflexivity|exact example_counts_decrease|simpl; lia|reflexivity
      |simpl; lia|simpl; lia].
  - apply (ancestor_has_smaller_count Example.fs Example.b2 Example.b1
             Example.b1
             (Example.file_noderev (Some (Example.b_id 1)) 2 "/b")
             (Example.file_noderev (Some (Example.b_id 0)) 1 "/b"));
      [reflexivity
      |eapply counts_next; [reflexivity|reflexivity|simpl; lia|];
       apply counts_first; reflexivity
      |simpl; lia|reflexivity|simpl; lia|simpl; lia].
Defined.


Lemma non_directory_rejects_directory_operations_witness :
  svn_fs__dag_get_node Example.fs Example.a_id = Ok Example.a
  /\ svn_fs__dag_open Example.fs Example.a "x" = Err SVN_ERR_FS_NOT_DIRECTORY
  /\ svn_fs__dag_make_file Example.fs Example.a "/a" "x" "T1"
     = Err SVN_ERR_FS_NOT_DIRECTORY
  /\ svn_fs__dag_make_file Example.fs Example.a "/a" "x/y" "T1"
     = Err SVN_ERR_FS_NOT_SINGLE_PATH_COMPONENT
  /\ svn_fs__dag_clone_child Example.fs Example.a "/a" "x" "0" "T1"
     = Err SVN_ERR_FS_NOT_DIRECTORY
  /\ svn_fs__dag_clone_child Example.fs Example.b0 "/b" "x" "0" "T1"
     = Err SVN_ERR_FS_NOT_MUTABLE.
Proof.
  assert (Hkind : dn_kind Example.a <> svn_node_dir) by discriminate.
  destruct (non_directory_rejects_directory_operations (FS := ref_fs)
              (PL := RefPath.ref_path) Example.fs
              Example.a_id Example.a eq_refl Hkind Example.fs)
    as (_ & Hopen & _ & _ & Hmake & Hclone).
  assert (Hkind0 : dn_kind Example.b0 <> svn_node_dir) by discriminate.
  destruct (non_directory_rejects_directory_operations (FS := ref_fs)
              (PL := RefPath.ref_path) Example.fs
              (Example.b_id 0) Example.b0 eq_refl Hkind0 Example.fs)
    as (_ & _ & _ & _ & _ & Hclone0).
  split; [reflexivity|]. split; [apply Hopen|].
  split; [apply Hmake|]. split; [apply Hmake|].
  split; [apply Hclone|apply Hclone0].
Defined.

Lemma copy_without_history_shares_node_witness :
  svn_fs__dag_copy Example.fs_before_copy Example.root "a" Example.a
    false 0 "/a" "T2" = Ok (Example.root, Example.fs)
  /\ dir_entry_id_from_node Example.fs Example.root "a"
     = Ok (Some Example.a_id, Example.root)
  /\ (st_reps Example.fs !!! 0%N : gmap string svn_fs_dirent_t) !! "a"
     = Some (mk_dirent "a" Example.a_id svn_node_dir).
Proof.
  destruct (copy_without_history_shares_node Example.fs_before_copy
              Example.fs Example.root Example.root Example.root Example.a
              "a" 0 "/a" "T2" Example.root_noderev ref_set_entry_is_listed
              eq_refl eq_refl eq_refl) as (Hentry & _ & _).
  split; [reflexivity|]. split; [exact Hentry|]. reflexivity.
Defined.

Lemma node_answers_from_its_cache_witness :
  svn_fs__dag_get_predecessor_count Example.fs_before_copy Example.b2
  = Ok (2, Example.b2)
  /\ svn_fs__dag_get_predecessor_count
       {| st_nodes := []; st_reps := ∅; st_next := 0%N |} Example.b2
     = Ok (2, Example.b2).
Proof.
  split.
  - apply (node_answers_from_its_cache Example.fs Example.b2 Example.b2 _
             eq_refl Example.fs_before_copy).
  - apply (node_answers_from_its_cache Example.fs Example.b2 Example.b2 _
             eq_refl {| st_nodes := []; st_reps := ∅; st_next := 0%N |}).
Defined.

Lemma finalize_edits_after_edit_stream_witness :
  exists ws file' fs',
    svn_fs__dag_get_edit_stream Example.fs Example.a "T1"
    = Ok (ws, file', fs')
    /\ svn_fs__dag_finalize_edits fs' file' None "T1" = Abort.
Proof.
  destruct (svn_fs__dag_get_edit_stream Example.fs Example.a "T1")
    as [[[ws file'] fs']| |] eqn:H; [|discriminate H..].
  exists ws, file', fs'. split; [reflexivity|].
  destruct (finalize_edits_after_edit_stream Example.fs fs' Example.a file'
              "T1" ws H) as (noderev' & Hcache & Hfinal).
  rewrite Hfinal.
  vm_compute in H. injection H as _ <- _. simpl in Hcache.
  injection Hcache as <-. reflexivity.
Defined.

Lemma create_and_open_exclude_each_other_witness :
  svn_fs__dag_open Example.fs Example.root "c" = Err SVN_ERR_FS_NOT_FOUND
  /\ svn_fs__dag_make_file Example.fs Example.root "/" "b" "T2"
     = Err SVN_ERR_FS_ALREADY_EXISTS.
Proof.
  destruct (create_and_open_exclude_each_other Example.fs Example.root "/" "c"
              false "T2") as [Hcreate _].
  destruct (create_and_open_exclude_each_other Example.fs Example.root "/" "b"
              false "T2") as [_ Hopen].
  split.
  - destruct (make_entry Example.fs Example.root "/" "c" false "T2")
      as [[[child D'] fs']| |] eqn:H; [|discriminate H..].
    exact (Hcreate child D' fs' eq_refl).
  - exact (Hopen Example.b2 Example.root eq_refl eq_refl eq_refl).
Defined.

Lemma non_file_rejects_file_operations_witness :
  svn_fs__dag_get_contents (FR := ref_reads ∅ ∅) Example.fs Example.root
  = Err SVN_ERR_FS_NOT_FILE
  /\ svn_fs__dag_file_length (FR := ref_reads ∅ ∅) Example.fs Example.root
     = Err SVN_ERR_FS_NOT_FILE
  /\ svn_fs__dag_get_edit_stream Example.fs Example.root "T2"
     = Err SVN_ERR_FS_NOT_FILE.
Proof.
  assert (Hkind : dn_kind Example.root <> svn_node_file) by discriminate.
  destruct (non_file_rejects_file_operations (FR := ref_reads ∅ ∅)
              Example.fs Example.root Hkind)
    as (Hcontents & Hlength & _ & Hstream & _).
  split; [exact Hcontents|]. split; [exact Hlength|apply Hstream].
Defined.

Lemma clone_root_is_txn_root_witness :
  svn_fs__dag_clone_root
    (FR := ref_reads ∅ {[ "T2" := (Example.root_id, Example.b_id 0) ]})
    Example.fs "T2" = Ok Example.root
  /\ svn_fs__dag_txn_root
       (FR := ref_reads ∅ {[ "T2" := (Example.root_id, Example.b_id 0) ]})
       Example.fs "T2" = Ok Example.root
  /\ svn_fs__dag_clone_root
       (FR := ref_reads ∅ {[ "T0" := (Example.b_id 0, Example.b_id 0) ]})
       Example.fs "T0" = Abort.
Proof.
  destruct (clone_root_is_txn_root
              (FR := ref_reads ∅
                       {[ "T2" := (Example.root_id, Example.b_id 0) ]})
              Example.fs "T2") as [Hclone _].
  destruct (clone_root_is_txn_root
              (FR := ref_reads ∅
                       {[ "T0" := (Example.b_id 0, Example.b_id 0) ]})
              Example.fs "T0") as [_ Habort].
  split; [reflexivity|].
  split; [exact (proj1 (Hclone Example.root eq_refl))|].
  exact (Habort Example.b0 eq_refl eq_refl).
Defined.

End examples.

End DagFacts.

(** ** Properties of the status classifier *)

Module StatusFacts.
Import Wc Status.

Section facts.

Context {PL : SvnPath} {W : WcWorld}.

(** C5.  For an entry, of a file or of a directory, whose conflicted flag
    is set: once the checks on the disk have answered, [assemble_status]
    returns a status whose text component is "conflicted" exactly when
    [svn_wc_conflicted_p] finds the text conflict still there, and whose
    property component is "conflicted" exactly when it finds the property
    conflict still there, whatever the comparison with the pristine text
    and properties ([tm], [pm]) and the schedule say. *)
Theorem conflicted_wins (path : string) (e : svn_wc_entry_t)
    (prop_path : string) (prop_kind : svn_node_kind) (pm tm tc pc : bool) :
  entry_conflicted e = true ->
  entry_kind e = svn_node_file \/ entry_kind e = svn_node_dir ->
  svn_wc__prop_path path = Ok prop_path ->
  svn_io_check_path prop_path = Ok prop_kind ->
  svn_wc_props_modified_p path = Ok pm ->
  svn_wc_text_modified_p path = Ok tm ->
  svn_wc_conflicted_p
    (Some (if bool_decide (entry_kind e = svn_node_file)
           then svn_path_remove_component path else path)) e
  = Ok (tc, pc) ->
  exists st,
    assemble_status path (Some e) = Ok st
    /\ status_entry st = Some e
    /\ (status_text_status st = svn_wc_status_conflicted <-> tc = true)
    /\ (status_prop_status st = svn_wc_status_conflicted <-> pc = true).
Proof.
  intros Hc Hkind Hpp Hpk Hpm Htm Hconf.
  unfold assemble_status. rewrite Hpp. simpl. rewrite Hpk. simpl.
  rewrite Hc, Hpm, Htm.
  assert (Hdir : bool_decide (entry_kind e = svn_node_file) = false ->
                 bool_decide (entry_kind e = svn_node_dir) = true).
  { intros Hf. apply bool_decide_eq_true. destruct Hkind as [Hk|Hk]; auto.
    apply bool_decide_eq_false in Hf. contradiction. }
  destruct (bool_decide (entry_kind e = svn_node_file)) eqn:Hf;
    [|rewrite (Hdir eq_refl)];
    destruct (bool_decide (prop_kind = svn_node_file));
    destruct (entry_schedule e); simpl; rewrite Hconf; simpl;
    destruct tc, pc, pm; try destruct tm; simpl;
    (eexists; split; [reflexivity|]; simpl;
     repeat split; intros; congruence).
Qed.

End facts.

Section more_facts.

Context {PL : SvnPath} {W : WcWorld}.

(** X25.  The status of a versioned entry whose conflicted flag is not
    set, once the checks on the disk have answered.  A schedule for
    addition, replacement or deletion decides the text status, whatever
    the comparison with the pristine text says; it decides the property
    status too, but only when the property file exists.  Under the normal
    schedule the text is "modified" exactly for a file entry whose text
    differs from the pristine one, and the properties are "modified"
    exactly when the property file exists and differs.  The text is
    compared only for a file entry, the properties only when the property
    file exists, and [svn_wc_conflicted_p] is not asked. *)
Theorem status_of_unconflicted_entry (path : string) (e : svn_wc_entry_t)
    (prop_path : string) (prop_kind : svn_node_kind) (pm tm : bool) :
  entry_conflicted e = false ->
  svn_wc__prop_path path = Ok prop_path ->
  svn_io_check_path prop_path = Ok prop_kind ->
  (prop_kind = svn_node_file -> svn_wc_props_modified_p path = Ok pm) ->
  (entry_kind e = svn_node_file -> svn_wc_text_modified_p path = Ok tm) ->
  assemble_status path (Some e)
  = Ok {| status_entry := Some e;
          status_repos_rev := SVN_INVALID_REVNUM;
          status_text_status :=
            match entry_schedule e with
            | svn_wc_schedule_add => svn_wc_status_added
            | svn_wc_schedule_replace => svn_wc_status_replaced
            | svn_wc_schedule_delete => svn_wc_status_deleted
            | svn_wc_schedule_normal =>
                if bool_decide (entry_kind e = svn_node_file) && tm
                then svn_wc_status_modified
                else svn_wc_status_none
            end;
          status_prop_status :=
            if bool_decide (prop_kind = svn_node_file)
            then
              match entry_schedule e with
              | svn_wc_schedule_add => svn_wc_status_added
              | svn_wc_schedule_replace => svn_wc_status_replaced
              | svn_wc_schedule_delete => svn_wc_status_deleted
              | svn_wc_schedule_normal =>
                  if pm then svn_wc_status_modified else svn_wc_status_none
              end
            else svn_wc_status_none |}.
Proof.
  intros Hc Hpp Hpk Hpm Htm. unfold assemble_status.
  rewrite Hpp. simpl. rewrite Hpk. simpl. rewrite Hc.
  case_bool_decide as Hfile; case_bool_decide as Hkind;
    rewrite ?(Hpm Hfile), ?(Htm Hkind); simpl;
    destruct (entry_schedule e), pm; try destruct tm; reflexivity.
Qed.

Lemma add_status_structure_keeps (statushash : gmap string svn_wc_status_t)
    (path : string) (entry : option svn_wc_entry_t) (k : string) :
  is_Some (statushash !! k) ->
  is_Some ((add_status_structure statushash path entry).1 !! k).
Proof.
  intros Hk. unfold add_status_structure.
  destruct (assemble_status path entry); simpl; [|exact Hk..].
  destruct (decide (path = k)) as [->|Hne].
  - rewrite lookup_insert_eq. eauto.
  - rewrite lookup_insert_ne by exact Hne. exact Hk.
Qed.


Lemma add_status_structure_result
    (statushash : gmap string svn_wc_status_t) (path : string)
    (entry : option svn_wc_entry_t)
    (statushash' : gmap string svn_wc_status_t) (r : svn_result unit)
    (k : string) :
  add_status_structure statushash path entry = (statushash', r) ->
  is_Some (statushash !! k) -> is_Some (statushash' !! k).
Proof.
  intros H Hk.
  pose proof (add_status_structure_keeps statushash path entry k Hk) as K.
  rewrite H in K. exact K.
Qed.

(** X26.  [svn_wc_statuses] on a path that is a file on disk looks the
    file up, by its base name, in the entries of its parent directory.  A
    file that is not versioned there is an error, [SVN_ERR_BAD_FILENAME],
    and the hash is left as it was; otherwise the one status of the file
    is stored under the path handed in.  Neither DESCEND nor the depth
    allowed plays a part. *)
Theorem statuses_of_a_file (fuel : nat)
    (statushash : gmap string svn_wc_status_t) (path : string)
    (descend : bool) (dirpath basename : string)
    (entries : gmap string svn_wc_entry_t) :
  svn_io_check_path path = Ok svn_node_file ->
  svn_path_split path = (Some dirpath, basename) ->
  svn_wc_entries_read dirpath = Ok entries ->
  svn_wc_statuses (S fuel) statushash path descend
  = Some match entries !! basename with
         | Some entry => add_status_structure statushash path (Some entry)
         | None => (statushash, Err SVN_ERR_BAD_FILENAME)
         end.
Proof.
  intros Hkind Hsplit Hentries. simpl.
  rewrite Hkind, Hsplit, Hentries. simpl.
  destruct (entries !! basename); reflexivity.
Qed.

Lemma statuses_of_entries_keep
    (descend_into :
       gmap string svn_wc_status_t -> string ->
       option (gmap string svn_wc_status_t * svn_result unit))
    (path : string) (descend : bool) :
  (forall statushash fullpath statushash' r,
     descend_into statushash fullpath = Some (statushash', r) ->
     forall k, is_Some (statushash !! k) -> is_Some (statushash' !! k)) ->
  forall entries statushash statushash' r,
    statuses_of_entries descend_into path descend entries statushash
    = Some (statushash', r) ->
    forall k, is_Some (statushash !! k) -> is_Some (statushash' !! k).
Proof.
  intros Hdescend entries.
  induction entries as [|[basename entry] entries IH];
    intros statushash statushash' r H k Hk; simpl in H.
  - injection H as <- _. exact Hk.
  - assert (Hone : forall h1 r1,
              statuses_of_entry descend_into path descend statushash
                basename entry = Some (h1, r1) ->
              is_Some (h1 !! k)).
    { intros h1 r1 H1. unfold statuses_of_entry in H1.
      set (fullpath := if bool_decide (basename <> SVN_WC_ENTRY_THIS_DIR)
                       then svn_path_add_component path basename
                       else path) in H1.
      destruct (svn_io_check_path fullpath) as [kind|e|];
        [|injection H1 as <- _; exact Hk..].
      destruct (bool_decide (basename = SVN_WC_ENTRY_THIS_DIR)).
      { destruct (statushash !! fullpath).
        - injection H1 as <- _. exact Hk.
        - injection H1 as H1.
          exact (add_status_structure_result _ _ _ _ _ k H1 Hk). }
      destruct (bool_decide (kind = svn_node_dir)).
      { destruct (svn_wc_entry fullpath) as [subdir|e|];
          [|injection H1 as <- _; exact Hk..].
        pose proof (add_status_structure_keeps statushash fullpath
                      subdir k Hk) as Hadd.
        destruct (add_status_structure statushash fullpath subdir)
          as [h2 [[]|e|]];
          simpl in Hadd; [|injection H1 as <- _; exact Hadd..].
        destruct descend.
        - exact (Hdescend _ _ _ _ H1 k Hadd).
        - injection H1 as <- _. exact Hadd. }
      destruct (bool_decide (kind = svn_node_file)).
      - injection H1 as H1.
        exact (add_status_structure_result _ _ _ _ _ k H1 Hk).
      - injection H1 as <- _. exact Hk. }
    destruct (statuses_of_entry descend_into path descend statushash
                basename entry) as [[h1 [[]|e|]]|];
      [|injection H as <- _; exact (Hone _ _ eq_refl)..|discriminate H].
    exact (IH _ _ _ H k (Hone _ _ eq_refl)).
Qed.

Lemma statuses_keep (fuel : nat) :
  forall (statushash : gmap string svn_wc_status_t) (path : string)
         (descend : bool) statushash' r,
    svn_wc_statuses fuel statushash path descend = Some (statushash', r) ->
    forall k, is_Some (statushash !! k) -> is_Some (statushash' !! k).
Proof.
  induction fuel as [|fuel IH];
    intros statushash path descend statushash' r H k Hk; [discriminate H|].
  simpl in H.
  destruct (svn_io_check_path path) as [kind|e|];
    [|injection H as <- _; exact Hk..].
  destruct (bool_decide (kind = svn_node_file)).
  { destruct (svn_path_split path) as [[dirpath|] basename];
      [|injection H as <- _; exact Hk].
    destruct (svn_wc_entries_read dirpath) as [entries|e|];
      [|injection H as <- _; exact Hk..].
    destruct (entries !! basename).
    - injection H as H.
      exact (add_status_structure_result _ _ _ _ _ k H Hk).
    - injection H as <- _. exact Hk. }
  destruct (bool_decide (kind = svn_node_dir));
    [|injection H as <- _; exact Hk].
  destruct (svn_wc_entries_read path) as [entries|e|];
    [|injection H as <- _; exact Hk..].
  eapply statuses_of_entries_keep; [|exact H|exact Hk].
  intros h fullpath h' r' Hrec. exact (IH _ _ _ _ _ Hrec).
Qed.

Lemma add_status_structure_stores
    (statushash : gmap string svn_wc_status_t) (path : string)
    (entry : option svn_wc_entry_t)
    (statushash' : gmap string svn_wc_status_t) :
  add_status_structure statushash path entry = (statushash', Ok tt) ->
  is_Some (statushash' !! path).
Proof.
  unfold add_status_structure.
  destruct (assemble_status path entry) as [s|e|]; intros H;
    try discriminate H.
  injection H as <-. rewrite lookup_insert_eq. eauto.
Qed.

Lemma add_status_structure_keys
    (statushash : gmap string svn_wc_status_t) (path : string)
    (entry : option svn_wc_entry_t) (k : string) :
  is_Some ((add_status_structure statushash path entry).1 !! k) ->
  is_Some (statushash !! k) \/ k = path.
Proof.
  unfold add_status_structure.
  destruct (assemble_status path entry) as [s|e|]; simpl; auto.
  destruct (decide (path = k)) as [->|Hne]; [auto|].
  rewrite lookup_insert_ne by exact Hne. auto.
Qed.

Lemma statuses_of_entries_cover
    (descend_into :
       gmap string svn_wc_status_t -> string ->
       option (gmap string svn_wc_status_t * svn_result unit))
    (path : string) (descend : bool) :
  (forall statushash fullpath statushash' r,
     descend_into statushash fullpath = Some (statushash', r) ->
     forall k, is_Some (statushash !! k) -> is_Some (statushash' !! k)) ->
  forall entries statushash statushash',
    statuses_of_entries descend_into path descend entries statushash
    = Some (statushash', Ok tt) ->
    forall basename entry kind,
      In (basename, entry) entries ->
      svn_io_check_path
        (if bool_decide (basename <> SVN_WC_ENTRY_THIS_DIR)
         then svn_path_add_component path basename else path) = Ok kind ->
      basename = SVN_WC_ENTRY_THIS_DIR
      \/ kind = svn_node_file \/ kind = svn_node_dir ->
      is_Some (statushash'
               !! (if bool_decide (basename <> SVN_WC_ENTRY_THIS_DIR)
                   then svn_path_add_component path basename else path)).
Proof.
  intros Hdescend entries.
  induction entries as [|[basename0 entry0] entries IH];
    intros statushash statushash' H basename entry kind Hin Hkind Hcase;
    [destruct Hin|].
  simpl in H.
  destruct (statuses_of_entry descend_into path descend statushash
              basename0 entry0) as [[h1 [[]|e|]]|] eqn:H1;
    try discriminate H.
  destruct Hin as [Heq|Hin]; [|exact (IH _ _ H _ _ _ Hin Hkind Hcase)].
  injection Heq as -> ->.
  eapply statuses_of_entries_keep; [exact Hdescend|exact H|].
  unfold statuses_of_entry in H1.
  set (fullpath := if bool_decide (basename <> SVN_WC_ENTRY_THIS_DIR)
                   then svn_path_add_component path basename
                   else path) in *.
  rewrite Hkind in H1.
  case_bool_decide as Hthis.
  { destruct (statushash !! fullpath) as [s|] eqn:Hs.
    - injection H1 as <-. eauto.
    - injection H1 as H1. exact (add_status_structure_stores _ _ _ _ H1). }
  case_bool_decide as Hdir.
  { destruct (svn_wc_entry fullpath) as [subdir|e|]; try discriminate H1.
    destruct (add_status_structure statushash fullpath subdir)
      as [h2 [[]|e|]] eqn:H2; try discriminate H1.
    apply add_status_structure_stores in H2.
    destruct descend.
    - exact (Hdescend _ _ _ _ H1 _ H2).
    - injection H1 as <-. exact H2. }
  case_bool_decide as Hfile.
  - injection H1 as H1. exact (add_status_structure_stores _ _ _ _ H1).
  - destruct Hcase as [?|[?|?]]; contradiction.
Qed.

(** X28.  When [svn_wc_statuses] succeeds on a directory, the hash it
    leaves has a status, stored by the call or there before it, for the
    directory itself, if its entries have the entry [THIS_DIR], and for
    every other entry that is a file or a directory on disk, under the
    path of the directory extended by the name of the entry. *)
Theorem statuses_cover_the_entries (fuel : nat)
    (statushash statushash' : gmap string svn_wc_status_t) (path : string)
    (descend : bool) (entries : gmap string svn_wc_entry_t)
    (basename : string) (entry : svn_wc_entry_t) (kind : svn_node_kind) :
  svn_io_check_path path = Ok svn_node_dir ->
  svn_wc_entries_read path = Ok entries ->
  svn_wc_statuses fuel statushash path descend = Some (statushash', Ok tt) ->
  entries !! basename = Some entry ->
  svn_io_check_path
    (if bool_decide (basename <> SVN_WC_ENTRY_THIS_DIR)
     then svn_path_add_component path basename else path) = Ok kind ->
  basename = SVN_WC_ENTRY_THIS_DIR
  \/ kind = svn_node_file \/ kind = svn_node_dir ->
  is_Some (statushash'
           !! (if bool_decide (basename <> SVN_WC_ENTRY_THIS_DIR)
               then svn_path_add_component path basename else path)).
Proof.
  intros Hpath Hentries H Hentry Hkind Hcase.
  destruct fuel as [|fuel]; [discriminate H|].
  simpl in H. rewrite Hpath, Hentries in H. simpl in H.
  eapply statuses_of_entries_cover; [|exact H| |exact Hkind|exact Hcase].
  - intros h fullpath h' r Hrec. exact (statuses_keep _ _ _ _ _ _ Hrec).
  - apply list_elem_of_In, elem_of_map_to_list. exact Hentry.
Qed.

Lemma statuses_of_entries_flat
    (descend_into :
       gmap string svn_wc_status_t -> string ->
       option (gmap string svn_wc_status_t * svn_result unit))
    (path : string) :
  forall entries statushash,
    exists statushash' r,
      statuses_of_entries descend_into path false entries statushash
      = Some (statushash', r)
      /\ forall k,
           is_Some (statushash' !! k) ->
           is_Some (statushash !! k) \/ k = path
           \/ exists basename entry,
                In (basename, entry) entries
                /\ k = svn_path_add_component path basename.
Proof.
  induction entries as [|[basename entry] entries IH]; intros statushash.
  { exists statushash, (Ok tt). split; [reflexivity|auto]. }
  assert (Hone : exists h1 r1,
            statuses_of_entry descend_into path false statushash
              basename entry = Some (h1, r1)
            /\ forall k, is_Some (h1 !! k) ->
                 is_Some (statushash !! k) \/ k = path
                 \/ k = svn_path_add_component path basename).
  { unfold statuses_of_entry.
    set (fullpath := if bool_decide (basename <> SVN_WC_ENTRY_THIS_DIR)
                     then svn_path_add_component path basename
                     else path).
    assert (Hfull : forall k, k = fullpath ->
              k = path \/ k = svn_path_add_component path basename).
    { intros k ->. unfold fullpath. case_bool_decide; auto. }
    assert (Hadd : forall e k,
              is_Some ((add_status_structure statushash fullpath e).1 !! k) ->
              is_Some (statushash !! k) \/ k = path
              \/ k = svn_path_add_component path basename).
    { intros e k Hk. apply add_status_structure_keys in Hk.
      destruct Hk as [Hk|Hk]; [auto|right; exact (Hfull _ Hk)]. }
    destruct (svn_io_check_path fullpath) as [kind|e|];
      [|eexists _, _; split; [reflexivity|auto]..].
    destruct (bool_decide (basename = SVN_WC_ENTRY_THIS_DIR)).
    { destruct (statushash !! fullpath).
      - eexists _, _; split; [reflexivity|auto].
      - eexists _, _; split; [apply f_equal, surjective_pairing|].
        apply Hadd. }
    destruct (bool_decide (kind = svn_node_dir)).
    { destruct (svn_wc_entry fullpath) as [subdir|e|];
        [|eexists _, _; split; [reflexivity|auto]..].
      pose proof (Hadd subdir) as Hsub.
      destruct (add_status_structure statushash fullpath subdir)
        as [h2 [[]|e|]]; simpl in Hsub;
        eexists _, _; (split; [reflexivity|exact Hsub]). }
    destruct (bool_decide (kind = svn_node_file)).
    - eexists _, _; split; [apply f_equal, surjective_pairing|].
      apply Hadd.
    - eexists _, _; split; [reflexivity|auto]. }
  destruct Hone as (h1 & r1 & H1 & Hk1).
  assert (Hlift : forall k,
            is_Some (h1 !! k) ->
            is_Some (statushash !! k) \/ k = path
            \/ exists basename0 entry0,
                 In (basename0, entry0) ((basename, entry) :: entries)
                 /\ k = svn_path_add_component path basename0).
  { intros k Hk. destruct (Hk1 k Hk) as [?|[?|?]]; auto.
    right; right. exists basename, entry. split; [left; reflexivity|auto]. }
  simpl. rewrite H1.
  destruct r1 as [[]|e|]; [|eexists _, _; split; [reflexivity|exact Hlift]..].
  destruct (IH h1) as (h' & r & H & Hk).
  exists h', r. split; [exact H|].
  intros k Hk'. destruct (Hk k Hk') as [Hh1|[?|(b & e0 & Hin & ?)]]; auto.
  right; right. exists b, e0. split; [right; exact Hin|auto].
Qed.

(** X29.  Without DESCEND [svn_wc_statuses] on a directory never calls
    itself, so it returns whatever depth is allowed, and the only keys it
    adds to the hash are the directory itself and the directory extended
    by the name of one of its entries. *)
Theorem statuses_without_descent (fuel : nat)
    (statushash : gmap string svn_wc_status_t)
    (path : string) (entries : gmap string svn_wc_entry_t) :
  svn_io_check_path path = Ok svn_node_dir ->
  svn_wc_entries_read path = Ok entries ->
  exists statushash' r,
    svn_wc_statuses (S fuel) statushash path false = Some (statushash', r)
    /\ forall k,
         is_Some (statushash' !! k) ->
         is_Some (statushash !! k) \/ k = path
         \/ exists basename,
              is_Some (entries !! basename)
              /\ k = svn_path_add_component path basename.
Proof.
  intros Hpath Hentries. simpl. rewrite Hpath, Hentries. simpl.
  destruct (statuses_of_entries_flat
              (fun statushash fullpath =>
                 svn_wc_statuses fuel statushash fullpath false) path
              (map_to_list entries) statushash) as (h' & r & H & Hk).
  exists h', r. split; [exact H|].
  intros k Hk'. destruct (Hk k Hk') as [?|[?|(b & e & Hin & ?)]]; auto.
  right; right. exists b. split; [|assumption].
  exists e. apply elem_of_map_to_list, list_elem_of_In. exact Hin.
Qed.

(** X27.  [svn_wc_statuses] only adds to the hash it is handed, also
    when it fails half way: every path that had a status before the call
    has one after it. *)
Theorem statuses_drop_no_status (fuel : nat)
    (statushash statushash' : gmap string svn_wc_status_t) (path : string)
    (descend : bool) (r : svn_result unit) (k : string) :
  svn_wc_statuses fuel statushash path descend = Some (statushash', r) ->
  is_Some (statushash !! k) -> is_Some (statushash' !! k).
Proof.
  intros H. exact (statuses_keep fuel statushash path descend _ _ H k).
Qed.

End more_facts.

Section examples.

(** C5: the entry of [wc/foo] is flagged conflicted, its text is modified
    and its text reject file is still there. *)
Lemma conflicted_wins_witness :
  exists st,
    assemble_status (PL := RefPath.ref_path)
      (W := Editor.Example.world (Editor.Example.wc true true (true, false)))
      "wc/foo" (Some (Editor.Example.file_entry "http://repo/trunk/foo" true))
    = Ok st
    /\ status_text_status st = svn_wc_status_conflicted
    /\ status_prop_status st = svn_wc_status_none.
Proof.
  destruct (conflicted_wins (PL := RefPath.ref_path)
              (W := Editor.Example.world
                      (Editor.Example.wc true true (true, false)))
              "wc/foo" (Editor.Example.file_entry "http://repo/trunk/foo" true)
              "wc/foo.props" svn_node_none false true true false
              eq_refl (or_introl eq_refl) eq_refl eq_refl eq_refl eq_refl
              eq_refl)
    as (st & Hst & _ & Htext & _).
  exists st. split; [exact Hst|]. split; [apply Htext; reflexivity|].
  injection Hst as <-. reflexivity.
Defined.

(** X25: the file [wc/gone], whose text is modified and which has no
    property file. *)
Lemma status_of_unconflicted_entry_witness :
  assemble_status (PL := RefPath.ref_path)
    (W := Editor.Example.world (Editor.Example.wc true true (false, false)))
    "wc/gone" (Some (Editor.Example.file_entry "http://repo/trunk/gone" false))
  = Ok {| status_entry := Some (Editor.Example.file_entry "http://repo/trunk/gone" false);
          status_repos_rev := SVN_INVALID_REVNUM;
          status_text_status := svn_wc_status_modified;
          status_prop_status := svn_wc_status_none |}.
Proof.
  exact (status_of_unconflicted_entry (PL := RefPath.ref_path)
           (W := Editor.Example.world (Editor.Example.wc true true (false, false)))
           "wc/gone" (Editor.Example.file_entry "http://repo/trunk/gone" false)
           "wc/gone.props" svn_node_none false true
           eq_refl eq_refl eq_refl (fun _ => eq_refl) (fun _ => eq_refl)).
Defined.

(** X26: the file [wc/new] is on disk and not among the entries of
    [wc]. *)
Lemma statuses_of_a_file_witness :
  svn_wc_statuses (PL := RefPath.ref_path)
    (W := Editor.Example.world Editor.Example.wc_with_new)
    1 ∅ "wc/new" true
  = Some (∅, Err SVN_ERR_BAD_FILENAME).
Proof.
  exact (statuses_of_a_file (PL := RefPath.ref_path)
           (W := Editor.Example.world Editor.Example.wc_with_new)
           0 ∅ "wc/new" true "wc"
           "new" (Editor.Example.wc_entries !!! "wc") eq_refl eq_refl eq_refl).
Defined.

(** X28: the statuses of [wc], whose entry [gone] is not on disk. *)
Lemma statuses_cover_the_entries_witness :
  svn_wc_statuses (PL := RefPath.ref_path) (W := Editor.Example.world_ok) 1 ∅ "wc" false
  = Some (Editor.Example.wc_statuses, Ok tt)
  /\ is_Some (Editor.Example.wc_statuses !! "wc/foo").
Proof.
  assert (H : svn_wc_statuses (PL := RefPath.ref_path) (W := Editor.Example.world_ok)
                1 ∅ "wc" false
              = Some (Editor.Example.wc_statuses, Ok tt)) by (vm_compute; reflexivity).
  split; [exact H|].
  exact (statuses_cover_the_entries (PL := RefPath.ref_path)
           (W := Editor.Example.world_ok) 1 ∅ Editor.Example.wc_statuses "wc" false (Editor.Example.wc_entries !!! "wc")
           "foo" (Editor.Example.file_entry "http://repo/trunk/foo" true) svn_node_file
           eq_refl eq_refl H eq_refl eq_refl (or_intror (or_introl eq_refl))).
Defined.

(** X27: the status of [elsewhere] is still there after the statuses of
    [wc] have been added. *)
Lemma statuses_drop_no_status_witness :
  svn_wc_statuses (PL := RefPath.ref_path) (W := Editor.Example.world_ok) 1
    {[ "elsewhere" := Editor.Example.unversioned ]} "wc" false
  = Some (<["elsewhere" := Editor.Example.unversioned]> Editor.Example.wc_statuses, Ok tt)
  /\ is_Some ((<["elsewhere" := Editor.Example.unversioned]> Editor.Example.wc_statuses) !! "elsewhere").
Proof.
  assert (H : svn_wc_statuses (PL := RefPath.ref_path) (W := Editor.Example.world_ok) 1
                {[ "elsewhere" := Editor.Example.unversioned ]} "wc" false
              = Some (<["elsewhere" := Editor.Example.unversioned]> Editor.Example.wc_statuses, Ok tt))
    by (vm_compute; reflexivity).
  split; [exact H|].
  exact (statuses_drop_no_status (PL := RefPath.ref_path)
           (W := Editor.Example.world_ok) 1 {[ "elsewhere" := Editor.Example.unversioned ]}
           (<["elsewhere" := Editor.Example.unversioned]> Editor.Example.wc_statuses) "wc" false (Ok tt)
           "elsewhere" H (ex_intro _ Editor.Example.unversioned (lookup_singleton_eq _ _))).
Defined.

(** X29: the directory [wc]. *)
Lemma statuses_without_descent_witness :
  exists statushash r,
    svn_wc_statuses (PL := RefPath.ref_path) (W := Editor.Example.world_ok) 1 ∅ "wc" false
    = Some (statushash, r)
    /\ forall k,
         is_Some (statushash !! k) ->
         is_Some ((∅ : gmap string svn_wc_status_t) !! k) \/ k = "wc"
         \/ exists basename,
              is_Some ((Editor.Example.wc_entries !!! "wc" : gmap string svn_wc_entry_t)
                       !! basename)
              /\ k = RefPath.add_component "wc" basename.
Proof.
  exact (statuses_without_descent (PL := RefPath.ref_path) (W := Editor.Example.world_ok)
           0 ∅ "wc" (Editor.Example.wc_entries !!! "wc") eq_refl eq_refl).
Defined.

End examples.

End StatusFacts.

(** ** Properties of the update editor *)

Module EditorFacts.
Import Wc Editor.

(** An entry-prop is not a wc-prop. *)
Lemma entry_prop_not_wc_prop (name : string) :
  svn_wc_is_entry_prop name = true -> svn_wc_is_wc_prop name = false.
Proof.
  unfold svn_wc_is_entry_prop, svn_wc_is_wc_prop,
    SVN_PROP_ENTRY_PREFIX, SVN_PROP_WC_PREFIX.
  intros H.
  do 5 (destruct name as [|? name]; [discriminate H|];
        cbn [String.prefix] in H |- *;
        match type of H with
        | context [ascii_dec ?a ?b] =>
            destruct (ascii_dec a b); [subst | discriminate H]
        end).
  destruct (ascii_dec _ _); [discriminate|reflexivity].
Qed.

(** *** The log of [svn_wc_install_file] *)

Lemma no_log_nil {A : Type} (r : svn_result A) : writes_no_log ([], r).
Proof. intros path log []. Qed.

Lemma no_log_calling {A : Type} (c : wc_call) (r : svn_result A) :
  (forall path log, c <> call_write_log path log) ->
  writes_no_log (calling c r).
Proof. intros Hc path log [H|[]]. exact (Hc _ _ H). Qed.

Lemma no_log_apr_status (c : wc_call) (status : Z) :
  (forall path log, c <> call_write_log path log) ->
  writes_no_log (apr_status c status).
Proof. intros Hc path log [H|[]]. exact (Hc _ _ H). Qed.

Lemma in_traced_bind {A B : Type} (m : traced A) (k : A -> traced B) c :
  In c (traced_bind m k).1 ->
  In c m.1 \/ exists a, m.2 = Ok a /\ In c (k a).1.
Proof.
  unfold traced_bind. destruct m as [calls [a| |]]; simpl; auto.
  intros H. apply in_app_or in H. destruct H; eauto.
Qed.

Lemma no_log_bind {A B : Type} (m : traced A) (k : A -> traced B) :
  writes_no_log m -> (forall a, writes_no_log (k a)) ->
  writes_no_log (traced_bind m k).
Proof.
  intros Hm Hk path log H. apply in_traced_bind in H.
  destruct H as [H|(a & _ & H)]; [exact (Hm _ _ H) | exact (Hk _ _ _ H)].
Qed.

Lemma traced_bind_ok_inv {A B : Type} (m : traced A) (k : A -> traced B) b :
  (traced_bind m k).2 = Ok b -> exists a, m.2 = Ok a /\ (k a).2 = Ok b.
Proof.
  unfold traced_bind. destruct m as [calls [a| |]]; simpl; try discriminate.
  eauto.
Qed.

(** Past a step that does not write the log, a log that has been written
    has been written by what follows. *)
Lemma written_later {A B : Type} (m : traced A) (k : A -> traced B) path log :
  writes_no_log m ->
  In (call_write_log path log) (traced_bind m k).1 ->
  exists a, m.2 = Ok a /\ In (call_write_log path log) (k a).1.
Proof.
  intros Hm H. apply in_traced_bind in H.
  destruct H as [H|H]; [destruct (Hm _ _ H) | exact H].
Qed.

Ltac no_log :=
  repeat first
    [ apply no_log_nil
    | apply no_log_calling; discriminate
    | apply no_log_apr_status; discriminate
    | apply no_log_bind; [|intros ?]
    | match goal with
      | |- writes_no_log (if ?b then _ else _) => destruct b
      | |- writes_no_log (match ?x with _ => _ end) => destruct x
      | |- writes_no_log (let _ := _ in _) => cbv zeta
      end ].

Section log.

Context {PL : SvnPath} {W : WcWorld}.

Lemma merge_with_patch_no_log entry_accum file_path parent_dir basename
    eol_style eol_str keywords :
  writes_no_log
    (merge_with_patch entry_accum file_path parent_dir basename eol_style
       eol_str keywords).
Proof. unfold merge_with_patch. no_log. Qed.

Lemma install_text_no_log entry_accum file_path parent_dir basename
    new_text_path new_URL entry_props regular_props prop_conflicts :
  writes_no_log
    (install_text entry_accum file_path parent_dir basename new_text_path
       new_URL entry_props regular_props prop_conflicts).
Proof.
  unfold install_text. no_log; apply merge_with_patch_no_log.
Qed.

(** What the textual merge returns for [is_locally_modified] is the
    answer of [svn_wc_text_modified_p]. *)
Lemma install_text_modified entry_accum file_path parent_dir basename
    new_text_path new_URL entry_props regular_props prop_conflicts log m :
  (install_text entry_accum file_path parent_dir basename new_text_path
     new_URL entry_props regular_props prop_conflicts).2 = Ok (log, m) ->
  svn_wc_text_modified_p file_path = Ok m.
Proof.
  unfold install_text. intros H.
  apply traced_bind_ok_inv in H. destruct H as (has_binary & _ & H).
  apply traced_bind_ok_inv in H. destruct H as (modified & Hm & H).
  simpl in Hm. rewrite Hm. f_equal.
  repeat (apply traced_bind_ok_inv in H;
          let a := fresh "a" in
          destruct H as (a & _ & H);
          match type of a with
          | (_ * _)%type => destruct a
          | _ => idtac
          end).
  simpl in H. congruence.
Qed.

Lemma wcprops_no_log (file_path : string) (wc_props : list svn_prop_t) :
  forall done : traced unit,
    writes_no_log done ->
    writes_no_log
      (fold_left
         (fun (done : traced unit) (prop : svn_prop_t) =>
            let+ _ := done in
            calling
              (call_wcprop_set (prop_name prop) (prop_value prop) file_path)
              (svn_wc__wcprop_set (prop_name prop) (prop_value prop)
                 file_path))
         wc_props done).
Proof.
  induction wc_props as [|prop wc_props IH]; intros done Hdone; simpl.
  - exact Hdone.
  - apply IH. no_log. exact Hdone.
Qed.

End log.

Section facts.

Context {PL : SvnPath} {W : WcWorld}.

(** Whether the batons of NAME below PARENT are made. *)
Lemma make_dir_baton_child (name : string) (eb : edit_baton)
    (parent : dir_baton) (added : bool) :
  if baton_lacks_url eb parent name
  then make_dir_baton (Some name) eb (Some parent) added = Abort
  else
    exists d,
      make_dir_baton (Some name) eb (Some parent) added
      = Ok (d, Some (incr_ref_count parent))
      /\ db_path d = svn_path_add_component (db_path parent) name.
Proof.
  unfold baton_lacks_url, make_dir_baton, disjoint_from_parent.
  destruct (db_URL parent) as [url|]; simpl.
  2:{ destruct (eb_is_checkout eb); reflexivity. }
  destruct (eb_is_checkout eb); simpl; [eauto|].
  destruct (db_disjoint_url parent); simpl; [eauto|].
  destruct (url_from_entries _); simpl; eauto.
Qed.

Lemma make_file_baton_child (name : string) (parent : dir_baton) :
  if baton_lacks_url (db_edit_baton parent) parent name
  then make_file_baton parent name = Abort
  else
    exists fb,
      make_file_baton parent name = Ok (fb, incr_ref_count parent)
      /\ fb_path fb = svn_path_add_component (db_path parent) name
      /\ fb_name fb = name.
Proof.
  unfold baton_lacks_url, make_file_baton, disjoint_from_parent.
  destruct (db_URL parent) as [url|]; simpl.
  2:{ destruct (eb_is_checkout _); reflexivity. }
  destruct (eb_is_checkout _); simpl; [eauto|].
  destruct (db_disjoint_url parent); simpl; [eauto|].
  destruct (url_from_entries _); simpl; eauto.
Qed.

(** C6 (as amended).  [add_directory] ends the process when the copyfrom
    pair is half given or the baton of the new directory cannot be made
    for want of a URL.  Otherwise: if the disk has something at the path
    of the new directory, it fails with [SVN_ERR_WC_OBSTRUCTED_UPDATE];
    if the disk has nothing there, then with a copyfrom pair it fails
    with [SVN_ERR_UNSUPPORTED_FEATURE], and without one it prepares the
    directory with the URL of the parent's entry plus NAME, at the target
    revision of the edit, and returns the baton, unless the parent has no
    entry or an entry without URL, which ends the process.  An error of
    the look at the disk or of the reading of the parent's entry is
    returned as it is. *)
Theorem add_directory_outcomes (name : string) (parent_dir_baton : dir_baton)
    (copyfrom_path : option string) (copyfrom_revision : Z) :
  let path := svn_path_add_component (db_path parent_dir_baton) name in
  let lacks_url :=
    baton_lacks_url (db_edit_baton parent_dir_baton) parent_dir_baton name in
  let outcome :=
    add_directory name parent_dir_baton copyfrom_path copyfrom_revision in
  (lacks_url = true \/ half_specified copyfrom_path copyfrom_revision = true ->
   outcome = ([], Abort))
  /\ (lacks_url = false ->
      half_specified copyfrom_path copyfrom_revision = false ->
      (forall kind,
         svn_io_check_path path = Ok kind -> kind <> svn_node_none ->
         outcome = ([], Err SVN_ERR_WC_OBSTRUCTED_UPDATE))
      /\ (forall e, svn_io_check_path path = Err e -> outcome = ([], Err e))
      /\ (svn_io_check_path path = Abort -> outcome = ([], Abort))
      /\ (svn_io_check_path path = Ok svn_node_none ->
          (forall from,
             copyfrom_path = Some from ->
             outcome = ([], Err SVN_ERR_UNSUPPORTED_FEATURE))
          /\ (copyfrom_path = None ->
              (forall parent_entry url,
                 svn_wc_entry (db_path parent_dir_baton)
                 = Ok (Some parent_entry) ->
                 entry_url parent_entry = Some url ->
                 exists this_dir_baton,
                   make_dir_baton (Some name) (db_edit_baton parent_dir_baton)
                     (Some parent_dir_baton) true
                   = Ok (this_dir_baton,
                         Some (incr_ref_count parent_dir_baton))
                   /\ db_path this_dir_baton = path
                   /\ outcome
                      = let+ _ :=
                          prep_directory path
                            (svn_path_add_component url name)
                            (eb_target_revision
                               (db_edit_baton parent_dir_baton))
                            true in
                        traced_ret (this_dir_baton,
                                    incr_ref_count parent_dir_baton))
              /\ (svn_wc_entry (db_path parent_dir_baton) = Ok None
                  \/ (exists parent_entry,
                        svn_wc_entry (db_path parent_dir_baton)
                        = Ok (Some parent_entry)
                        /\ entry_url parent_entry = None) ->
                  outcome = ([], Abort))
              /\ (forall e,
                    svn_wc_entry (db_path parent_dir_baton) = Err e ->
                    outcome = ([], Err e))
              /\ (svn_wc_entry (db_path parent_dir_baton) = Abort ->
                  outcome = ([], Abort))))).
Proof.
  intros path lacks_url outcome.
  pose proof (make_dir_baton_child name (db_edit_baton parent_dir_baton)
                parent_dir_baton true) as Hbaton.
  fold lacks_url in Hbaton. subst path.
  assert (Hguard :
    (match copyfrom_path with Some _ => true | None => false end
     && negb (SVN_IS_VALID_REVNUM copyfrom_revision)
     || negb match copyfrom_path with Some _ => true | None => false end
        && SVN_IS_VALID_REVNUM copyfrom_revision)
    = half_specified copyfrom_path copyfrom_revision).
  { unfold half_specified. destruct copyfrom_path; simpl;
      [rewrite orb_false_r|]; reflexivity. }
  split.
  - intros Habort. subst outcome. unfold add_directory.
    destruct lacks_url.
    + rewrite Hbaton. reflexivity.
    + destruct Hbaton as (this & -> & _).
      destruct Habort as [Habort|Habort]; [discriminate Habort|].
      unfold traced_bind, reading. simpl. rewrite Hguard, Habort.
      reflexivity.
  - intros Hlacks Hhalf. rewrite Hlacks in Hbaton.
    destruct Hbaton as (this & Hmake & Hpath).
    assert (Hrun :
      outcome
      = let+ kind := reading
              (svn_io_check_path
                 (svn_path_add_component (db_path parent_dir_baton) name)) in
        if bool_decide (kind <> svn_node_none)
        then ([], Err SVN_ERR_WC_OBSTRUCTED_UPDATE)
        else if match copyfrom_path with Some _ => true | None => false end
                || SVN_IS_VALID_REVNUM copyfrom_revision
        then ([], Err SVN_ERR_UNSUPPORTED_FEATURE)
        else
          let+ parent_entry :=
            reading (svn_wc_entry (db_path parent_dir_baton)) in
          match parent_entry with
          | Some {| entry_url := Some url |} =>
              let+ _ :=
                prep_directory
                  (svn_path_add_component (db_path parent_dir_baton) name)
                  (svn_path_add_component url name)
                  (eb_target_revision (db_edit_baton parent_dir_baton))
                  true in
              traced_ret (this, incr_ref_count parent_dir_baton)
          | _ => ([], Abort)
          end).
    { subst outcome. unfold add_directory. rewrite Hmake.
      unfold traced_bind at 1, reading at 1. simpl.
      rewrite Hguard, Hhalf, Hpath.
      match goal with
      | |- (?t.1, ?t.2) = _ => destruct t; reflexivity
      end. }
    rewrite Hrun. clear Hrun. unfold traced_bind at 1 2 3 4, reading.
    split; [|split; [|split]].
    + intros kind -> Hkind. simpl.
      rewrite bool_decide_eq_true_2 by exact Hkind. reflexivity.
    + intros e ->. reflexivity.
    + intros ->. reflexivity.
    + intros ->. simpl. split; [intros from ->; reflexivity|].
      intros ->. simpl. unfold half_specified in Hhalf. rewrite Hhalf.
      simpl. unfold traced_bind at 1 2 3 4. simpl.
      split; [|split; [|split]].
      * intros parent_entry url -> Hurl. exists this.
        split; [exact Hmake|]. split; [exact Hpath|].
        destruct parent_entry; simpl in *. rewrite Hurl.
        match goal with
        | |- (?t.1, ?t.2) = _ => destruct t; reflexivity
        end.
      * intros [->|(parent_entry & -> & Hurl)]; [reflexivity|].
        destruct parent_entry; simpl in *. rewrite Hurl. reflexivity.
      * intros e ->. reflexivity.
      * intros ->. reflexivity.
Qed.

(** C9.  [change_dir_prop] with a NULL value for an entry-prop makes one
    change to the working copy: it has [svn_wc__entry_modify] store, in the
    directory's own record, the attribute named by the property without
    its prefix, with the empty string for its value.  Whatever the entries
    of the directory were, the record then has that attribute, and its
    value is the empty string. *)
Theorem change_dir_prop_null_entry_prop (db : dir_baton) (name : string) :
  svn_wc_is_entry_prop name = true ->
  exists args,
    change_dir_prop db name None
    = ([call_entry_modify args],
       let* _ := svn_wc__entry_modify args in Ok db)
    /\ em_path args = db_path db
    /\ em_name args = None
    /\ em_modify_flags args = SVN_WC__ENTRY_MODIFY_ATTRIBUTES
    /\ em_attributes args
       = Some {[ svn_wc__strip_entry_prefix name := "" ]}
    /\ forall entries,
         exists e,
           apply_entry_modify args entries !! SVN_WC_ENTRY_THIS_DIR = Some e
           /\ entry_attributes e !! svn_wc__strip_entry_prefix name = Some "".
Proof.
  intros Hentry. unfold change_dir_prop.
  rewrite (entry_prop_not_wc_prop name Hentry), Hentry.
  match goal with
  | |- context [call_entry_modify ?a] => exists a
  end.
  split.
  { unfold traced_bind, calling, traced_ret. simpl.
    destruct (svn_wc__entry_modify _) as [[]| |]; reflexivity. }
  simpl. repeat split.
  intros entries. unfold apply_entry_modify. simpl.
  eexists. rewrite lookup_insert_eq. split; [reflexivity|]. simpl.
  apply lookup_union_Some_l. apply lookup_insert_eq.
Qed.

(** C10 (as amended).  When the file baton cannot be made for want of a
    URL, [open_file] and [add_file] end the process.  Otherwise, once the
    listing of the parent directory and its entries have been read:
    [open_file] on a name without a record in the entries fails with
    [SVN_ERR_ENTRY_NOT_FOUND]; [add_file] on a name that has a record but
    is not on disk succeeds, with the baton made, when the parent passes
    the working-copy check; and [add_file] fails with
    [SVN_ERR_WC_OBSTRUCTED_UPDATE] exactly when something of that name is
    on disk in the parent directory, or the working-copy check says that
    the parent is not a working copy, or fails with that error itself. *)
Theorem add_or_open_file_outcomes (name : string)
    (parent_dir_baton : dir_baton)
    (dirents : gmap string svn_node_kind)
    (entries : gmap string svn_wc_entry_t) :
  let lacks_url :=
    baton_lacks_url (db_edit_baton parent_dir_baton) parent_dir_baton name in
  (lacks_url = true ->
   forall copyfrom_path copyfrom_revision base_revision,
     add_file name parent_dir_baton copyfrom_path copyfrom_revision = Abort
     /\ open_file name parent_dir_baton base_revision = Abort)
  /\ (lacks_url = false ->
      svn_io_get_dirents (db_path parent_dir_baton) = Ok dirents ->
      svn_wc_entries_read (db_path parent_dir_baton) = Ok entries ->
      exists fb,
        make_file_baton parent_dir_baton name
        = Ok (fb, incr_ref_count parent_dir_baton)
        /\ fb_path fb = svn_path_add_component (db_path parent_dir_baton) name
        /\ (entries !! name = None ->
            forall base_revision,
              open_file name parent_dir_baton base_revision
              = Err SVN_ERR_ENTRY_NOT_FOUND)
        /\ (forall copyfrom_path copyfrom_revision,
              is_Some (entries !! name) ->
              dirents !! name = None ->
              svn_wc_check_wc (db_path parent_dir_baton) = Ok true ->
              add_file name parent_dir_baton copyfrom_path copyfrom_revision
              = Ok (fb, incr_ref_count parent_dir_baton))
        /\ (forall copyfrom_path copyfrom_revision,
              add_file name parent_dir_baton copyfrom_path copyfrom_revision
              = Err SVN_ERR_WC_OBSTRUCTED_UPDATE
              <-> is_Some (dirents !! name)
                  \/ svn_wc_check_wc (db_path parent_dir_baton) = Ok false
                  \/ svn_wc_check_wc (db_path parent_dir_baton)
                     = Err SVN_ERR_WC_OBSTRUCTED_UPDATE)).
Proof.
  intros lacks_url.
  pose proof (make_file_baton_child name parent_dir_baton) as Hbaton.
  fold lacks_url in Hbaton.
  split.
  - intros Hlacks copyfrom_path copyfrom_revision base_revision.
    rewrite Hlacks in Hbaton.
    unfold add_file, open_file, add_or_open_file. rewrite Hbaton.
    split; reflexivity.
  - intros Hlacks Hdirents Hentries. rewrite Hlacks in Hbaton.
    destruct Hbaton as (fb & Hfb & Hpath & _).
    exists fb. split; [exact Hfb|]. split; [exact Hpath|].
    split; [|split].
    + intros Hnone base_revision. unfold open_file, add_or_open_file.
      rewrite Hfb. simpl. rewrite Hdirents. simpl. rewrite Hentries. simpl.
      rewrite Hnone. reflexivity.
    + intros copyfrom_path copyfrom_revision _ Hdisk Hwc.
      unfold add_file, add_or_open_file.
      rewrite Hfb. simpl. rewrite Hdirents. simpl. rewrite Hentries. simpl.
      rewrite Hdisk. simpl. rewrite Hwc. reflexivity.
    + intros copyfrom_path copyfrom_revision.
      unfold add_file, add_or_open_file.
      rewrite Hfb. simpl. rewrite Hdirents. simpl. rewrite Hentries. simpl.
      destruct (dirents !! name) as [k|]; simpl.
      * split; [intros _; left; eauto | reflexivity].
      * destruct (svn_wc_check_wc (db_path parent_dir_baton))
          as [[]|e|]; simpl.
        -- split; [discriminate|].
           intros [[k Hk]|[Hf|Hf]]; discriminate.
        -- split; [intros _; right; left; reflexivity | reflexivity].
        -- split.
           ++ intros [= ->]. right. right. reflexivity.
           ++ intros [[k Hk]|[Hf|Hf]]; [discriminate Hk|discriminate Hf|].
              injection Hf as ->. reflexivity.
        -- split; [discriminate|].
           intros [[k Hk]|[Hf|Hf]]; discriminate.
Qed.

End facts.

Section install_log.

Context {PL : SvnPath} {W : WcWorld}.

Lemma appends_only_refl (P : log_command -> Prop) (acc : list log_command) :
  appends_only P acc acc.
Proof. exists []. split; [symmetry; apply app_nil_r|constructor]. Qed.

Lemma appends_only_trans (P : log_command -> Prop)
    (acc log log' : list log_command) :
  appends_only P acc log -> appends_only P log log' ->
  appends_only P acc log'.
Proof.
  intros (a1 & -> & H1) (a2 & -> & H2). exists (a1 ++ a2)%list.
  split; [symmetry; apply app_assoc|apply Forall_app; auto].
Qed.

Lemma appends_only_tag (P : log_command -> Prop) (acc : list log_command)
    (tag : log_tag) (attrs : list (string * string)) :
  P (mk_log_command tag (ap_to_hash attrs)) ->
  appends_only P acc (svn_xml_make_open_tag acc tag attrs).
Proof.
  intros H. eexists [_]. split; [reflexivity|repeat constructor; exact H].
Qed.

Lemma appends_only_translation (acc : list log_command) (tag : log_tag)
    name dest eol_str repair keywords expand :
  tag <> SVN_WC__LOG_MODIFY_ENTRY ->
  appends_only not_modify_entry acc
    (make_translation_open_tag acc tag name dest eol_str repair keywords
       expand).
Proof.
  intros H. unfold make_translation_open_tag, svn_xml_make_open_tag_hash.
  eexists [_]. split; [reflexivity|repeat constructor; exact H].
Qed.

Lemma appends_only_patch (acc : list log_command)
    (path reject_file patch_file : string) :
  appends_only not_modify_entry acc
    (make_patch_open_tag acc path reject_file patch_file).
Proof.
  unfold make_patch_open_tag. destruct (svn_path_split path) as [dir bname].
  apply appends_only_tag. discriminate.
Qed.

Ltac appends_only :=
  repeat first
    [ apply appends_only_refl
    | apply appends_only_patch
    | apply appends_only_translation; discriminate
    | eapply appends_only_trans;
        [|apply appends_only_tag; discriminate]
    | eapply appends_only_trans;
        [|apply appends_only_translation; discriminate]
    | eapply appends_only_trans; [|apply appends_only_patch] ].

(** The block that merges with [patch] appends to the log, and no
    [MODIFY_ENTRY]. *)
Lemma merge_with_patch_appends entry_accum file_path parent_dir basename
    eol_style eol_str keywords log :
  (merge_with_patch entry_accum file_path parent_dir basename eol_style
     eol_str keywords).2 = Ok log ->
  appends_only not_modify_entry entry_accum log.
Proof.
  unfold merge_with_patch. intros H.
  do 8 (apply traced_bind_ok_inv in H;
        let a := fresh "a" in destruct H as (a & _ & H)).
  apply traced_bind_ok_inv in H. destruct H as (accum & Haccum & H).
  simpl in H. injection H as <-.
  eapply appends_only_trans with (log := accum); [|appends_only].
  destruct (bool_decide (eol_style = svn_wc__eol_style_none) && _).
  - simpl in Haccum. injection Haccum as <-. appends_only.
  - apply traced_bind_ok_inv in Haccum.
    destruct Haccum as (tmp_working & _ & Haccum).
    simpl in Haccum. injection Haccum as <-. appends_only.
Qed.

(** So does the whole textual merge. *)
Lemma install_text_appends entry_accum file_path parent_dir basename
    new_text_path new_URL entry_props regular_props prop_conflicts log m :
  (install_text entry_accum file_path parent_dir basename new_text_path
     new_URL entry_props regular_props prop_conflicts).2 = Ok (log, m) ->
  appends_only not_modify_entry entry_accum log.
Proof.
  unfold install_text. intros H.
  apply traced_bind_ok_inv in H. destruct H as (has_binary & _ & H).
  apply traced_bind_ok_inv in H. destruct H as (modified & _ & H).
  apply traced_bind_ok_inv in H. destruct H as (fresh_eol & _ & H).
  apply traced_bind_ok_inv in H. destruct H as ([eol_style eol_str] & _ & H).
  apply traced_bind_ok_inv in H. destruct H as (fresh_kw & _ & H).
  apply traced_bind_ok_inv in H. destruct H as (kw0 & _ & H).
  apply traced_bind_ok_inv in H. destruct H as (keywords & _ & H).
  apply traced_bind_ok_inv in H. destruct H as ([] & _ & H).
  apply traced_bind_ok_inv in H. destruct H as (accum & Haccum & H).
  simpl in H. injection H as <- _.
  eapply appends_only_trans with (log := accum); [|appends_only].
  destruct (negb modified).
  { simpl in Haccum. injection Haccum as <-. appends_only. }
  destruct (negb has_binary).
  - apply traced_bind_ok_inv in Haccum.
    destruct Haccum as (wfile_kind & _ & Haccum).
    destruct (bool_decide (wfile_kind = svn_node_none)).
    + simpl in Haccum. injection Haccum as <-. appends_only.
    + eapply appends_only_trans;
        [|exact (merge_with_patch_appends _ _ _ _ _ _ _ _ Haccum)].
      appends_only.
  - apply traced_bind_ok_inv in Haccum.
    destruct Haccum as (renamed_path & _ & Haccum).
    apply traced_bind_ok_inv in Haccum.
    destruct Haccum as ([] & _ & Haccum).
    simpl in Haccum. injection Haccum as <-. appends_only.
Qed.

(** The loop over the entry properties appends one command for each. *)
Lemma entry_props_appended (basename : string) (entry_props : list svn_prop_t) :
  forall entry_accum : list log_command,
    fold_left
      (fun entry_accum (prop : svn_prop_t) =>
         let prefix_len := (svn_property_kind (prop_name prop)).2 in
         let propval :=
           match prop_value prop with
           | Some value => value
           | None => ""
           end in
         svn_xml_make_open_tag entry_accum SVN_WC__LOG_MODIFY_ENTRY
           [ (SVN_WC__LOG_ATTR_NAME, basename);
             (drop_chars prefix_len (prop_name prop), propval) ])
      entry_props entry_accum
    = (entry_accum ++ map (entry_prop_command basename) entry_props)%list.
Proof.
  induction entry_props as [|prop entry_props IH]; intros entry_accum; simpl.
  - symmetry. apply app_nil_r.
  - rewrite IH. unfold svn_xml_make_open_tag. rewrite <- app_assoc.
    reflexivity.
Qed.

(** What [write_log] writes, and where. *)
Lemma write_log_written (path dir : string) (log log' : list log_command) :
  In (call_write_log dir log') (write_log path log).1 ->
  dir = path /\ log' = log.
Proof.
  unfold write_log. destruct (bool_decide _); simpl.
  - intros [H|[]]. injection H as <- <-. auto.
  - intros [H|[H|[]]]; [|discriminate H]. injection H as <- <-. auto.
Qed.

(** C2 (as amended).  Whenever [svn_wc_install_file] writes its log, the
    log is made of, in this order: what the merge of the regular
    properties has logged (nothing without PROPS); one [MODIFY_ENTRY] for
    each entry property of PROPS, which sets the field named by the
    property past its prefix to the value of the property; the commands
    of the textual merge, none of them a [MODIFY_ENTRY] (none at all
    without NEW_TEXT_PATH); the [MODIFY_ENTRY] that sets the kind of the
    file's entry to "file" and its revision to NEW_REVISION; the
    [MODIFY_ENTRY] that sets the text time to the working file's, there
    exactly when NEW_TEXT_PATH is given and the working file is not
    locally modified; and a rest that holds no such command.  So the log
    always holds the command that sets kind and revision; and it holds
    the command that sets the text time, whatever the state of the
    working file, when PROPS has an entry property [text_time] with the
    value [WC]. *)
Theorem install_file_log (file_path : string) (new_revision : Z)
    (new_text_path : option string) (props : option (list svn_prop_t))
    (is_full_proplist : bool) (new_URL : option string)
    (dir : string) (log : list log_command) :
  In (call_write_log dir log)
    (svn_wc_install_file file_path new_revision new_text_path props
       is_full_proplist new_URL).1 ->
  let basename := (svn_path_split file_path).2 in
  let entry_props :=
    match props with
    | Some props => (svn_categorize_props props).1.1
    | None => []
    end in
  In (revision_command basename new_revision) log
  /\ (forall prop,
        In prop entry_props ->
        drop_chars (svn_property_kind (prop_name prop)).2 (prop_name prop)
        = SVN_WC_ENTRY_ATTR_TEXT_TIME ->
        prop_value prop = Some SVN_WC_TIMESTAMP_WC ->
        In (text_time_command basename) log)
  /\ exists merged text text_time rest,
       log = (merged ++ map (entry_prop_command basename) entry_props
                ++ text
                ++ revision_command basename new_revision
                :: text_time ++ rest)%list
       /\ match props with
          | Some _ =>
              exists propchanges conflicts,
                svn_wc__merge_prop_diffs dir (Some basename) propchanges
                = Ok (merged, conflicts)
          | None => merged = []
          end
       /\ Forall not_modify_entry text
       /\ (forall c, In c rest -> c <> text_time_command basename)
       /\ match new_text_path with
          | Some _ =>
              exists modified,
                svn_wc_text_modified_p file_path = Ok modified
                /\ text_time
                   = if modified then [] else [text_time_command basename]
          | None => text = [] /\ text_time = []
          end.
Proof.
  intros Hin basename entry_props.
  match goal with
  | |- _ /\ _ /\ ?S => assert (Hstr : S)
  end.
  2:{ split; [|split; [|exact Hstr]];
        destruct Hstr as (mg & tx & tt' & r & -> & _).
      - apply in_or_app. right. apply in_or_app. right.
        apply in_or_app. right. left. reflexivity.
      - intros prop Hprop Hname Hvalue.
        apply in_or_app. right. apply in_or_app. left.
        replace (text_time_command basename)
          with (entry_prop_command basename prop);
          [apply in_map; exact Hprop|].
        unfold entry_prop_command, text_time_command.
        rewrite Hname, Hvalue. reflexivity. }
  unfold svn_wc_install_file in Hin. fold basename in Hin.
  (* splitting the path, locking, opening the log *)
  apply written_later in Hin; [|no_log].
  destruct Hin as (parent_dir & _ & Hin).
  apply written_later in Hin; [|no_log]. destruct Hin as ([] & _ & Hin).
  apply written_later in Hin; [|no_log]. destruct Hin as ([] & _ & Hin).
  (* the regular props *)
  apply written_later in Hin; [|no_log].
  destruct Hin as ([accum1 prop_conflicts] & Hmerge & Hin).
  (* the entry props and the textual merge *)
  match type of Hin with
  | context [install_text ?acc _ _ _ _ _ _ _ _] => set (accum2 := acc) in Hin
  | _ => idtac
  end.
  apply written_later in Hin;
    [|no_log; apply install_text_no_log].
  destruct Hin as ([accum3 is_locally_modified] & Htext & Hin).
  (* the property time stamp *)
  apply written_later in Hin; [|no_log].
  destruct Hin as (accum4 & Hprop & Hin).
  (* the write itself *)
  apply in_traced_bind in Hin. destruct Hin as [Hin|(u & _ & Hin)].
  2:{ exfalso. revert Hin.
      match goal with
      | |- In _ (?t).1 -> False => assert (Hno : writes_no_log t)
      end.
      { no_log. apply wcprops_no_log. no_log. }
      apply Hno. }
  apply write_log_written in Hin. destruct Hin as [-> ->].
  (* what the merge of the properties has logged *)
  assert (Hmerged :
    match props with
    | Some _ =>
        exists propchanges conflicts,
          svn_wc__merge_prop_diffs parent_dir (Some basename) propchanges
          = Ok (accum1, conflicts)
    | None => accum1 = []
    end).
  { destruct props as [props|].
    - apply traced_bind_ok_inv in Hmerge.
      destruct Hmerge as (propchanges & _ & Hmerge).
      apply traced_bind_ok_inv in Hmerge.
      destruct Hmerge as ([commands conflicts] & Hcall & Hmerge).
      simpl in Hcall, Hmerge. injection Hmerge as <- _.
      exists propchanges, conflicts. exact Hcall.
    - simpl in Hmerge. injection Hmerge as <- _. reflexivity. }
  (* what the entry props have added *)
  assert (Haccum2 :
    accum2 = (accum1 ++ map (entry_prop_command basename) entry_props)%list).
  { subst accum2 entry_props. destruct props as [props|].
    - apply entry_props_appended.
    - symmetry. apply app_nil_r. }
  (* the textual merge and the text time stamp *)
  assert (Htime :
    exists text,
      accum3 = (accum2 ++ text)%list
      /\ Forall not_modify_entry text
      /\ match new_text_path with
         | Some _ =>
             exists modified,
               svn_wc_text_modified_p file_path = Ok modified
               /\ is_locally_modified = Some modified
         | None => text = [] /\ is_locally_modified = None
         end).
  { destruct new_text_path as [new_text_path|].
    - apply traced_bind_ok_inv in Htext.
      destruct Htext as ([accum m] & Hm & Htext).
      simpl in Htext. injection Htext as <- <-.
      destruct (install_text_appends _ _ _ _ _ _ _ _ _ _ _ Hm)
        as (text & -> & Hall).
      apply install_text_modified in Hm.
      exists text. split; [reflexivity|]. split; [exact Hall|]. eauto.
    - simpl in Htext. injection Htext as <- <-. exists [].
      split; [symmetry; apply app_nil_r|]. split; [constructor|]. auto. }
  destruct Htime as (text & -> & Hall & Htime).
  set (accum_rev :=
         svn_xml_make_open_tag (accum2 ++ text) SVN_WC__LOG_MODIFY_ENTRY
           [ (SVN_WC__LOG_ATTR_NAME, basename);
             (SVN_WC_ENTRY_ATTR_KIND, SVN_WC__ENTRIES_ATTR_FILE_STR);
             (SVN_WC_ENTRY_ATTR_REVISION, pretty new_revision) ]) in *.
  (* what the property time stamp adds *)
  assert (Hprop' : exists prop_time,
            (forall c, In c prop_time -> c <> text_time_command basename)
            /\ accum4
               = (match new_text_path, is_locally_modified with
                  | Some _, Some false =>
                      svn_xml_make_open_tag accum_rev SVN_WC__LOG_MODIFY_ENTRY
                        [ (SVN_WC__LOG_ATTR_NAME, basename);
                          (SVN_WC_ENTRY_ATTR_TEXT_TIME, SVN_WC_TIMESTAMP_WC) ]
                  | _, _ => accum_rev
                  end ++ prop_time)%list).
  { destruct props as [props|].
    - apply traced_bind_ok_inv in Hprop.
      destruct Hprop as (prop_modified & _ & Hprop). simpl in Hprop.
      injection Hprop as <-. destruct prop_modified; simpl.
      + exists []. split; [intros c []|]. rewrite app_nil_r. reflexivity.
      + eexists [_]. split; [|reflexivity].
        intros c [<-|[]] Heq.
        apply (f_equal (fun c => log_attributes c
                                   !! SVN_WC_ENTRY_ATTR_TEXT_TIME)) in Heq.
        vm_compute in Heq. discriminate Heq.
    - simpl in Hprop. injection Hprop as <-. exists [].
      split; [intros c []|]. rewrite app_nil_r. reflexivity. }
  destruct Hprop' as (prop_time & Hpt & ->).
  (* what the URL adds *)
  set (url_part :=
         match new_URL with
         | Some new_URL =>
             [mk_log_command SVN_WC__LOG_MODIFY_ENTRY
                (ap_to_hash [ (SVN_WC__LOG_ATTR_NAME, basename);
                              (SVN_WC_ENTRY_ATTR_URL, new_URL) ])]
         | None => []
         end).
  assert (Hurl : forall c, In c url_part -> c <> text_time_command basename).
  { subst url_part. destruct new_URL as [new_URL|]; intros c Hc; [|destruct Hc].
    destruct Hc as [<-|[]]. intros Heq.
    apply (f_equal (fun c => log_attributes c
                               !! SVN_WC_ENTRY_ATTR_TEXT_TIME)) in Heq.
    vm_compute in Heq. discriminate Heq. }
  exists accum1, text,
    (match new_text_path, is_locally_modified with
     | Some _, Some false => [text_time_command basename]
     | _, _ => []
     end),
    (prop_time ++ url_part)%list.
  split; [|split; [|split; [|split]]].
  - subst accum_rev url_part. rewrite Haccum2.
    unfold svn_xml_make_open_tag, revision_command, text_time_command.
    destruct new_URL, new_text_path, is_locally_modified as [[]|];
      simpl; rewrite <- ?app_assoc; simpl; rewrite ?app_nil_r; reflexivity.
  - exact Hmerged.
  - exact Hall.
  - intros c Hc. apply in_app_or in Hc. destruct Hc; eauto.
  - destruct new_text_path.
    + destruct Htime as (modified & Hm & ->). exists modified.
      split; [exact Hm|]. destruct modified; reflexivity.
    + destruct Htime as [-> _]. split; reflexivity.
Qed.

End install_log.

(** *** The properties on the example working copy *)

(** *** Batons, logs and locks *)

Section baton_facts.

Context {PL : SvnPath} {W : WcWorld}.

Lemma decr_incr_ref_count (d : dir_baton) :
  decr_ref_count (incr_ref_count d) = d.
Proof.
  destruct d. unfold decr_ref_count, incr_ref_count. simpl.
  f_equal. lia.
Qed.

Lemma decrement_ref_count_alive (d : dir_baton) :
  db_ref_count d <> 1 ->
  decrement_ref_count d = ([], Ok (Some (decr_ref_count d))).
Proof.
  intros H. destruct d. simpl in *.
  rewrite bool_decide_eq_false_2 by lia. reflexivity.
Qed.

Lemma decrement_ref_count_free (d : dir_baton) :
  db_ref_count d = 1 ->
  decrement_ref_count d = free_dir_baton (decr_ref_count d).
Proof.
  intros H. destruct d. simpl in *.
  rewrite bool_decide_eq_true_2 by lia. reflexivity.
Qed.

Lemma make_dir_baton_inv name eb parent added d parent' :
  make_dir_baton (Some name) eb (Some parent) added = Ok (d, parent') ->
  parent' = Some (incr_ref_count parent)
  /\ db_path d = svn_path_add_component (db_path parent) name
  /\ db_name d = Some name
  /\ db_ref_count d = 1
  /\ db_edit_baton d = eb
  /\ db_parent_baton d = Some (incr_ref_count parent)
  /\ db_prop_changed d = false
  /\ db_added d = added
  /\ db_propchanges d = [].
Proof.
  unfold make_dir_baton. intros H.
  bind_inv H as [URL disjoint] Hurl.
  injection H as <- <-. repeat split.
Qed.


Lemma close_fresh_directory (d parent : dir_baton) :
  db_ref_count d = 1 ->
  db_prop_changed d = false ->
  db_parent_baton d = Some (incr_ref_count parent) ->
  db_ref_count parent <> 0 ->
  close_directory d
  = let+ _ :=
      calling (call_entry_modify (bump_revision_args d))
        (svn_wc__entry_modify (bump_revision_args d)) in
    let+ _ :=
      if db_added d
      then
        calling
          (call_entry_modify (add_to_parent_args (incr_ref_count parent) d))
          (svn_wc__entry_modify
             (add_to_parent_args (incr_ref_count parent) d))
      else traced_ret tt in
    traced_ret (Some parent).
Proof.
  intros Hcount Hprop Hparent Hpcount.
  unfold close_directory. rewrite Hprop.
  rewrite (decrement_ref_count_free d Hcount).
  unfold free_dir_baton, free_dir_baton_then.
  replace (db_parent_baton (decr_ref_count d))
    with (Some (incr_ref_count parent)) by (rewrite <- Hparent; reflexivity).
  rewrite decrement_ref_count_alive by (simpl; lia).
  rewrite decr_incr_ref_count.
  rewrite orb_true_r.
  replace (bump_revision_args (decr_ref_count d)) with (bump_revision_args d)
    by reflexivity.
  replace (add_to_parent_args (incr_ref_count parent) (decr_ref_count d))
    with (add_to_parent_args (incr_ref_count parent) d) by reflexivity.
  replace (db_added (decr_ref_count d)) with (db_added d) by reflexivity.
  unfold traced_bind, traced_ret, calling; simpl.
  destruct (svn_wc__entry_modify (bump_revision_args d)) as [[]|e|];
    simpl; reflexivity.
Qed.

(** X13.  Opening a subdirectory and closing it again, with nothing done
    in between, gives the parent baton back as it was (its reference
    count goes up by one and down by one) and makes one call: the
    subdirectory, at the parent's path plus its name, is bumped to the
    target revision of the edit. *)
Theorem open_then_close_directory (name : string) (P child : dir_baton)
    (base_revision : Z) (parent' : option dir_baton) :
  open_directory name P base_revision = Ok (child, parent') ->
  db_ref_count P <> 0 ->
  parent' = Some (incr_ref_count P)
  /\ close_directory child
     = ([call_entry_modify (bump_revision_args child)],
        let* _ := svn_wc__entry_modify (bump_revision_args child) in
        Ok (Some P))
  /\ em_path (bump_revision_args child)
     = svn_path_add_component (db_path P) name
  /\ em_revision (bump_revision_args child)
     = eb_target_revision (db_edit_baton P).
Proof.
  unfold open_directory. intros Hopen Hcount.
  destruct (make_dir_baton_inv _ _ _ _ _ _ Hopen)
    as (-> & Hpath & _ & Hc & Heb & Hparent & Hprop & Hadded & _).
  split; [reflexivity|]. split.
  - rewrite (close_fresh_directory child P Hc Hprop Hparent Hcount).
    rewrite Hadded. unfold traced_bind, traced_ret, calling. simpl.
    destruct (svn_wc__entry_modify (bump_revision_args child)) as [[]|e|];
      reflexivity.
  - unfold bump_revision_args. simpl. rewrite Hpath, Heb. split; reflexivity.
Qed.

(** X14.  A directory that [add_directory] has made is entered in the
    entries of its parent only when it is closed: [close_directory] first
    bumps the new directory to the target revision and then sets the kind
    of the entry of that name in the parent's directory to "directory";
    the parent baton comes back as it was before the addition. *)
Theorem added_directory_is_entered_when_closed (name : string)
    (P child parent : dir_baton) (copyfrom_path : option string)
    (copyfrom_revision : Z) :
  (add_directory name P copyfrom_path copyfrom_revision).2
  = Ok (child, parent) ->
  db_ref_count P <> 0 ->
  parent = incr_ref_count P
  /\ close_directory child
     = (let+ _ :=
          calling (call_entry_modify (bump_revision_args child))
            (svn_wc__entry_modify (bump_revision_args child)) in
        let+ _ :=
          calling (call_entry_modify (add_to_parent_args parent child))
            (svn_wc__entry_modify (add_to_parent_args parent child)) in
        traced_ret (Some P))
  /\ em_path (bump_revision_args child)
     = svn_path_add_component (db_path P) name
  /\ em_revision (bump_revision_args child)
     = eb_target_revision (db_edit_baton P)
  /\ em_path (add_to_parent_args parent child) = db_path P
  /\ em_name (add_to_parent_args parent child) = Some name
  /\ em_modify_flags (add_to_parent_args parent child)
     = SVN_WC__ENTRY_MODIFY_KIND
  /\ em_kind (add_to_parent_args parent child) = svn_node_dir.
Proof.
  unfold add_directory. intros Hadd Hcount.
  destruct (traced_bind_ok_inv _ _ _ Hadd) as ([d p] & Hmake & Hrest).
  simpl in Hmake.
  destruct (make_dir_baton_inv _ _ _ _ _ _ Hmake)
    as (-> & Hpath & Hname & Hc & Heb & Hparent & Hprop & Hadded & _).
  clear Hadd.
  destruct ((match copyfrom_path with Some _ => true | None => false end
             && negb (SVN_IS_VALID_REVNUM copyfrom_revision))
            || (negb match copyfrom_path with Some _ => true | None => false end
                && SVN_IS_VALID_REVNUM copyfrom_revision));
    [discriminate Hrest|].
  destruct (traced_bind_ok_inv _ _ _ Hrest) as (kind & _ & Hrest1).
  clear Hrest.
  destruct (bool_decide (kind <> svn_node_none)); [discriminate Hrest1|].
  destruct (match copyfrom_path with Some _ => true | None => false end
            || SVN_IS_VALID_REVNUM copyfrom_revision);
    [discriminate Hrest1|].
  destruct (traced_bind_ok_inv _ _ _ Hrest1) as (parent_entry & _ & Hrest2).
  clear Hrest1.
  destruct parent_entry as [[? [url|] ? ? ? ? ? ? ?]|];
    try discriminate Hrest2.
  destruct (traced_bind_ok_inv _ _ _ Hrest2) as ([] & _ & Hret).
  simpl in Hret. injection Hret as <- <-.
  split; [reflexivity|]. split.
  - rewrite (close_fresh_directory d P Hc Hprop Hparent Hcount).
    rewrite Hadded. reflexivity.
  - unfold bump_revision_args, add_to_parent_args. simpl.
    rewrite Hpath, Heb, Hname. repeat split.
Qed.


(** The reference counts write no log. *)
Lemma decrement_ref_count_no_log :
  forall d : dir_baton, writes_no_log (decrement_ref_count d).
Proof.
  fix IH 1. intros d.
  destruct d as [path name URL disjoint count eb parent changed added props].
  simpl. destruct (bool_decide (count - 1 = 0)); [|apply no_log_nil].
  unfold free_dir_baton_then. simpl.
  apply no_log_bind.
  { destruct (eb_is_checkout eb || _);
      [apply no_log_calling; discriminate|apply no_log_nil]. }
  intros _. apply no_log_bind.
  { destruct parent as [p|]; [|apply no_log_nil].
    destruct added; [apply no_log_calling; discriminate|apply no_log_nil]. }
  intros _. destruct parent as [p|]; [apply IH|apply no_log_nil].
Qed.

(** X16.  [close_directory] writes a log only for a directory with
    property changes; without them it goes straight to the reference
    count.  The log it writes, into the directory itself, is what the
    merge of the property changes has logged, then the command that sets
    the revision of the directory's own entry to the target revision, then
    the command that sets its property time to the working file's, the
    last exactly when the properties are not locally modified. *)
Theorem close_directory_log_contents (db : dir_baton) :
  (db_prop_changed db = false ->
   close_directory db = decrement_ref_count db)
  /\ (forall dir log,
        In (call_write_log dir log) (close_directory db).1 ->
        dir = db_path db
        /\ db_prop_changed db = true
        /\ exists merged conflicts modified,
             svn_wc__merge_prop_diffs (db_path db) None (db_propchanges db)
             = Ok (merged, conflicts)
             /\ svn_wc_props_modified_p (db_path db) = Ok modified
             /\ log
                = (merged
                   ++ mk_log_command SVN_WC__LOG_MODIFY_ENTRY
                        (ap_to_hash
                           [ (SVN_WC__LOG_ATTR_NAME, SVN_WC_ENTRY_THIS_DIR);
                             (SVN_WC_ENTRY_ATTR_REVISION,
                              pretty
                                (eb_target_revision (db_edit_baton db))) ])
                   :: (if modified then []
                       else [ mk_log_command SVN_WC__LOG_MODIFY_ENTRY
                                (ap_to_hash
                                   [ (SVN_WC__LOG_ATTR_NAME,
                                      SVN_WC_ENTRY_THIS_DIR);
                                     (SVN_WC_ENTRY_ATTR_PROP_TIME,
                                      SVN_WC_TIMESTAMP_WC) ]) ]))%list).
Proof.
  split.
  - intros Hprop. unfold close_directory. rewrite Hprop.
    destruct (decrement_ref_count db) as [t r]. reflexivity.
  - intros dir log Hin. unfold close_directory in Hin.
    destruct (db_prop_changed db) eqn:Hprop.
    2:{ exfalso. revert Hin. apply no_log_bind;
          [apply no_log_nil|intros _; apply decrement_ref_count_no_log]. }
    apply in_traced_bind in Hin.
    destruct Hin as [Hin|(a & _ & Hin)];
      [|exfalso; exact (decrement_ref_count_no_log db dir log Hin)].
    apply written_later in Hin; [|apply no_log_calling; discriminate].
    destruct Hin as ([] & _ & Hin).
    apply written_later in Hin; [|apply no_log_calling; discriminate].
    destruct Hin as ([] & _ & Hin).
    apply written_later in Hin; [|apply no_log_calling; discriminate].
    destruct Hin as ([merged conflicts] & Hmerge & Hin).
    apply written_later in Hin; [|apply no_log_nil].
    destruct Hin as (modified & Hmod & Hin).
    simpl in Hmerge, Hmod.
    apply in_traced_bind in Hin.
    destruct Hin as [Hin|(a & _ & Hin)].
    + apply write_log_written in Hin. destruct Hin as [-> ->].
      split; [reflexivity|]. split; [reflexivity|].
      exists merged, conflicts, modified.
      split; [exact Hmerge|]. split; [exact Hmod|].
      unfold close_directory_log, svn_xml_make_open_tag.
      destruct modified; simpl; [reflexivity|].
      rewrite <- app_assoc. reflexivity.
    + exfalso. revert Hin.
      apply no_log_bind; [apply no_log_calling; discriminate|intros _].
      apply no_log_bind; [apply no_log_calling; discriminate|intros _].
      apply no_log_calling; discriminate.
Qed.

(** X17.  [delete_entry] makes its calls in one order, lock, open the
    log, write it, close it, run it, unlock, and stops at the first that
    fails; when it is the write that fails, the log file is closed with
    [apr_file_close] before the error of the write is returned.  The log
    is the single command that deletes the entry named.  The directory is
    unlocked only when the log has run, so every failure leaves it
    locked. *)
Theorem delete_entry_calls_in_order (name : string) (revision : Z)
    (P : dir_baton) :
  let path := db_path P in
  let log :=
    [mk_log_command SVN_WC__LOG_DELETE_ENTRY
       {[ SVN_WC__LOG_ATTR_NAME := name ]}] in
  let calls :=
    [ call_lock path; call_open_log path; call_write_log path log;
      call_close_log path; call_run_log path; call_unlock path ] in
  ((exists n, (delete_entry name revision P).1 = firstn n calls)
   \/ (delete_entry name revision P).1
      = [ call_lock path; call_open_log path; call_write_log path log;
          call_file_close path ])
  /\ (svn_wc__lock path = Ok tt ->
      svn_wc__open_adm_file path = Ok tt ->
      apr_file_write_full path log <> 0 ->
      delete_entry name revision P
      = ([ call_lock path; call_open_log path; call_write_log path log;
           call_file_close path ],
         Err (SVN_ERR_OTHER (apr_file_write_full path log))))
  /\ (In (call_file_close path) (delete_entry name revision P).1 ->
      apr_file_write_full path log <> 0)
  /\ ((delete_entry name revision P).2 = Ok tt ->
      (delete_entry name revision P).1 = calls)
  /\ (In (call_unlock path) (delete_entry name revision P).1 ->
      svn_wc__run_log path = Ok tt
      /\ (delete_entry name revision P).2 = svn_wc__unlock path).
Proof.
  intros path log calls. unfold delete_entry. fold path.
  unfold traced_bind, calling, write_log, svn_xml_make_open_tag, ap_to_hash.
  simpl.
  change (<[SVN_WC__LOG_ATTR_NAME:=name]> (∅ : gmap string string))
    with ({[ SVN_WC__LOG_ATTR_NAME := name ]} : gmap string string).
  fold log.
  destruct (svn_wc__lock path) as [[]|e|]; simpl;
    [|(split; [|split; [|split; [|split]]]);
      [left; exists 1%nat; reflexivity|discriminate
      |intros [H|[]]; discriminate H|discriminate
      |intros [H|[]]; discriminate H]..].
  destruct (svn_wc__open_adm_file path) as [[]|e|]; simpl;
    [|(split; [|split; [|split; [|split]]]);
      [left; exists 2%nat; reflexivity|discriminate
      |intros [H|[H|[]]]; discriminate H|discriminate
      |intros [H|[H|[]]]; discriminate H]..].
  case_bool_decide as Hwrite; simpl.
  2:{ (split; [|split; [|split; [|split]]]);
        [right; reflexivity|reflexivity|intros _; exact Hwrite|discriminate
        |intros [H|[H|[H|[H|[]]]]]; discriminate H]. }
  destruct (svn_wc__close_adm_file path) as [[]|e|]; simpl;
    [|(split; [|split; [|split; [|split]]]);
      [left; exists 4%nat; reflexivity|intros _ _ H; contradiction
      |intros [H|[H|[H|[H|[]]]]]; discriminate H|discriminate
      |intros [H|[H|[H|[H|[]]]]]; discriminate H]..].
  destruct (svn_wc__run_log path) as [[]|e|]; simpl;
    [|(split; [|split; [|split; [|split]]]);
      [left; exists 5%nat; reflexivity|intros _ _ H; contradiction
      |intros [H|[H|[H|[H|[H|[]]]]]]; discriminate H|discriminate
      |intros [H|[H|[H|[H|[H|[]]]]]]; discriminate H]..].
  (split; [|split; [|split; [|split]]]);
    [left; exists 6%nat; reflexivity|intros _ _ H; contradiction
    |intros [H|[H|[H|[H|[H|[H|[]]]]]]]; discriminate H
    |reflexivity|intros _; split; reflexivity].
Qed.

End baton_facts.

(** *** Which calls a computation makes *)

Lemma calls_only_nil {A : Type} (P : wc_call -> Prop) (r : svn_result A) :
  calls_only P ([], r).
Proof. constructor. Qed.

Lemma calls_only_calling {A : Type} (P : wc_call -> Prop) (c : wc_call)
    (r : svn_result A) :
  P c -> calls_only P (calling c r).
Proof. intros H. constructor; [exact H|constructor]. Qed.

Lemma calls_only_apr_status (P : wc_call -> Prop) (c : wc_call) (status : Z) :
  P c -> calls_only P (apr_status c status).
Proof. intros H. constructor; [exact H|constructor]. Qed.

Lemma calls_only_write_log {W : WcWorld} (P : wc_call -> Prop)
    (path : string) (log : list log_command) :
  P (call_write_log path log) -> P (call_file_close path) ->
  calls_only P (write_log path log).
Proof.
  intros Hw Hc. unfold calls_only, write_log.
  destruct (bool_decide _); repeat constructor; assumption.
Qed.

Lemma calls_only_bind {A B : Type} (P : wc_call -> Prop) (m : traced A)
    (k : A -> traced B) :
  calls_only P m -> (forall a, calls_only P (k a)) ->
  calls_only P (traced_bind m k).
Proof.
  unfold calls_only, traced_bind. intros Hm Hk.
  destruct (m.2) as [a|e|]; simpl; [|exact Hm..].
  apply Forall_app. split; [exact Hm|apply Hk].
Qed.

Lemma called_later {A B : Type} (P : wc_call -> Prop) (m : traced A)
    (k : A -> traced B) (c : wc_call) :
  calls_only P m -> ~ P c ->
  In c (traced_bind m k).1 ->
  exists a, m.2 = Ok a /\ In c (k a).1
            /\ (traced_bind m k).2 = (k a).2
            /\ (traced_bind m k).1 = (m.1 ++ (k a).1)%list.
Proof.
  unfold calls_only, traced_bind. intros Hm Hc Hin.
  rewrite Forall_forall in Hm.
  destruct (m.2) as [a|e|]; simpl in Hin.
  - apply in_app_or in Hin. destruct Hin as [Hin|Hin].
    + exfalso. apply Hc, Hm, list_elem_of_In, Hin.
    + exists a. repeat split. exact Hin.
  - exfalso. apply Hc, Hm, list_elem_of_In, Hin.
  - exfalso. apply Hc, Hm, list_elem_of_In, Hin.
Qed.

Lemma traced_bind_ok_trace {A B : Type} (m : traced A) (k : A -> traced B) b :
  (traced_bind m k).2 = Ok b ->
  exists a, m.2 = Ok a /\ (k a).2 = Ok b
            /\ (traced_bind m k).1 = (m.1 ++ (k a).1)%list.
Proof.
  unfold traced_bind. destruct (m.2) as [a|e|]; simpl; intros H;
    try discriminate. eauto.
Qed.

Lemma in_traced_bind_l {A B : Type} (m : traced A) (k : A -> traced B) c :
  In c m.1 -> In c (traced_bind m k).1.
Proof.
  unfold traced_bind. intros H. destruct (m.2); simpl; [|exact H..].
  apply in_or_app. left. exact H.
Qed.

Lemma in_traced_bind_r {A B : Type} (m : traced A) (k : A -> traced B) c a :
  m.2 = Ok a -> In c (k a).1 -> In c (traced_bind m k).1.
Proof.
  unfold traced_bind. intros -> H. simpl. apply in_or_app. right. exact H.
Qed.

Ltac calls_only :=
  repeat first
    [ apply calls_only_nil
    | apply calls_only_calling; intros; discriminate
    | apply calls_only_apr_status; intros; discriminate
    | apply calls_only_write_log; intros; discriminate
    | apply calls_only_bind; [|intros ?]
    | match goal with
      | |- calls_only _ (if ?b then _ else _) => destruct b
      | |- calls_only _ (match ?x with _ => _ end) => destruct x
      | |- calls_only _ (let _ := _ in _) => cbv zeta
      end ].

Section lock.

Context {PL : SvnPath} {W : WcWorld}.

Lemma install_text_no_unlock entry_accum file_path parent_dir basename
    new_text_path new_URL entry_props regular_props prop_conflicts :
  calls_only not_unlock
    (install_text entry_accum file_path parent_dir basename new_text_path
       new_URL entry_props regular_props prop_conflicts).
Proof.
  unfold install_text, merge_with_patch, not_unlock. calls_only.
Qed.


Lemma wcprops_no_unlock (file_path : string) (wc_props : list svn_prop_t) :
  forall done : traced unit,
    calls_only not_unlock done ->
    calls_only not_unlock
      (fold_left
         (fun (done : traced unit) (prop : svn_prop_t) =>
            let+ _ := done in
            calling
              (call_wcprop_set (prop_name prop) (prop_value prop) file_path)
              (svn_wc__wcprop_set (prop_name prop) (prop_value prop)
                 file_path))
         wc_props done).
Proof.
  induction wc_props as [|prop wc_props IH]; intros done Hdone; simpl.
  - exact Hdone.
  - apply IH. apply calls_only_bind; [exact Hdone|intros _].
    apply calls_only_calling. intros p. discriminate.
Qed.

(** X18.  [svn_wc_install_file] releases the lock of the parent directory
    only as the last step of a run in which everything before it has
    succeeded: if the unlock call is made at all, the directory is the
    parent of the file, it was locked by this run, the log has been run
    successfully, and what the function returns is what the unlock
    returns.  A successful run does unlock.  So a run that fails anywhere
    before leaves the directory locked. *)
Theorem install_file_unlocks_only_at_the_end (file_path : string)
    (new_revision : Z) (new_text_path : option string)
    (props : option (list svn_prop_t)) (is_full_proplist : bool)
    (new_URL : option string) :
  let run :=
    svn_wc_install_file file_path new_revision new_text_path props
      is_full_proplist new_URL in
  (forall p,
     In (call_unlock p) run.1 ->
     (svn_path_split file_path).1 = Some p
     /\ In (call_lock p) run.1
     /\ svn_wc__run_log p = Ok tt
     /\ run.2 = svn_wc__unlock p)
  /\ (run.2 = Ok tt ->
      exists p,
        (svn_path_split file_path).1 = Some p
        /\ In (call_unlock p) run.1).
Proof.
  intros run. split.
  - intros p Hin. subst run. unfold svn_wc_install_file in *.
    assert (Hp : ~ not_unlock (call_unlock p))
      by (intros H; exact (H p eq_refl)).
    (* splitting the path *)
    apply (called_later not_unlock) in Hin; [|calls_only|exact Hp].
    destruct Hin as (parent_dir & Hsplit & Hin & Hres & Htrace).
    rewrite Hres, Htrace. clear Hres Htrace.
    assert (Hsplit' : (svn_path_split file_path).1 = Some parent_dir).
    { destruct (svn_path_split file_path).1; [|discriminate Hsplit].
      injection Hsplit as ->. reflexivity. }
    clear Hsplit.
    (* locking *)
    apply (called_later not_unlock) in Hin;
      [|apply calls_only_calling; intros ?; discriminate|exact Hp].
    destruct Hin as ([] & _ & Hin & Hres & Htrace).
    rewrite Hres, Htrace. clear Hres Htrace.
    match type of Hin with
    | In _ (?t).1 => set (rest := t) in *
    end.
    cut (p = parent_dir /\ svn_wc__run_log parent_dir = Ok tt
         /\ rest.2 = svn_wc__unlock parent_dir).
    { intros (Hpp & Hrun & Hrest). subst p. split; [exact Hsplit'|].
      split; [apply in_or_app; right; apply in_or_app; left; left; reflexivity|].
      split; [exact Hrun|exact Hrest]. }
    subst rest.
    (* opening the log *)
    apply (called_later not_unlock) in Hin;
      [|apply calls_only_calling; intros ?; discriminate|exact Hp].
    destruct Hin as ([] & _ & Hin & Hres & _). rewrite Hres. clear Hres.
    (* the regular props *)
    apply (called_later not_unlock) in Hin;
      [|unfold not_unlock; calls_only|exact Hp].
    destruct Hin as ([accum1 prop_conflicts] & _ & Hin & Hres & _).
    rewrite Hres. clear Hres.
    (* the textual merge *)
    apply (called_later not_unlock) in Hin;
      [|destruct new_text_path;
        [apply calls_only_bind;
         [apply install_text_no_unlock
         |intros [? ?]; apply calls_only_nil]
        |apply calls_only_nil]
       |exact Hp].
    destruct Hin as ([accum3 is_locally_modified] & _ & Hin & Hres & _).
    rewrite Hres. clear Hres.
    (* the property time stamp *)
    apply (called_later not_unlock) in Hin;
      [|unfold not_unlock; calls_only|exact Hp].
    destruct Hin as (accum4 & _ & Hin & Hres & _). rewrite Hres. clear Hres.
    (* writing, closing and running the log *)
    apply (called_later not_unlock) in Hin;
      [|apply calls_only_write_log; intros ?; discriminate|exact Hp].
    destruct Hin as ([] & _ & Hin & Hres & _). rewrite Hres. clear Hres.
    apply (called_later not_unlock) in Hin;
      [|apply calls_only_calling; intros ?; discriminate|exact Hp].
    destruct Hin as ([] & _ & Hin & Hres & _). rewrite Hres. clear Hres.
    apply (called_later not_unlock) in Hin;
      [|apply calls_only_calling; intros ?; discriminate|exact Hp].
    destruct Hin as ([] & Hrun & Hin & Hres & _). rewrite Hres. clear Hres.
    (* the wc props *)
    apply (called_later not_unlock) in Hin;
      [|destruct (match props with
                  | Some props => Some (svn_categorize_props props)
                  | None => None
                  end);
        [apply wcprops_no_unlock|]; apply calls_only_nil
       |exact Hp].
    destruct Hin as ([] & _ & Hin & Hres & _). rewrite Hres. clear Hres.
    destruct Hin as [Heq|[]]. injection Heq as ->.
    split; [reflexivity|]. split; [exact Hrun|reflexivity].
  - intros Hok. subst run. unfold svn_wc_install_file in *.
    apply traced_bind_ok_trace in Hok.
    destruct Hok as (parent_dir & Hsplit & Hok & ->).
    assert (Hsplit' : (svn_path_split file_path).1 = Some parent_dir).
    { destruct (svn_path_split file_path).1; [|discriminate Hsplit].
      injection Hsplit as ->. reflexivity. }
    exists parent_dir. split; [exact Hsplit'|]. clear Hsplit Hsplit'.
    apply in_or_app. right.
    repeat
      (apply traced_bind_ok_trace in Hok;
       let a := fresh "a" in
       destruct Hok as (a & _ & Hok & ->);
       apply in_or_app; right;
       match type of a with
       | (_ * _)%type => destruct a
       | _ => idtac
       end).
    left. reflexivity.
Qed.

End lock.

Section target_facts.

Context {PL : SvnPath} {PE : SvnPathEmpty} {W : WcWorld} {WU : WcCleanup}.

(** What a path that is not a working copy root looks like. *)
Lemma is_wc_root_false_inv (path : string) :
  svn_wc_is_wc_root path = Ok false ->
  exists entry parent basename p_entry url,
    svn_wc_entry path = Ok (Some entry)
    /\ svn_path_is_empty path = false
    /\ svn_path_split path = (Some parent, basename)
    /\ svn_wc_entry (if svn_path_is_empty parent then "." else parent)
       = Ok (Some p_entry)
    /\ entry_url p_entry = Some url
    /\ (entry_url entry = None
        \/ entry_url entry = Some (svn_path_add_component url basename)).
Proof.
  unfold svn_wc_is_wc_root. intros H.
  destruct (svn_wc_entry path) as [[entry|]|e|] eqn:Hentry;
    try discriminate H. simpl in H.
  destruct (svn_path_is_empty path) eqn:Hempty; [discriminate H|].
  destruct (svn_path_split path) as [[parent|] basename] eqn:Hsplit;
    [|discriminate H].
  destruct (svn_wc_entry (if svn_path_is_empty parent then "." else parent))
    as [[p_entry|]|e|] eqn:Hparent; try discriminate H.
  destruct (entry_url p_entry) as [url|] eqn:Hurl; [|discriminate H].
  exists entry, parent, basename, p_entry, url.
  repeat (split; [reflexivity || assumption|]).
  destruct (entry_url entry) as [u|]; [|left; reflexivity].
  case_bool_decide as Heq; [|discriminate H].
  right. rewrite Heq. reflexivity.
Qed.

(** X19.  [svn_wc_is_wc_root] answers FALSE exactly when PATH is
    versioned and not empty, its parent directory (the current directory
    when the split leaves an empty one) is versioned with a URL, and the
    URL of PATH is missing or is the parent's URL plus the basename.  An
    unversioned PATH is SVN_ERR_ENTRY_NOT_FOUND; a versioned parent
    without URL is SVN_ERR_ENTRY_MISSING_URL. *)
Theorem is_wc_root_false_iff (path : string) :
  (svn_wc_is_wc_root path = Ok false <->
   exists entry parent basename p_entry url,
     svn_wc_entry path = Ok (Some entry)
     /\ svn_path_is_empty path = false
     /\ svn_path_split path = (Some parent, basename)
     /\ svn_wc_entry (if svn_path_is_empty parent then "." else parent)
        = Ok (Some p_entry)
     /\ entry_url p_entry = Some url
     /\ (entry_url entry = None
         \/ entry_url entry = Some (svn_path_add_component url basename)))
  /\ (svn_wc_entry path = Ok None ->
      svn_wc_is_wc_root path = Err SVN_ERR_ENTRY_NOT_FOUND)
  /\ (forall entry parent basename p_entry,
        svn_wc_entry path = Ok (Some entry) ->
        svn_path_is_empty path = false ->
        svn_path_split path = (Some parent, basename) ->
        svn_wc_entry (if svn_path_is_empty parent then "." else parent)
        = Ok (Some p_entry) ->
        entry_url p_entry = None ->
        svn_wc_is_wc_root path = Err SVN_ERR_ENTRY_MISSING_URL).
Proof.
  split; [split|split].
  - apply is_wc_root_false_inv.
  - intros (entry & parent & basename & p_entry & url & Hentry & Hempty
            & Hsplit & Hparent & Hurl & Hu).
    unfold svn_wc_is_wc_root.
    rewrite Hentry. simpl. rewrite Hempty, Hsplit, Hparent, Hurl.
    destruct Hu as [->| ->]; [reflexivity|].
    rewrite bool_decide_eq_true_2 by reflexivity. reflexivity.
  - intros Hentry. unfold svn_wc_is_wc_root. rewrite Hentry. reflexivity.
  - intros entry parent basename p_entry Hentry Hempty Hsplit Hparent Hurl.
    unfold svn_wc_is_wc_root.
    rewrite Hentry. simpl. rewrite Hempty, Hsplit, Hparent, Hurl.
    reflexivity.
Qed.

(** X20.  Whatever [svn_wc_get_actual_target] returns is anchored at a
    versioned path: without target the anchor is PATH itself, a working
    copy root with an entry; with a target, the target is the basename of
    PATH and the anchor is a versioned directory with a URL, below which
    the URL of PATH, if it has one, is that URL plus the target. *)
Theorem actual_target_is_anchored_at_a_versioned_path (path anchor : string)
    (target : option string) :
  svn_wc_get_actual_target path = Ok (anchor, target) ->
  match target with
  | None =>
      anchor = path
      /\ svn_wc_is_wc_root path = Ok true
      /\ exists entry, svn_wc_entry path = Ok (Some entry)
  | Some target =>
      svn_wc_is_wc_root path = Ok false
      /\ target = (svn_path_split path).2
      /\ exists entry p_entry url,
           svn_wc_entry path = Ok (Some entry)
           /\ svn_wc_entry anchor = Ok (Some p_entry)
           /\ entry_url p_entry = Some url
           /\ (entry_url entry = None
               \/ entry_url entry
                  = Some (svn_path_add_component url target))
  end.
Proof.
  unfold svn_wc_get_actual_target. intros H.
  bind_inv H as wc_root Hroot. destruct wc_root.
  - injection H as <- <-. split; [reflexivity|]. split; [exact Hroot|].
    unfold svn_wc_is_wc_root in Hroot.
    destruct (svn_wc_entry path) as [[entry|]|e|]; try discriminate Hroot.
    eauto.
  - destruct (is_wc_root_false_inv path Hroot)
      as (entry & parent & basename & p_entry & url & Hentry & Hempty
          & Hsplit & Hparent & Hurl & Hu).
    rewrite Hsplit in H. injection H as <- <-.
    split; [exact Hroot|]. rewrite Hsplit. split; [reflexivity|].
    exists entry, p_entry, url. auto.
Qed.

(** X21.  An update that changes nothing touches the working copy only
    in [close_edit]: the editor of [svn_wc_get_update_editor] opens its
    root at the anchor and closes it again without a single call, and
    [close_edit] hands [svn_wc__do_update_cleanup] the anchor plus the
    target, the recurse flag, no URL, and the revision last set by
    [set_target_revision].  The editor of [svn_wc_get_switch_editor]
    hands it the switch URL as well. *)
Theorem update_without_changes (anchor : string) (target : option string)
    (target_revision new_revision base_revision : Z) (recurse : bool)
    (switch_url : string) :
  let full_path :=
    match target with
    | Some target => svn_path_add_component anchor target
    | None => anchor
    end in
  exists eb root,
    svn_wc_get_update_editor anchor target target_revision recurse = Ok eb
    /\ open_root (set_target_revision eb new_revision) base_revision
       = ([], Ok root)
    /\ db_path root = anchor
    /\ close_directory root = ([], Ok None)
    /\ close_edit (set_target_revision eb new_revision)
       = svn_wc__do_update_cleanup full_path recurse None new_revision
    /\ exists eb',
         svn_wc_get_switch_editor anchor target target_revision
           (Some switch_url) recurse = Ok eb'
         /\ close_edit (set_target_revision eb' new_revision)
            = svn_wc__do_update_cleanup full_path recurse (Some switch_url)
                new_revision.
Proof.
  intros full_path. eexists. eexists.
  split; [reflexivity|]. split; [reflexivity|]. split; [reflexivity|].
  split; [reflexivity|]. split; [reflexivity|].
  eexists. split; reflexivity.
Qed.

(** X22.  A checkout needs its ancestor URL: without one
    [svn_wc_get_checkout_editor] fails its assertion.  With one,
    [open_root] prepares the destination as a working copy of that URL at
    the target revision, closing the root bumps the destination to the
    target revision although it has no parent, and [close_edit] does
    nothing. *)
Theorem checkout_without_changes (dest ancestor_url : string)
    (target_revision base_revision : Z) (recurse : bool) :
  svn_wc_get_checkout_editor dest None target_revision recurse = Abort
  /\ exists eb root,
       svn_wc_get_checkout_editor dest (Some ancestor_url) target_revision
         recurse = Ok eb
       /\ open_root eb base_revision
          = (let+ _ := prep_directory dest ancestor_url target_revision true in
             traced_ret root)
       /\ db_URL root = Some ancestor_url
       /\ close_directory root
          = ([call_entry_modify (bump_revision_args root)],
             let* _ := svn_wc__entry_modify (bump_revision_args root) in
             Ok None)
       /\ em_path (bump_revision_args root) = dest
       /\ em_revision (bump_revision_args root) = target_revision
       /\ close_edit eb = Ok tt.
Proof.
  split; [reflexivity|].
  eexists.
  exists {| db_path := dest; db_name := None; db_URL := Some ancestor_url;
            db_disjoint_url := false; db_ref_count := 1;
            db_edit_baton :=
              {| eb_anchor := dest; eb_target := None;
                 eb_target_revision := target_revision;
                 eb_recurse := recurse; eb_is_checkout := true;
                 eb_ancestor_url := Some ancestor_url;
                 eb_is_switch := false; eb_switch_url := None |};
            db_parent_baton := None; db_prop_changed := false;
            db_added := false; db_propchanges := [] |}.
  split; [reflexivity|]. split.
  - unfold open_root. simpl.
    unfold traced_bind at 1. simpl.
    match goal with
    | |- (?t.1, ?t.2) = _ => destruct t; reflexivity
    end.
  - split; [reflexivity|]. split.
    + unfold close_directory. simpl.
      unfold free_dir_baton_then, bump_revision_args, traced_bind, calling.
      simpl.
      destruct (svn_wc__entry_modify _) as [[]|e|]; reflexivity.
    + repeat split.
Qed.

End target_facts.

Section url_facts.

Context {PL : SvnPath} {W : WcWorld}.

Lemma disjoint_from_parent_false parent_URL parent_disjoint name URL :
  disjoint_from_parent parent_URL parent_disjoint name URL = Ok false ->
  parent_disjoint = false
  /\ exists parent_url n,
       parent_URL = Some parent_url /\ name = Some n
       /\ URL = Some (svn_path_add_component parent_url n).
Proof.
  unfold disjoint_from_parent.
  destruct parent_URL as [pu|], name as [n|], parent_disjoint, URL as [u|];
    try discriminate.
  intros H. injection H as H. split; [reflexivity|].
  apply negb_false_iff, bool_decide_eq_true in H.
  exists pu, n. rewrite H. auto.
Qed.

(** X23.  A directory or file baton that is not flagged disjoint has the
    URL of its parent baton plus its own name; and in an update or switch
    its parent is not flagged disjoint either: the flag, once set, is
    inherited by everything below.  Below a flagged parent that has a URL
    the baton is made and flagged whatever the entries say of its own
    URL, which is not compared. *)
Theorem baton_url_is_telescoped_unless_disjoint (name : string)
    (parent : dir_baton) :
  (forall eb added url,
     eb_is_checkout eb = false ->
     db_disjoint_url parent = true ->
     db_URL parent = Some url ->
     (exists d,
        make_dir_baton (Some name) eb (Some parent) added
        = Ok (d, Some (incr_ref_count parent))
        /\ db_disjoint_url d = true
        /\ db_URL d
           = url_from_entries (svn_path_add_component (db_path parent) name))
     /\ (eb = db_edit_baton parent ->
         exists fb,
           make_file_baton parent name = Ok (fb, incr_ref_count parent)
           /\ fb_disjoint_url fb = true
           /\ fb_URL fb
              = url_from_entries
                  (svn_path_add_component (db_path parent) name)))
  /\ (forall eb added d parent',
     make_dir_baton (Some name) eb (Some parent) added = Ok (d, parent') ->
     db_disjoint_url d = false ->
     (exists url,
        db_URL parent = Some url
        /\ db_URL d = Some (svn_path_add_component url name))
     /\ (eb_is_checkout eb = false -> db_disjoint_url parent = false))
  /\ (forall fb parent',
        make_file_baton parent name = Ok (fb, parent') ->
        fb_disjoint_url fb = false ->
        (exists url,
           db_URL parent = Some url
           /\ fb_URL fb = Some (svn_path_add_component url name))
        /\ (eb_is_checkout (db_edit_baton parent) = false ->
            db_disjoint_url parent = false)).
Proof.
  split; [|split].
  - intros eb added url Hupdate Hdis Hurl. split.
    + unfold make_dir_baton, disjoint_from_parent.
      rewrite Hupdate, Hdis, Hurl. simpl. eauto.
    + intros ->. unfold make_file_baton, disjoint_from_parent.
      rewrite Hupdate, Hdis, Hurl. simpl. eauto.
  - intros eb added d parent' Hmake Hdis. unfold make_dir_baton in Hmake.
    bind_inv Hmake as [URL disjoint] Hurl.
    injection Hmake as <- _. simpl in *. subst disjoint.
    destruct (eb_is_checkout eb).
    + destruct (db_URL parent) as [url|]; [|discriminate Hurl].
      injection Hurl as <-. split; [eauto|discriminate].
    + bind_inv Hurl as dis Hd. injection Hurl as <- ->.
      destruct (disjoint_from_parent_false _ _ _ _ Hd)
        as (Hp & pu & n & Hpu & Hn & Hu).
      injection Hn as <-. split; [eauto|auto].
  - intros fb parent' Hmake Hdis. unfold make_file_baton in Hmake.
    bind_inv Hmake as [URL disjoint] Hurl.
    injection Hmake as <- _. simpl in *. subst disjoint.
    destruct (eb_is_checkout (db_edit_baton parent)).
    + destruct (db_URL parent) as [url|]; [|discriminate Hurl].
      injection Hurl as <-. split; [eauto|discriminate].
    + bind_inv Hurl as dis Hd. injection Hurl as <- ->.
      destruct (disjoint_from_parent_false _ _ _ _ Hd)
        as (Hp & pu & n & Hpu & Hn & Hu).
      injection Hn as <-. split; [eauto|auto].
Qed.

End url_facts.

Section prop_facts.

Context {PL : SvnPath} {W : WcWorld}.

Lemma decrement_ref_count_calls_only (P : wc_call -> Prop) :
  (forall args, P (call_entry_modify args)) ->
  forall d : dir_baton, calls_only P (decrement_ref_count d).
Proof.
  intros HP. fix IH 1. intros d.
  destruct d as [path name URL disjoint count eb parent changed added props].
  simpl. destruct (bool_decide (count - 1 = 0)); [|apply calls_only_nil].
  unfold free_dir_baton_then. simpl.
  apply calls_only_bind.
  { destruct (eb_is_checkout eb || _);
      [apply calls_only_calling, HP|apply calls_only_nil]. }
  intros _. apply calls_only_bind.
  { destruct parent as [p|]; [|apply calls_only_nil].
    destruct added; [apply calls_only_calling, HP|apply calls_only_nil]. }
  intros _. destruct parent as [p|]; [apply IH|apply calls_only_nil].
Qed.

Lemma regular_dir_props_accumulate (changes : list svn_prop_t) :
  Forall (fun p => svn_wc_is_wc_prop (prop_name p) = false
                   /\ svn_wc_is_entry_prop (prop_name p) = false) changes ->
  forall db : dir_baton,
  exists db',
    fold_left
      (fun t p =>
         let+ d := t in change_dir_prop d (prop_name p) (prop_value p))
      changes (traced_ret db)
    = ([], Ok db')
    /\ db_path db' = db_path db
    /\ db_propchanges db' = (db_propchanges db ++ changes)%list
    /\ (changes <> [] \/ db_prop_changed db = true ->
        db_prop_changed db' = true).
Proof.
  induction 1 as [|[name value] changes [Hwc Hentry] _ IH]; intros db.
  { exists db. rewrite app_nil_r. repeat split.
    intros [H|H]; [contradiction|exact H]. }
  simpl in Hwc, Hentry. simpl fold_left.
  unfold traced_bind at 2. simpl.
  unfold change_dir_prop at 2 3. rewrite Hwc, Hentry. simpl.
  match goal with
  | |- context [fold_left _ changes ([], Ok ?d)] =>
      destruct (IH d) as (db' & Hfold & Hpath & Hprops & Hchanged)
  end.
  exists db'. split; [exact Hfold|]. split; [exact Hpath|].
  split; [rewrite Hprops; simpl; rewrite <- app_assoc; reflexivity|].
  intros _. apply Hchanged. right. reflexivity.
Qed.

(** X30.  Changes of regular properties of a directory, neither "wc"
    nor "entry" properties, make no call to the working copy: each is
    appended to the changes the baton holds.  They reach the working copy
    when the directory is closed: [close_directory] calls
    [svn_wc__merge_prop_diffs] with no other arguments than the path of
    the directory, no name, and the changes held before followed by the
    new ones in the order in which they were made; and it does make that
    call once the directory has been locked and its log opened. *)
Theorem regular_dir_props_are_merged_at_the_close (db : dir_baton)
    (changes : list svn_prop_t) :
  Forall (fun p => svn_wc_is_wc_prop (prop_name p) = false
                   /\ svn_wc_is_entry_prop (prop_name p) = false) changes ->
  changes <> [] ->
  exists db',
    fold_left
      (fun t p =>
         let+ d := t in change_dir_prop d (prop_name p) (prop_value p))
      changes (traced_ret db)
    = ([], Ok db')
    /\ (forall dir name props,
          In (call_merge_prop_diffs dir name props) (close_directory db').1 ->
          dir = db_path db /\ name = None
          /\ props = (db_propchanges db ++ changes)%list)
    /\ (svn_wc__lock (db_path db) = Ok tt ->
        svn_wc__open_adm_file (db_path db) = Ok tt ->
        In (call_merge_prop_diffs (db_path db) None
              (db_propchanges db ++ changes))
           (close_directory db').1).
Proof.
  intros Hregular Hsome.
  destruct (regular_dir_props_accumulate changes Hregular db)
    as (db' & Hfold & Hpath & Hprops & Hchanged).
  exists db'. split; [exact Hfold|].
  specialize (Hchanged (or_introl Hsome)).
  split.
  - intros dir name props Hin.
    assert (Hall : calls_only
                     (fun c => forall dir name props,
                        c = call_merge_prop_diffs dir name props ->
                        dir = db_path db /\ name = None
                        /\ props = (db_propchanges db ++ changes)%list)
                     (close_directory db')).
    { unfold close_directory. rewrite Hchanged, Hpath, Hprops.
      apply calls_only_bind;
        [|intros _; apply decrement_ref_count_calls_only; intros; discriminate].
      apply calls_only_bind; [apply calls_only_calling; intros; discriminate|].
      intros _.
      apply calls_only_bind; [apply calls_only_calling; intros; discriminate|].
      intros _.
      apply calls_only_bind.
      { apply calls_only_calling. intros ? ? ? [= <- <- <-]. auto. }
      intros [merged conflicts].
      apply calls_only_bind; [apply calls_only_nil|]. intros modified.
      apply calls_only_bind;
        [apply calls_only_write_log; intros; discriminate|]. intros _.
      apply calls_only_bind; [apply calls_only_calling; intros; discriminate|].
      intros _.
      apply calls_only_bind; [apply calls_only_calling; intros; discriminate|].
      intros _. apply calls_only_calling; intros; discriminate. }
    unfold calls_only in Hall. rewrite Forall_forall in Hall.
    exact (Hall _ (proj2 (list_elem_of_In _ _) Hin) _ _ _ eq_refl).
  - intros Hlock Hopen. unfold close_directory.
    rewrite Hchanged, Hpath, Hprops.
    apply in_traced_bind_l.
    eapply in_traced_bind_r; [exact Hlock|].
    eapply in_traced_bind_r; [exact Hopen|].
    apply in_traced_bind_l. left. reflexivity.
Qed.

End prop_facts.

(** X24.  [latest_keyword_data] sets no keyword that was not set: a
    keyword field that is NULL stays NULL whatever the entry props say,
    the URL keyword is never touched, and without props, or without
    keywords, nothing changes. *)
Theorem latest_keyword_data_sets_no_keyword (props : list svn_prop_t)
    (keywords : svn_wc_keywords_t) :
  latest_keyword_data None (Some keywords) = Some keywords
  /\ latest_keyword_data (Some props) None = None
  /\ exists latest,
       latest_keyword_data (Some props) (Some keywords) = Some latest
       /\ kw_url latest = kw_url keywords
       /\ (kw_revision keywords = None -> kw_revision latest = None)
       /\ (kw_date keywords = None -> kw_date latest = None)
       /\ (kw_author keywords = None -> kw_author latest = None).
Proof.
  split; [reflexivity|]. split; [reflexivity|].
  unfold latest_keyword_data. eexists. split; [reflexivity|].
  revert keywords.
  induction props as [|prop props IH]; intros keywords; simpl.
  - auto.
  - match goal with
    | |- context [fold_left ?f props ?k] =>
        destruct (IH k) as (Hurl & Hrev & Hdate & Hauthor)
    end.
    simpl in *. split; [exact Hurl|].
    split; [|split]; intros Hnone; rewrite Hnone in *; auto.
Qed.

Section examples.

Import Example.

(** C2: updating [wc/foo], not locally modified, to revision 7 with a new
    text. *)
Lemma install_file_log_witness :
  In (call_write_log "wc" foo_log)
    (svn_wc_install_file (PL := RefPath.ref_path) (W := world_ok)
       "wc/foo" 7 (Some "wc/tmp/text-base/foo") None false None).1
  /\ In (revision_command "foo" 7) foo_log
  /\ In (text_time_command "foo") foo_log.
Proof.
  assert (H : In (call_write_log "wc" foo_log)
                (svn_wc_install_file (PL := RefPath.ref_path)
                   (W := world_ok) "wc/foo" 7
                   (Some "wc/tmp/text-base/foo") None false None).1).
  { right. right. right. left. vm_compute. reflexivity. }
  split; [exact H|].
  destruct (install_file_log (PL := RefPath.ref_path) (W := world_ok)
              "wc/foo" 7 (Some "wc/tmp/text-base/foo") None false None
              "wc" foo_log H)
    as (Hrev & _ & _).
  split; [exact Hrev|].
  right. right. right. right. left. reflexivity.
Defined.

(** C2: the working file [wc/foo] is locally modified, and the log of its
    update starts with the command that sets its text time to the working
    file's: the server has sent the entry property [text_time] with that
    value. *)
Lemma install_file_logs_text_time_of_modified_file :
  svn_wc_text_modified_p (WcWorld := world (wc true true (false, false)))
    "wc/foo" = Ok true
  /\ exists rest,
       In (call_write_log "wc" (text_time_command "foo" :: rest))
         (svn_wc_install_file (PL := RefPath.ref_path)
            (W := world (wc true true (false, false)))
            "wc/foo" 7 (Some "tmp/text-base/wc/foo")
            (Some [mk_prop "svn:entry:text_time" (Some "WC")]) false None).1.
Proof.
  split; [reflexivity|]. eexists.
  do 11 right. left. vm_compute. reflexivity.
Qed.

(** C6: [wc/d] is in the way, with or without copyfrom arguments; a
    half-given copyfrom pair ends the process before the disk is looked
    at. *)
Lemma add_directory_obstruction_comes_first :
  add_directory (PL := RefPath.ref_path) (W := world_ok)
    "d" (Example.root_baton 7) (Some "http://repo/branch/d") 3
  = ([], Err SVN_ERR_WC_OBSTRUCTED_UPDATE)
  /\ svn_io_check_path (WcWorld := world_ok) "wc/d" = Ok svn_node_dir
  /\ add_directory (PL := RefPath.ref_path) (W := world_ok)
       "d" (Example.root_baton 7) (Some "http://repo/branch/d") (-1)
     = ([], Abort).
Proof. repeat split. Qed.

Lemma add_directory_outcomes_witness :
  add_directory (PL := RefPath.ref_path) (W := world_ok)
    "d" (Example.root_baton 7) None (-1)
  = ([], Err SVN_ERR_WC_OBSTRUCTED_UPDATE)
  /\ add_directory (PL := RefPath.ref_path) (W := world_ok)
       "new" (Example.root_baton 7) (Some "http://repo/branch/new") 3
     = ([], Err SVN_ERR_UNSUPPORTED_FEATURE)
  /\ (add_directory (PL := RefPath.ref_path) (W := world_ok)
        "new" (Example.root_baton 7) None (-1)).1
     = [ call_ensure_directory "wc/new";
         call_ensure_wc "wc/new" "http://repo/trunk/new" 7 ].
Proof.
  destruct (add_directory_outcomes (PL := RefPath.ref_path) (W := world_ok)
              "d" (Example.root_baton 7) None (-1)) as (_ & Hd).
  destruct (Hd eq_refl eq_refl) as (Hobstructed & _).
  destruct (add_directory_outcomes (PL := RefPath.ref_path) (W := world_ok)
              "new" (Example.root_baton 7) (Some "http://repo/branch/new") 3)
    as (_ & Hnew1).
  destruct (Hnew1 eq_refl eq_refl) as (_ & _ & _ & Hfree1).
  destruct (add_directory_outcomes (PL := RefPath.ref_path) (W := world_ok)
              "new" (Example.root_baton 7) None (-1)) as (_ & Hnew2).
  destruct (Hnew2 eq_refl eq_refl) as (_ & _ & _ & Hfree2).
  split; [|split].
  - apply (Hobstructed svn_node_dir); [reflexivity | discriminate].
  - destruct (Hfree1 eq_refl) as (Hcopy & _).
    apply (Hcopy "http://repo/branch/new" eq_refl).
  - destruct (Hfree2 eq_refl) as (_ & Hinherit).
    destruct (Hinherit eq_refl) as (Hprep & _).
    destruct (Hprep (Example.dir_entry "http://repo/trunk")
                "http://repo/trunk" eq_refl eq_refl)
      as (this & _ & _ & ->).
    reflexivity.
Defined.

(** C9: the server has no committed revision to report for [wc]. *)
Lemma change_dir_prop_null_entry_prop_witness :
  exists args,
    (change_dir_prop (W := world_ok) (Example.root_baton 7)
       "svn:entry:committed-rev" None).1 = [call_entry_modify args]
    /\ exists e,
         apply_entry_modify args (Example.wc_entries !!! "wc")
           !! SVN_WC_ENTRY_THIS_DIR = Some e
         /\ entry_attributes e !! "committed-rev" = Some "".
Proof.
  destruct (change_dir_prop_null_entry_prop (W := world_ok)
              (Example.root_baton 7) "svn:entry:committed-rev" eq_refl)
    as (args & Hcall & _ & _ & _ & _ & Hstored).
  exists args. split; [rewrite Hcall; reflexivity|].
  exact (Hstored (Example.wc_entries !!! "wc")).
Defined.

(** C10: in a parent that does not pass the working-copy check, adding
    the versioned file [gone], which is not on disk, is an obstructed
    update. *)
Lemma add_file_obstructed_without_disk_object :
  exists dirents entries,
    svn_io_get_dirents (WcWorld := world_not_wc) "wc" = Ok dirents
    /\ dirents !! "gone" = None
    /\ svn_wc_entries_read (WcWorld := world_not_wc) "wc" = Ok entries
    /\ is_Some (entries !! "gone")
    /\ add_file (PL := RefPath.ref_path) (W := world_not_wc)
         "gone" (Example.root_baton 7) None (-1)
       = Err SVN_ERR_WC_OBSTRUCTED_UPDATE.
Proof.
  eexists _, _. split; [reflexivity|]. split; [reflexivity|].
  split; [reflexivity|]. split; [eexists; reflexivity | reflexivity].
Qed.

Lemma add_or_open_file_outcomes_witness :
  open_file (PL := RefPath.ref_path) (W := world_ok)
    "nope" (Example.root_baton 7) 5 = Err SVN_ERR_ENTRY_NOT_FOUND
  /\ is_ok (add_file (PL := RefPath.ref_path) (W := world_ok)
              "gone" (Example.root_baton 7) None (-1)) = true
  /\ add_file (PL := RefPath.ref_path) (W := world_ok)
       "foo" (Example.root_baton 7) None (-1)
     = Err SVN_ERR_WC_OBSTRUCTED_UPDATE.
Proof.
  destruct (add_or_open_file_outcomes (PL := RefPath.ref_path)
              (W := world_ok) "nope" (Example.root_baton 7)
              (dirents_of (wc true false (false, false)) "wc")
              (Example.wc_entries !!! "wc")) as (_ & H1).
  destruct (H1 eq_refl eq_refl eq_refl) as (fb1 & _ & _ & Hopen & _).
  destruct (add_or_open_file_outcomes (PL := RefPath.ref_path)
              (W := world_ok) "gone" (Example.root_baton 7)
              (dirents_of (wc true false (false, false)) "wc")
              (Example.wc_entries !!! "wc")) as (_ & H2).
  destruct (H2 eq_refl eq_refl eq_refl) as (fb2 & _ & _ & _ & Hadd & _).
  destruct (add_or_open_file_outcomes (PL := RefPath.ref_path)
              (W := world_ok) "foo" (Example.root_baton 7)
              (dirents_of (wc true false (false, false)) "wc")
              (Example.wc_entries !!! "wc")) as (_ & H3).
  destruct (H3 eq_refl eq_refl eq_refl) as (fb3 & _ & _ & _ & _ & Hobstructed).
  split; [|split].
  - apply Hopen. reflexivity.
  - rewrite (Hadd None (-1)); [reflexivity | eexists; reflexivity
                              | reflexivity | reflexivity].
  - apply (Hobstructed None (-1)). left. eexists. reflexivity.
Defined.

Lemma open_then_close_directory_witness :
  exists child,
    open_directory (PL := RefPath.ref_path) (W := world_ok)
      "d" (root_baton 7) 5
    = Ok (child, Some (incr_ref_count (root_baton 7)))
    /\ close_directory (W := world_ok) child
       = ([call_entry_modify (bump_revision_args child)],
          Ok (Some (root_baton 7)))
    /\ em_path (bump_revision_args child) = "wc/d"
    /\ em_revision (bump_revision_args child) = 7.
Proof.
  destruct (open_directory (PL := RefPath.ref_path) (W := world_ok)
              "d" (root_baton 7) 5) as [[child parent']| |] eqn:H;
    [|discriminate H..].
  assert (Hcount : db_ref_count (root_baton 7) <> 0) by discriminate.
  destruct (open_then_close_directory (PL := RefPath.ref_path)
              (W := world_ok) "d" (root_baton 7) child 5 parent' H Hcount)
    as (-> & Hclose & Hpath & Hrev).
  exists child. split; [reflexivity|]. split; [exact Hclose|].
  split; [exact Hpath|exact Hrev].
Defined.

Lemma added_directory_is_entered_when_closed_witness :
  exists child,
    (add_directory (PL := RefPath.ref_path) (W := world_ok)
       "new" (root_baton 7) None (-1)).2
    = Ok (child, incr_ref_count (root_baton 7))
    /\ (close_directory (W := world_ok) child).1
       = [ call_entry_modify (bump_revision_args child);
           call_entry_modify
             (add_to_parent_args (incr_ref_count (root_baton 7)) child) ]
    /\ em_path (bump_revision_args child) = "wc/new"
    /\ em_path (add_to_parent_args (incr_ref_count (root_baton 7)) child)
       = "wc"
    /\ em_name (add_to_parent_args (incr_ref_count (root_baton 7)) child)
       = Some "new".
Proof.
  destruct (add_directory (PL := RefPath.ref_path) (W := world_ok)
              "new" (root_baton 7) None (-1)).2
    as [[child parent]| |] eqn:H; [|discriminate H..].
  assert (Hcount : db_ref_count (root_baton 7) <> 0) by discriminate.
  destruct (added_directory_is_entered_when_closed (PL := RefPath.ref_path)
              (W := world_ok) "new" (root_baton 7) child parent None (-1)
              H Hcount)
    as (-> & Hclose & Hpath & _ & Hppath & Hname & _).
  exists child. split; [reflexivity|]. split; [rewrite Hclose; reflexivity|].
  split; [exact Hpath|]. split; [exact Hppath|exact Hname].
Defined.


Lemma close_directory_log_contents_witness :
  (change_dir_prop (W := world_ok) (root_baton 7) "color" (Some "red")).2
  = Ok (root_baton_with_prop 7)
  /\ In (call_write_log "wc"
           [ mk_log_command SVN_WC__LOG_MODIFY_ENTRY
               (ap_to_hash [ (SVN_WC__LOG_ATTR_NAME, SVN_WC_ENTRY_THIS_DIR);
                             (SVN_WC_ENTRY_ATTR_REVISION, "7") ]);
             mk_log_command SVN_WC__LOG_MODIFY_ENTRY
               (ap_to_hash [ (SVN_WC__LOG_ATTR_NAME, SVN_WC_ENTRY_THIS_DIR);
                             (SVN_WC_ENTRY_ATTR_PROP_TIME,
                              SVN_WC_TIMESTAMP_WC) ]) ])
       (close_directory (W := world_ok) (root_baton_with_prop 7)).1
  /\ db_prop_changed (root_baton_with_prop 7) = true.
Proof.
  split; [reflexivity|].
  assert (Hin :
    In (call_write_log "wc"
          [ mk_log_command SVN_WC__LOG_MODIFY_ENTRY
              (ap_to_hash [ (SVN_WC__LOG_ATTR_NAME, SVN_WC_ENTRY_THIS_DIR);
                            (SVN_WC_ENTRY_ATTR_REVISION, "7") ]);
            mk_log_command SVN_WC__LOG_MODIFY_ENTRY
              (ap_to_hash [ (SVN_WC__LOG_ATTR_NAME, SVN_WC_ENTRY_THIS_DIR);
                            (SVN_WC_ENTRY_ATTR_PROP_TIME,
                             SVN_WC_TIMESTAMP_WC) ]) ])
      (close_directory (W := world_ok) (root_baton_with_prop 7)).1).
  { right. right. right. left. vm_compute. reflexivity. }
  split; [exact Hin|].
  destruct (close_directory_log_contents (W := world_ok)
              (root_baton_with_prop 7)) as [_ H].
  exact (proj1 (proj2 (H _ _ Hin))).
Defined.

Lemma delete_entry_calls_in_order_witness :
  delete_entry (W := world_ok) "foo" 7 (root_baton 7)
  = ([ call_lock "wc"; call_open_log "wc";
       call_write_log "wc"
         [mk_log_command SVN_WC__LOG_DELETE_ENTRY
            {[ SVN_WC__LOG_ATTR_NAME := "foo" ]}];
       call_close_log "wc"; call_run_log "wc"; call_unlock "wc" ],
     Ok tt)
  /\ delete_entry (W := disk_full world_ok) "foo" 7 (root_baton 7)
     = ([ call_lock "wc"; call_open_log "wc";
          call_write_log "wc"
            [mk_log_command SVN_WC__LOG_DELETE_ENTRY
               {[ SVN_WC__LOG_ATTR_NAME := "foo" ]}];
          call_file_close "wc" ],
        Err (SVN_ERR_OTHER 28)).
Proof.
  split.
  - destruct (delete_entry_calls_in_order (W := world_ok) "foo" 7
                (root_baton 7)) as (_ & _ & _ & Hok & _).
    specialize (Hok eq_refl).
    destruct (delete_entry (W := world_ok) "foo" 7 (root_baton 7))
      as [t r] eqn:H.
    simpl in Hok. rewrite Hok.
    vm_compute in H. injection H as _ <-. reflexivity.
  - destruct (delete_entry_calls_in_order (W := disk_full world_ok) "foo" 7
                (root_baton 7)) as (_ & Hfull & _).
    apply Hfull; [reflexivity|reflexivity|discriminate].
Defined.

Lemma install_file_unlocks_only_at_the_end_witness :
  (svn_wc_install_file (PL := RefPath.ref_path) (W := world_ok)
     "wc/foo" 7 (Some "wc/tmp/text-base/foo") None false None).2 = Ok tt
  /\ In (call_unlock "wc")
       (svn_wc_install_file (PL := RefPath.ref_path) (W := world_ok)
          "wc/foo" 7 (Some "wc/tmp/text-base/foo") None false None).1.
Proof.
  split; [vm_compute; reflexivity|].
  destruct (install_file_unlocks_only_at_the_end (PL := RefPath.ref_path)
              (W := world_ok) "wc/foo" 7 (Some "wc/tmp/text-base/foo") None
              false None) as [_ H].
  destruct (H ltac:(vm_compute; reflexivity)) as (p & Hsplit & Hin).
  vm_compute in Hsplit. injection Hsplit as <-. exact Hin.
Defined.

Lemma is_wc_root_false_iff_witness :
  svn_wc_is_wc_root (PL := RefPath.ref_path) (W := world_ok) "wc/foo"
  = Ok false
  /\ svn_wc_is_wc_root (PL := RefPath.ref_path) (W := world_ok) "wc"
     = Ok true
  /\ svn_wc_is_wc_root (PL := RefPath.ref_path) (W := world_ok) "wc/d"
     = Err SVN_ERR_ENTRY_NOT_FOUND.
Proof.
  destruct (is_wc_root_false_iff (PL := RefPath.ref_path) (W := world_ok)
              "wc/foo") as [[_ Hfalse] _].
  destruct (is_wc_root_false_iff (PL := RefPath.ref_path) (W := world_ok)
              "wc/d") as (_ & Hnone & _).
  split; [|split; [reflexivity|apply Hnone; reflexivity]].
  apply Hfalse.
  exists (file_entry "http://repo/trunk/foo" true), "wc", "foo",
    (dir_entry "http://repo/trunk"), "http://repo/trunk".
  repeat split. right. reflexivity.
Defined.

Lemma actual_target_is_anchored_at_a_versioned_path_witness :
  svn_wc_get_actual_target (PL := RefPath.ref_path) (W := world_ok) "wc/foo"
  = Ok ("wc", Some "foo")
  /\ svn_wc_is_wc_root (PL := RefPath.ref_path) (W := world_ok) "wc/foo"
     = Ok false
  /\ svn_wc_get_actual_target (PL := RefPath.ref_path) (W := world_ok) "wc"
     = Ok ("wc", None).
Proof.
  split; [reflexivity|]. split; [|reflexivity].
  exact (proj1 (actual_target_is_anchored_at_a_versioned_path
                  (PL := RefPath.ref_path) (W := world_ok)
                  "wc/foo" "wc" (Some "foo") eq_refl)).
Defined.

Lemma baton_url_is_telescoped_unless_disjoint_witness :
  (exists fb parent',
     make_file_baton (PL := RefPath.ref_path) (W := world_ok)
       (root_baton 7) "foo" = Ok (fb, parent')
     /\ fb_disjoint_url fb = false
     /\ fb_URL fb = Some "http://repo/trunk/foo")
  /\ (exists fb,
        make_file_baton (PL := RefPath.ref_path) (W := world_ok)
          (switched_baton 7) "foo"
        = Ok (fb, incr_ref_count (switched_baton 7))
        /\ fb_disjoint_url fb = true).
Proof.
  split.
  2:{ destruct (baton_url_is_telescoped_unless_disjoint
                  (PL := RefPath.ref_path) (W := world_ok) "foo"
                  (switched_baton 7)) as (Hbelow & _).
      destruct (Hbelow (update_to 7) false "http://repo/branch"
                  eq_refl eq_refl eq_refl) as (_ & Hfile).
      destruct (Hfile eq_refl) as (fb & Hfb & Hdis & _).
      exists fb. split; [exact Hfb|exact Hdis]. }
  destruct (make_file_baton (PL := RefPath.ref_path) (W := world_ok)
              (root_baton 7) "foo") as [[fb parent']| |] eqn:H;
    [|discriminate H..].
  exists fb, parent'. split; [reflexivity|].
  assert (Hdis : fb_disjoint_url fb = false).
  { vm_compute in H. injection H as <- _. reflexivity. }
  split; [exact Hdis|].
  destruct (baton_url_is_telescoped_unless_disjoint
              (PL := RefPath.ref_path) (W := world_ok) "foo" (root_baton 7))
    as (_ & _ & Hfile).
  destruct (Hfile fb parent' H Hdis) as [(url & Hurl & Hfb) _].
  rewrite Hfb. injection Hurl as <-. reflexivity.
Defined.

(** X30: two changes on the root of the update, the second one a
    deletion. *)
Lemma regular_dir_props_are_merged_at_the_close_witness :
  exists db',
    fold_left
      (fun t p =>
         traced_bind t
           (fun d =>
              change_dir_prop (W := Editor.Example.world_ok) d
                (prop_name p) (prop_value p)))
      [mk_prop "color" (Some "red"); mk_prop "size" None]
      (traced_ret (Editor.Example.root_baton 7))
    = ([], Ok db')
    /\ In (call_merge_prop_diffs "wc" None
             [mk_prop "color" (Some "red"); mk_prop "size" None])
          (close_directory (W := Editor.Example.world_ok) db').1.
Proof.
  destruct (regular_dir_props_are_merged_at_the_close
              (W := Editor.Example.world_ok) (Editor.Example.root_baton 7)
              [mk_prop "color" (Some "red"); mk_prop "size" None])
    as (db' & Hfold & _ & Hin).
  - repeat constructor.
  - discriminate.
  - exists db'. split; [exact Hfold|]. apply Hin; reflexivity.
Defined.

End examples.

End EditorFacts.
